(** * Plant-health classification: heuristic scorer, decision unit, recommendations

    A shallow embedding of the algorithmic core of the repository:

    - [test_new_crops_model]  embeds [src/test_new_crops_model.py]
      (feature extraction, crop adjustment table, heuristic scorer);
    - [api_predict]           embeds [src/api/predict.py]
      (preprocessing, recommendations, the serverless POST handler);
    - [create_ml_api]         embeds [src/create_ml_api.py]
      (the same pipeline behind the Flask route).

    Numbers.  Python floats are idealised as exact rationals ([Q]); decimal
    constants of the source are the same decimals here.  Comparisons are the
    boolean tests of the source.  [np.sqrt] has no rational counterpart and is
    a parameter of the feature extractor.  The draw of [np.random.normal] is an
    explicit argument of the scorer.  The confidence is the one place where an
    integer is read off a product: there the arithmetic is that of
    [numpy.float32], the type of a Keras output ([F32]).

    Strings.  Python [str] values are [string]s; [lower] folds the ASCII
    letters.  A value that may be [None] is an [option].

    Exceptions.  Code that can raise returns a [result]; a raised exception
    carries its class name and its message ([str(e)]).

    Responses.  A response is its status line and its JSON body.  The
    dictionary a service answers with goes through the JSON encoder
    ([json_dumps]), which accepts the built-in types only.  Printing is not
    represented. *)

From Stdlib Require Import QArith Qround Qabs Lqa ZArith Lia.
From Stdlib Require Import String Ascii List Bool.
Import ListNotations.

Open Scope Q_scope.

(** ** Python numbers *)

Module Py.

(** [a < b] on floats. *)
Definition ltb (a b : Q) : bool :=
  match a ?= b with
  | Lt => true
  | _ => false
  end.

(** [a > b] on floats. *)
Definition gtb (a b : Q) : bool := ltb b a.

(** The builtin [max(a, b)]: the first argument is kept unless the second
    is strictly greater. *)
Definition max (a b : Q) : Q := if gtb b a then b else a.

(** The builtin [min(a, b)]: the first argument is kept unless the second
    is strictly smaller. *)
Definition min (a b : Q) : Q := if ltb b a then b else a.

(** [int(x)]: truncation toward zero. *)
Definition int (x : Q) : Z := Z.quot (Qnum x) (Zpos (Qden x)).

(** [round(x)]: nearest integer, ties to the even one. *)
Definition round (x : Q) : Z :=
  let f := Qfloor x in
  let r := (x - inject_Z f)%Q in
  match (r ?= 1 # 2)%Q with
  | Lt => f
  | Gt => (f + 1)%Z
  | Eq => if Z.even f then f else (f + 1)%Z
  end.

(** [abs(x)]. *)
Definition abs (x : Q) : Q := Qabs x.

(** A raised exception: its class and [str(e)]. *)
Inductive exn : Type :=
| Exc (cls : string) (msg : string).

Definition exn_cls (e : exn) : string := let 'Exc c _ := e in c.
Definition exn_msg (e : exn) : string := let 'Exc _ m := e in m.

(** The outcome of code that may raise. *)
Inductive result (A : Type) : Type :=
| Ok (a : A)
| Raise (e : exn).

Arguments Ok {A} a.
Arguments Raise {A} e.

Definition bind {A B : Type} (r : result A) (k : A -> result B) : result B :=
  match r with
  | Ok a => k a
  | Raise e => Raise e
  end.

(** [try: body except Exception as e: handler(e)]. *)
Definition try_except {A : Type} (body : result A) (handler : exn -> result A)
  : result A :=
  match body with
  | Ok a => Ok a
  | Raise e => handler e
  end.

(** [c.lower()] on one ASCII character. *)
Definition lower_char (c : ascii) : ascii :=
  let n := nat_of_ascii c in
  if (65 <=? n)%nat && (n <=? 90)%nat then ascii_of_nat (n + 32) else c.

(** [s.lower()]. *)
Fixpoint lower (s : string) : string :=
  match s with
  | EmptyString => EmptyString
  | String c t => String (lower_char c) (lower t)
  end.

(** [needle in hay] on strings. *)
Fixpoint str_in (needle hay : string) : bool :=
  if prefix needle hay then true
  else match hay with
       | EmptyString => false
       | String _ t => str_in needle t
       end.

(** [s.startswith(p)]. *)
Definition startswith (s p : string) : bool := prefix p s.

(** Truthiness of an optional string: [None] and [''] are falsy. *)
Definition truthy (s : option string) : bool :=
  match s with
  | None => false
  | Some EmptyString => false
  | Some _ => true
  end.

(** [s or dflt]. *)
Definition or_else (s : option string) (dflt : string) : string :=
  match s with
  | Some (String c t) => String c t
  | _ => dflt
  end.

(** The text after the first comma and up to the next one. *)
Fixpoint until_comma (s : string) : string :=
  match s with
  | EmptyString => EmptyString
  | String c t => if Ascii.eqb c "," then EmptyString else String c (until_comma t)
  end.

(** [s.split(',')[1]]: raises [IndexError] when [s] has no comma. *)
Fixpoint split_comma_1 (s : string) : result string :=
  match s with
  | EmptyString => Raise (Exc "IndexError" "list index out of range")
  | String c t => if Ascii.eqb c "," then Ok (until_comma t) else split_comma_1 t
  end.

End Py.

Import Py.

Declare Scope py_scope.
Infix "<?" := Py.ltb (at level 70, no associativity) : py_scope.
Infix ">?" := Py.gtb (at level 70, no associativity) : py_scope.
Notation "x <- r ;; k" := (Py.bind r (fun x => k))
  (at level 61, r at next level, right associativity) : py_scope.
Open Scope string_scope.
Open Scope py_scope.

(** ** Single precision *)

Module F32.

(** [2 ** e] for an integer [e]. *)
Definition pow2 (e : Z) : Q :=
  if (0 <=? e)%Z then inject_Z (2 ^ e) else 1 / inject_Z (2 ^ (- e)).

(** The binary exponent of a positive number, [floor(log2(x))]. *)
Definition exponent (x : Q) : Z :=
  if Qle_bool 1 x then Z.log2 (Qfloor x)
  else (- Z.log2_up (Qceiling (/ x)))%Z.

(** The spacing of the [numpy.float32] values around [x]: 24 significant
    bits, and the fixed spacing of the subnormal range below [2 ** -126]. *)
Definition ulp (x : Q) : Q := pow2 (Z.max (exponent (Qabs x)) (-126) - 23).

(** The [numpy.float32] nearest to [x], ties to the even significand.
    Overflow to infinity is not represented. *)
Definition round (x : Q) : Q :=
  match (x ?= 0)%Q with
  | Eq => 0
  | _ => inject_Z (Py.round (x / ulp x)) * ulp x
  end.

(** [a - b] on [numpy.float32]. *)
Definition sub (a b : Q) : Q := round (a - b).

(** [a * b] on [numpy.float32]. *)
Definition mul (a b : Q) : Q := round (a * b).

End F32.

(** ** numpy on lists *)

Module Np.

Definition sum (l : list Q) : Q := fold_right Qplus 0 l.

(** [np.mean] of the flattened values.  On an empty array numpy yields
    [nan], which [Q] does not have; the value here is [0 / 0 = 0], so what
    is proved of the mean of an array describes the code only where that
    array is not empty. *)
Definition mean (l : list Q) : Q := sum l / inject_Z (Z.of_nat (length l)).

(** [np.var]: the mean of the squared deviations from the mean. *)
Definition var (l : list Q) : Q :=
  let m := mean l in
  mean (map (fun x => (x - m) * (x - m)) l).

(** [np.diff] along a vector. *)
Fixpoint diff (l : list Q) : list Q :=
  match l with
  | a :: (b :: _) as t => (b - a) :: diff t
  | _ => []
  end.

(** Element-wise difference of two rows. *)
Fixpoint sub_rows (r2 r1 : list Q) : list Q :=
  match r2, r1 with
  | b :: t2, a :: t1 => (b - a) :: sub_rows t2 t1
  | _, _ => []
  end.

(** [np.diff(g, axis=0)] of a matrix given by rows. *)
Fixpoint diff_axis0 (g : list (list Q)) : list (list Q) :=
  match g with
  | r1 :: (r2 :: _) as t => sub_rows r2 r1 :: diff_axis0 t
  | _ => []
  end.

(** [np.diff(g, axis=1)]. *)
Definition diff_axis1 (g : list (list Q)) : list (list Q) := map diff g.

(** [np.abs] element-wise on a matrix, flattened for [np.mean]. *)
Definition abs_flat (g : list (list Q)) : list Q := map Py.abs (concat g).

End Np.

(** ** Tensors *)

(** One pixel: the three channel values, in the order R, G, B. *)
Definition pixel : Type := (Q * Q * Q)%type.

(** An unbatched tensor of shape [h, w, 3], given by rows. *)
Definition image : Type := list (list pixel).

(** A batched tensor of shape [n, h, w, 3]. *)
Definition batch : Type := list image.

Definition chan_r (p : pixel) : Q := fst (fst p).
Definition chan_g (p : pixel) : Q := snd (fst p).
Definition chan_b (p : pixel) : Q := snd p.

(** The values of a pixel along the channel axis. *)
Definition channels (p : pixel) : list Q := [chan_r p; chan_g p; chan_b p].

(** All values of [img], in storage order. *)
Definition flat (img : image) : list Q := flat_map (flat_map channels) img.

(** [img[:, :, k]], flattened. *)
Definition channel (k : pixel -> Q) (img : image) : list Q := flat_map (map k) img.

(** [np.mean(img, axis=2)]. *)
Definition mean_axis2 (img : image) : list (list Q) :=
  map (map (fun p => Np.mean (channels p))) img.

(** A [h] by [w] image whose pixels are all [p]. *)
Definition uniform_image (h w : nat) (p : pixel) : image := repeat (repeat p w) h.

(** ** [src/test_new_crops_model.py] *)

Module test_new_crops_model.

(** The dictionary returned by [analyze_image_features]: its keys are fixed. *)
Record FeatureVector : Type := mkFeatures {
  brightness : Q;
  contrast : Q;
  green_dominance : Q;
  color_balance : Q;
  texture_complexity : Q;
  r_mean : Q;
  g_mean : Q;
  b_mean : Q
}.

(** [analyze_image_features(img_array)], lines 38-78.  [np_sqrt] stands for
    [np.sqrt].  Indexing an empty batch raises. *)
Definition analyze_image_features (np_sqrt : Q -> Q) (img_array : option batch)
  : result (option FeatureVector) :=
  match img_array with
  | None => Ok None
  | Some [] => Raise (Exc "IndexError" "index 0 is out of bounds for axis 0 with size 0")
  | Some (img :: _) =>
      let brightness := Np.mean (flat img) in
      let variance := Np.var (flat img) in
      let contrast := np_sqrt variance in
      let r_mean := Np.mean (channel chan_r img) in
      let g_mean := Np.mean (channel chan_g img) in
      let b_mean := Np.mean (channel chan_b img) in
      let total_color := r_mean + g_mean + b_mean + 0.001 in
      let green_dominance := g_mean / total_color in
      let color_balance := Py.abs (r_mean - b_mean) in
      let gray := mean_axis2 img in
      let edges_x := Np.abs_flat (Np.diff_axis1 gray) in
      let edges_y := Np.abs_flat (Np.diff_axis0 gray) in
      let texture_complexity := Np.mean edges_x + Np.mean edges_y in
      Ok (Some (mkFeatures brightness contrast green_dominance color_balance
                           texture_complexity r_mean g_mean b_mean))
  end.

(** [get_crop_adjustment(crop_type)], lines 120-140. *)
Definition get_crop_adjustment (crop_type : option string) : Q :=
  if negb (truthy crop_type) then 0.0
  else
    let crop := lower (or_else crop_type "") in
    if str_in "palak" crop || str_in "keerai" crop || str_in "spinach" crop then 0.1
    else if str_in "arai" crop || str_in "siru" crop then 0.1
    else if str_in "tomato" crop then -0.5
    else if str_in "pepper" crop then -0.3
    else if str_in "strawberry" crop then -0.8
    else if str_in "corn" crop || str_in "maize" crop then 0.3
    else 0.0.

(** The value of [health_score] after line 110 of
    [simulate_web_model_prediction], before the random draw is added. *)
Definition health_score_before_noise (features : FeatureVector)
  (crop_type : option string) : Q :=
  let health_score := 0.5 in
  let health_score :=
    if (brightness features >? 0.6) && (green_dominance features >? 0.35)
       && (texture_complexity features >? 0.02) then 0.95
    else if (brightness features >? 0.4) && (green_dominance features >? 0.3) then 0.75
    else if (brightness features <? 0.3) || (green_dominance features <? 0.25) then 0.15
    else 0.45 in
  let health_score :=
    if (0.2 <? contrast features) && (contrast features <? 0.4)
    then health_score + 0.05 else health_score in
  let health_score :=
    if color_balance features >? 0.3 then health_score - 0.1 else health_score in
  let crop_adjustment := get_crop_adjustment crop_type in
  let health_score := health_score + crop_adjustment * 0.1 in
  health_score.

(** [simulate_web_model_prediction(features, crop_type)], lines 80-118.
    [noise] is the value drawn by [np.random.normal(0, 0.01)]. *)
Definition simulate_web_model_prediction (features : option FeatureVector)
  (crop_type : option string) (noise : Q) : Q :=
  match features with
  | None => 0.0
  | Some f =>
      let health_score := health_score_before_noise f crop_type in
      let health_score := health_score + noise in
      let final_prediction := Py.max 0.001 (Py.min 0.999 health_score) in
      final_prediction
  end.

(** [sim_healthy = sim_prediction > 0.5], line 222 of [test_all_images]. *)
Definition sim_healthy (sim_prediction : Q) : bool := sim_prediction >? 0.5.

(** [h5_healthy = h5_pred_raw > 0.5], line 233 of [test_all_images]. *)
Definition h5_healthy (h5_pred_raw : Q) : bool := h5_pred_raw >? 0.5.

End test_new_crops_model.

(** ** External collaborators *)

(** What the two services use from base64, Pillow, numpy and Keras.  Every
    call that can raise returns a [result]. *)
Record Externals : Type := mkExternals {
  pil_image : Type;
  keras_model : Type;
  b64decode : string -> result string;
  image_open : string -> result pil_image;
  image_mode : pil_image -> string;
  image_convert_rgb : pil_image -> result pil_image;
  image_resize_224 : pil_image -> result pil_image;
  np_array : pil_image -> list (list (Z * Z * Z));
  model_predict : keras_model -> batch -> result Q;
  format_6f : Q -> string
}.

(** [np.array(img) / 255.0]. *)
Definition div_255 (a : list (list (Z * Z * Z))) : image :=
  map (map (fun '(r, g, b) => (inject_Z r / 255.0, inject_Z g / 255.0, inject_Z b / 255.0))) a.

(** [np.expand_dims(a, axis=0)]. *)
Definition expand_dims_0 (a : image) : batch := [a].

(** The JSON object of a request: the keys the services read.  [cropType]
    is absent, [null], or a string. *)
Record request_data : Type := mkData {
  image_field : option string;
  cropType_field : option (option string)
}.

(** [data.get('cropType', 'Unknown Crop')]. *)
Definition get_cropType (data : request_data) : option string :=
  match cropType_field data with
  | Some v => v
  | None => Some "Unknown Crop"
  end.

Record model_info : Type := mkInfo {
  raw_prediction_value : Q;
  model_threshold : Q;
  interpretation : string;
  model_type : string;
  crop_type_echo : option string
}.

Record prediction_result : Type := mkResult {
  prediction_text : string;
  confidence : Z;
  is_healthy : bool;
  recommendations : string;
  info : model_info
}.

(** The JSON body of a response. *)
Inductive body : Type :=
| ErrorBody (error : string) (message : option string) (code : option Z)
| ResultBody (r : prediction_result).

Record response : Type := mkResponse {
  status : Z;
  payload : body
}.

(** ** JSON serialisation *)

(** The Python values handed to [json.dumps] and [jsonify], with the types
    that decide whether the encoder accepts them. *)
#[local] Unset Elimination Schemes.

Inductive py_value : Type :=
| PyNone
| PyStr (s : string)
| PyInt (z : Z)
| PyFloat (q : Q)
| PyBool (b : bool)
| NumpyBool (b : bool)
| PyDict (items : list (string * py_value)).

#[local] Set Elimination Schemes.

(** [json.dumps(v)]: the built-in types are encoded; a [numpy.bool_] makes
    the encoder raise [TypeError].  The document is kept as the value it
    encodes. *)
Fixpoint json_dumps (v : py_value) : result py_value :=
  match v with
  | NumpyBool _ =>
      Raise (Exc "TypeError" "Object of type bool_ is not JSON serializable")
  | PyDict items =>
      items <- (fix dumps_items (l : list (string * py_value))
                  : result (list (string * py_value)) :=
                  match l with
                  | [] => Ok []
                  | (k, x) :: t =>
                      x <- json_dumps x ;;
                      t <- dumps_items t ;;
                      Ok ((k, x) :: t)
                  end) items ;;
      Ok (PyDict items)
  | _ => Ok v
  end.

(** The dictionary [result] of lines 146-158 ([src/api/predict.py]) and
    158-170 ([src/create_ml_api.py]) with the types of its values:
    [confidence] went through [int], [raw_prediction_value] through [float];
    [is_healthy] is what [prediction > 0.5] yields on a [numpy.float32], a
    [numpy.bool_]. *)
Definition result_dict (r : prediction_result) : py_value :=
  PyDict
    [ ("prediction", PyStr (prediction_text r));
      ("confidence", PyInt (confidence r));
      ("is_healthy", NumpyBool (is_healthy r));
      ("recommendations", PyStr (recommendations r));
      ("model_info",
       PyDict
         [ ("raw_prediction_value", PyFloat (raw_prediction_value (info r)));
           ("model_threshold", PyFloat (model_threshold (info r)));
           ("interpretation", PyStr (interpretation (info r)));
           ("model_type", PyStr (model_type (info r)));
           ("crop_type",
            match crop_type_echo (info r) with
            | Some c => PyStr c
            | None => PyNone
            end) ]) ].

(** ** [src/api/predict.py] *)

Module api_predict.

Section WithExternals.

Variable E : Externals.

(** The [try] block of [preprocess_image], lines 50-73. *)
Definition preprocess_image_try (image_data : string) : result batch :=
  image_data <- (if startswith image_data "data:image"
                 then split_comma_1 image_data else Ok image_data) ;;
  image_bytes <- b64decode E image_data ;;
  img <- image_open E image_bytes ;;
  img <- (if negb (String.eqb (image_mode E img) "RGB")
          then image_convert_rgb E img else Ok img) ;;
  img <- image_resize_224 E img ;;
  let img_array := div_255 (np_array E img) in
  let img_array := expand_dims_0 img_array in
  Ok img_array.

(** [preprocess_image(image_data)], lines 47-75: any exception is raised
    again as a plain [Exception] with a prefixed message. *)
Definition preprocess_image (image_data : string) : result batch :=
  try_except (preprocess_image_try image_data)
    (fun e => Raise (Exc "Exception" ("Image preprocessing failed: " ++ exn_msg e))).

(** [get_crop_recommendations(is_healthy, crop_type)], lines 77-111. *)
Definition get_crop_recommendations (is_healthy : bool) (crop_type : option string)
  : string :=
  let crop := if truthy crop_type then lower (or_else crop_type "") else "plant" in
  if is_healthy then
    let recommendations :=
      "Your " ++ or_else crop_type "plant"
      ++ " appears healthy! Continue with current care routine. " in
    let recommendations :=
      if str_in "palak" crop || str_in "keerai" crop || str_in "spinach" crop then
        recommendations ++ "Leafy greens benefit from regular harvesting to encourage new growth. Maintain pH 6.0-6.5 and ensure adequate nitrogen. "
      else if str_in "tomato" crop then
        recommendations ++ "Monitor for early blight and ensure good air circulation. Support heavy fruit branches. "
      else if str_in "strawberry" crop then
        recommendations ++ "Watch for powdery mildew and ensure good drainage. Remove runners for better fruit production. "
      else if str_in "pepper" crop then
        recommendations ++ "Maintain consistent moisture and watch for bacterial spot. Ensure adequate calcium. "
      else recommendations in
    let recommendations :=
      recommendations ++ "Monitor regularly for any changes in leaf color or texture. Check for pests weekly as prevention." in
    recommendations
  else
    let recommendations :=
      or_else crop_type "Plant" ++ " shows signs of pest or disease. Immediate actions: " in
    let recommendations :=
      recommendations ++ "1) Isolate the plant to prevent spread, 2) Carefully inspect leaves and stems for pests, " in
    let recommendations :=
      if str_in "palak" crop || str_in "keerai" crop || str_in "spinach" crop then
        recommendations ++ "3) Check for aphids and leaf miners (common in leafy greens), 4) Ensure proper air circulation to prevent downy mildew, "
      else if str_in "tomato" crop then
        recommendations ++ "3) Check for whiteflies, aphids, and early blight, 4) Remove affected leaves immediately, "
      else if str_in "strawberry" crop then
        recommendations ++ "3) Look for spider mites and powdery mildew, 4) Improve air circulation and reduce humidity, "
      else if str_in "pepper" crop then
        recommendations ++ "3) Check for thrips and bacterial spot, 4) Ensure good drainage and avoid overhead watering, "
      else
        recommendations ++ "3) Check root system for rot or discoloration, 4) Adjust nutrient solution pH and concentration, " in
    let recommendations :=
      recommendations ++ "5) Consider applying organic treatment like neem oil, 6) Monitor closely for 48-72 hours and adjust care as needed." in
    recommendations.

(** [load_model()], lines 17-45.  [global_model] is the module-level
    [model]; [model_file] is what the first existing path holds: nothing,
    a file Keras rejects, or a model.  Returns the outcome and the new
    value of the global. *)
Definition load_model (global_model : option (keras_model E))
  (model_file : option (result (keras_model E)))
  : result (keras_model E) * option (keras_model E) :=
  match global_model with
  | Some m => (Ok m, global_model)
  | None =>
      match model_file with
      | None =>
          (Raise (Exc "Exception" "Model file new_plant_health_classifier.h5 not found"),
           global_model)
      | Some (Ok m) => (Ok m, Some m)
      | Some (Raise e) =>
          (Raise (Exc "Exception" ("Failed to load model: " ++ exn_msg e)), global_model)
      end
  end.

(** Line 139 of [do_POST]: [is_healthy = prediction > 0.5]. *)
Definition is_healthy_of (prediction : Q) : bool := prediction >? 0.5.

(** Line 140 of [do_POST]:
    [confidence = int((prediction if is_healthy else (1 - prediction)) * 100)].
    [prediction] is a [numpy.float32], so the difference and the product are
    single-precision operations, each rounded. *)
Definition confidence_of (prediction : Q) : Z :=
  let is_healthy := is_healthy_of prediction in
  Py.int (F32.mul (if is_healthy then prediction else F32.sub 1 prediction) 100).

(** [send_error_response(code, message)], lines 181-191. *)
Definition send_error_response (code : Z) (message : string) : response :=
  mkResponse code (ErrorBody message None (Some code)).

(** How the [try] block of [do_POST] ends: a response was written in full,
    or an exception was raised, either before anything was sent or after the
    status line [sent] and its headers were sent. *)
Inductive outcome : Type :=
| Written (r : response)
| Raised (sent : option Z) (e : exn).

(** The [try] block of [do_POST], lines 116-168.  [parsed] is the outcome of
    reading and parsing the request body.  [send_response(200)] and the
    headers (lines 161-166) precede [json.dumps(result)] (line 168). *)
Definition do_POST_try (global_model : option (keras_model E))
  (model_file : option (result (keras_model E))) (parsed : result request_data)
  : outcome * option (keras_model E) :=
  match parsed with
  | Raise e => (Raised None e, global_model)
  | Ok data =>
      match image_field data with
      | None =>
          (Written (send_error_response 400 "No image data provided"), global_model)
      | Some image_data =>
          let crop_type := get_cropType data in
          let (loaded, global_model) := load_model global_model model_file in
          (match (model <- loaded ;;
                  img_array <- preprocess_image image_data ;;
                  model_predict E model img_array) with
           | Raise e => Raised None e
           | Ok prediction =>
               let is_healthy := is_healthy_of prediction in
               let confidence := confidence_of prediction in
               let recommendations := get_crop_recommendations is_healthy crop_type in
               let result :=
                 mkResult
                   (if is_healthy then "Healthy Plant"
                    else "Affected Plant (Pest/Disease detected)")
                   confidence is_healthy recommendations
                   (mkInfo prediction 0.5
                      ("Model output: " ++ format_6f E prediction ++ " "
                       ++ (if is_healthy then ">" else "<=") ++ " threshold 0.5")
                      "Real H5 Model (Vercel Serverless)" crop_type) in
               match json_dumps (result_dict result) with
               | Ok _ => Written (mkResponse 200 (ResultBody result))
               | Raise e => Raised (Some 200%Z) e
               end
           end,
           global_model)
      end
  end.

(** [handler.do_POST], lines 114-171: any exception is answered by
    [send_error_response(500, str(e))].  What the client receives has the
    status of the first status line sent; when the exception comes after a
    status line, what [send_error_response] writes follows the headers
    already sent and arrives as the body. *)
Definition do_POST (global_model : option (keras_model E))
  (model_file : option (result (keras_model E))) (parsed : result request_data)
  : response * option (keras_model E) :=
  let (r, global_model) := do_POST_try global_model model_file parsed in
  match r with
  | Written resp => (resp, global_model)
  | Raised None e => (send_error_response 500 (exn_msg e), global_model)
  | Raised (Some sent) e =>
      (mkResponse sent (payload (send_error_response 500 (exn_msg e))), global_model)
  end.

End WithExternals.

End api_predict.

(** ** [src/create_ml_api.py] *)

Module create_ml_api.

Section WithExternals.

Variable E : Externals.

(** The [try] block of [preprocess_image], lines 43-67. *)
Definition preprocess_image_try (image_data : string) : result batch :=
  image_data <- (if startswith image_data "data:image"
                 then split_comma_1 image_data else Ok image_data) ;;
  image_bytes <- b64decode E image_data ;;
  img <- image_open E image_bytes ;;
  img <- (if negb (String.eqb (image_mode E img) "RGB")
          then image_convert_rgb E img else Ok img) ;;
  img <- image_resize_224 E img ;;
  let img_array := div_255 (np_array E img) in
  let img_array := expand_dims_0 img_array in
  Ok img_array.

(** [preprocess_image(image_data)], lines 40-70: any exception is printed
    and [None] is returned. *)
Definition preprocess_image (image_data : string) : option batch :=
  match preprocess_image_try image_data with
  | Ok img_array => Some img_array
  | Raise _ => None
  end.

(** [get_crop_specific_recommendations(is_healthy, crop_type)], lines 72-106. *)
Definition get_crop_specific_recommendations (is_healthy : bool)
  (crop_type : option string) : string :=
  let crop := if truthy crop_type then lower (or_else crop_type "") else "plant" in
  if is_healthy then
    let recommendations :=
      "Your " ++ or_else crop_type "plant"
      ++ " appears healthy! Continue with current care routine. " in
    let recommendations :=
      if str_in "palak" crop || str_in "keerai" crop || str_in "spinach" crop then
        recommendations ++ "Leafy greens benefit from regular harvesting to encourage new growth. Maintain pH 6.0-6.5 and ensure adequate nitrogen. "
      else if str_in "tomato" crop then
        recommendations ++ "Monitor for early blight and ensure good air circulation. Support heavy fruit branches. "
      else if str_in "strawberry" crop then
        recommendations ++ "Watch for powdery mildew and ensure good drainage. Remove runners for better fruit production. "
      else if str_in "pepper" crop then
        recommendations ++ "Maintain consistent moisture and watch for bacterial spot. Ensure adequate calcium. "
      else recommendations in
    let recommendations :=
      recommendations ++ "Monitor regularly for any changes in leaf color or texture. Check for pests weekly as prevention." in
    recommendations
  else
    let recommendations :=
      or_else crop_type "Plant" ++ " shows signs of pest or disease. Immediate actions: " in
    let recommendations :=
      recommendations ++ "1) Isolate the plant to prevent spread, 2) Carefully inspect leaves and stems for pests, " in
    let recommendations :=
      if str_in "palak" crop || str_in "keerai" crop || str_in "spinach" crop then
        recommendations ++ "3) Check for aphids and leaf miners (common in leafy greens), 4) Ensure proper air circulation to prevent downy mildew, "
      else if str_in "tomato" crop then
        recommendations ++ "3) Check for whiteflies, aphids, and early blight, 4) Remove affected leaves immediately, "
      else if str_in "strawberry" crop then
        recommendations ++ "3) Look for spider mites and powdery mildew, 4) Improve air circulation and reduce humidity, "
      else if str_in "pepper" crop then
        recommendations ++ "3) Check for thrips and bacterial spot, 4) Ensure good drainage and avoid overhead watering, "
      else
        recommendations ++ "3) Check root system for rot or discoloration, 4) Adjust nutrient solution pH and concentration, " in
    let recommendations :=
      recommendations ++ "5) Consider applying organic treatment like neem oil, 6) Monitor closely for 48-72 hours and adjust care as needed." in
    recommendations.

(** Line 151 of [predict]: [is_healthy = prediction > 0.5]. *)
Definition is_healthy_of (prediction : Q) : bool := prediction >? 0.5.

(** Line 152 of [predict]:
    [confidence = int((prediction if is_healthy else (1 - prediction)) * 100)].
    [prediction] is a [numpy.float32], so the difference and the product are
    single-precision operations, each rounded. *)
Definition confidence_of (prediction : Q) : Z :=
  let is_healthy := is_healthy_of prediction in
  Py.int (F32.mul (if is_healthy then prediction else F32.sub 1 prediction) 100).

(** The [try] block of [predict], lines 121-174.  [model] is the module-level
    global; [parsed] is the outcome of [request.get_json()]; [jsonify(result)]
    (line 174) encodes the dictionary as [json.dumps] does. *)
Definition predict_try (model : option (keras_model E))
  (parsed : result (option request_data)) : result response :=
  match model with
  | None =>
      Ok (mkResponse 500 (ErrorBody "Model not loaded" (Some "H5 model failed to load") None))
  | Some model =>
      data <- parsed ;;
      match data with
      | None | Some (mkData None _) =>
          Ok (mkResponse 400
                (ErrorBody "No image data provided"
                   (Some "Please provide image data in base64 format") None))
      | Some (mkData (Some image_data) _ as data) =>
          let crop_type := get_cropType data in
          match preprocess_image image_data with
          | None =>
              Ok (mkResponse 400
                    (ErrorBody "Image preprocessing failed"
                       (Some "Could not process the provided image") None))
          | Some img_array =>
              prediction <- model_predict E model img_array ;;
              let is_healthy := is_healthy_of prediction in
              let confidence := confidence_of prediction in
              let recommendations :=
                get_crop_specific_recommendations is_healthy crop_type in
              let result :=
                mkResult
                  (if is_healthy then "Healthy Plant"
                   else "Affected Plant (Pest/Disease detected)")
                  confidence is_healthy recommendations
                  (mkInfo prediction 0.5
                     ("Model output: " ++ format_6f E prediction ++ " "
                      ++ (if is_healthy then ">" else "<=") ++ " threshold 0.5")
                     "Real H5 Model (new_plant_health_classifier)" crop_type) in
              _ <- json_dumps (result_dict result) ;;
              Ok (mkResponse 200 (ResultBody result))
          end
      end
  end.

(** [predict()], lines 117-181: any exception becomes a 500. *)
Definition predict (model : option (keras_model E))
  (parsed : result (option request_data)) : response :=
  match predict_try model parsed with
  | Ok resp => resp
  | Raise e => mkResponse 500 (ErrorBody "Prediction failed" (Some (exn_msg e)) None)
  end.

End WithExternals.

End create_ml_api.

(** ** The specification's wording, for comparison with the code *)

Module Spec.

Import test_new_crops_model.

(** [needle] occurs in [hay] as a contiguous substring. *)
Definition substring_of (needle hay : string) : Prop :=
  exists pre post, hay = pre ++ needle ++ post.

(** The crop bias table, in priority order: keyword group and bias. *)
Definition bias_table : list (list string * Q) :=
  [ (["palak"; "keerai"; "spinach"], 0.1);
    (["arai"; "siru"], 0.1);
    (["tomato"], -0.5);
    (["pepper"], -0.3);
    (["strawberry"], -0.8);
    (["corn"; "maize"], 0.3) ].

(** A rule matches when one of its keywords occurs in the folded label. *)
Definition rule_matches (keys : list string) (crop : string) : bool :=
  existsb (fun k => str_in k crop) keys.

(** The first matching rule of [table] from position [i] on: its position
    and its bias. *)
Fixpoint first_match (table : list (list string * Q)) (i : nat) (crop : string)
  : option (nat * Q) :=
  match table with
  | [] => None
  | (keys, bias) :: rest =>
      if rule_matches keys crop then Some (i, bias) else first_match rest (S i) crop
  end.

(** The upper-case letters, each with its lower-case form. *)
Definition letters : list (ascii * ascii) :=
  combine (list_ascii_of_string "ABCDEFGHIJKLMNOPQRSTUVWXYZ")
          (list_ascii_of_string "abcdefghijklmnopqrstuvwxyz").

(** Case folding of one character: an upper-case letter becomes its
    lower-case form, anything else is kept. *)
Definition fold_char (c : ascii) : ascii :=
  match find (fun p => Ascii.eqb (fst p) c) letters with
  | Some p => snd p
  | None => c
  end.

(** Case folding of a label. *)
Fixpoint casefold (s : string) : string :=
  match s with
  | EmptyString => EmptyString
  | String c t => String (fold_char c) (casefold t)
  end.

(** [lookup(cropLabel)]: case-fold, first match wins, otherwise [0.0];
    an empty or missing label gives [0.0]. *)
Definition lookup (table : list (list string * Q)) (label : option string) : Q :=
  match label with
  | None => 0.0
  | Some EmptyString => 0.0
  | Some s =>
      match first_match table 0 (casefold s) with
      | Some (_, bias) => bias
      | None => 0.0
      end
  end.

(** The first condition of the primary tier. *)
Definition tier1 (f : FeatureVector) : Prop :=
  0.6 < brightness f /\ 0.35 < green_dominance f /\ 0.02 < texture_complexity f.

(** The second condition of the primary tier. *)
Definition tier2 (f : FeatureVector) : Prop :=
  0.4 < brightness f /\ 0.3 < green_dominance f.

(** The third condition of the primary tier. *)
Definition tier3 (f : FeatureVector) : Prop :=
  brightness f < 0.3 \/ green_dominance f < 0.25.

(** The base score: the first tier whose condition holds decides. *)
Inductive primary_tier (f : FeatureVector) : Q -> Prop :=
| Tier1 : tier1 f -> primary_tier f 0.95
| Tier2 : ~ tier1 f -> tier2 f -> primary_tier f 0.75
| Tier3 : ~ tier1 f -> ~ tier2 f -> tier3 f -> primary_tier f 0.15
| Tier4 : ~ tier1 f -> ~ tier2 f -> ~ tier3 f -> primary_tier f 0.45.

(** The contrast adjustment. *)
Inductive contrast_adjustment (f : FeatureVector) : Q -> Prop :=
| ContrastGood : 0.2 < contrast f -> contrast f < 0.4 -> contrast_adjustment f 0.05
| ContrastOther : ~ (0.2 < contrast f /\ contrast f < 0.4) -> contrast_adjustment f 0.

(** The colour balance adjustment. *)
Inductive balance_adjustment (f : FeatureVector) : Q -> Prop :=
| BalanceOff : 0.3 < color_balance f -> balance_adjustment f (-0.1)
| BalanceOther : ~ 0.3 < color_balance f -> balance_adjustment f 0.

(** [round(100 * (p if isHealthy else 1 - p))], clamped to [[0, 100]]. *)
Definition confidence_percent (p : Q) : Z :=
  let is_healthy := 0.5 <? p in
  Z.max 0 (Z.min 100 (Py.round (100 * (if is_healthy then p else 1 - p)))).

(** Every value of the tensor is in [[0, 1]]. *)
Definition normalized (img : image) : Prop :=
  forall v, In v (flat img) -> 0 <= v <= 1.


End Spec.

(** ** Instances used to run the model on concrete inputs *)

(** The square root rounded down to six decimals: one admissible [np.sqrt]. *)
Definition sqrt_floor (v : Q) : Q :=
  inject_Z (Z.sqrt (Qfloor (v * 1000000000000))) / 1000000.

(** The tensor of scenario A: 224 by 224 pixels, all (50, 150, 50) / 255. *)
Definition scenario_A : batch :=
  [uniform_image 224 224 (50 / 255, 150 / 255, 50 / 255)].


(** ** More of [src/test_new_crops_model.py]: the test driver *)

Module crops_driver.

Import test_new_crops_model.

(** [parse_filename(filename)], lines 158-180: the crop label and the
    expected verdict read off a file name. *)
Definition parse_filename (filename : string) : string * bool :=
  let filename := lower filename in
  let crop_type :=
    if str_in "arai" filename then "arai keerai"
    else if str_in "palak" filename then "palak"
    else if str_in "siru" filename then "siru keerai"
    else "unknown" in
  let expected_healthy :=
    if str_in "unhealthy" filename then false
    else if str_in "healthy" filename then true
    else true in
  (crop_type, expected_healthy).

Section WithExternals.

Variable E : Externals.

(** [Image.open(image_path)] on a path of the file system. *)
Variable open_path : string -> result (pil_image E).

(** The [try] block of [load_and_preprocess_image], lines 17-33. *)
Definition load_and_preprocess_image_try (image_path : string) : result batch :=
  img <- open_path image_path ;;
  img <- (if negb (String.eqb (image_mode E img) "RGB")
          then image_convert_rgb E img else Ok img) ;;
  img <- image_resize_224 E img ;;
  let img_array := div_255 (np_array E img) in
  let img_array := expand_dims_0 img_array in
  Ok img_array.

(** [load_and_preprocess_image(image_path)], lines 14-36: any exception is
    printed and [None] is returned. *)
Definition load_and_preprocess_image (image_path : string) : option batch :=
  match load_and_preprocess_image_try image_path with
  | Ok img_array => Some img_array
  | Raise _ => None
  end.

End WithExternals.

End crops_driver.

(** ** More of [src/test_new_crops_model.py]: the test run and its report *)

Module crops_run.

Import test_new_crops_model.
Import crops_driver.

(** [s.endswith(suffix)]. *)
Fixpoint endswith (s suffix : string) : bool :=
  if String.eqb s suffix then true
  else match s with
       | EmptyString => false
       | String _ t => endswith t suffix
       end.

(** Insertion into a sorted list of strings. *)
Fixpoint insert_sorted (x : string) (l : list string) : list string :=
  match l with
  | [] => [x]
  | y :: t => if String.leb x y then x :: l else y :: insert_sorted x t
  end.

(** [l.sort()] on strings. *)
Definition sort (l : list string) : list string := fold_right insert_sorted [] l.

(** [k in d] for a dictionary kept as its items in insertion order. *)
Fixpoint dict_mem {V : Type} (d : list (string * V)) (k : string) : bool :=
  match d with
  | [] => false
  | (k', _) :: t => if String.eqb k' k then true else dict_mem t k
  end.

(** [d[k] = f(d[k])] when [k] is present, [d[k] = f(init)] appended when
    it is not. *)
Fixpoint dict_upsert {V : Type} (d : list (string * V)) (k : string) (init : V)
  (f : V -> V) : list (string * V) :=
  match d with
  | [] => [(k, f init)]
  | (k', v) :: t =>
      if String.eqb k' k then (k', f v) :: t else (k', v) :: dict_upsert t k init f
  end.

(** One entry of [results]. *)
Record test_result : Type := mkTestResult {
  filename : string;
  crop_type : string;
  expected_healthy : bool;
  features : option FeatureVector;
  simulation_prediction : Q;
  simulation_correct : bool;
  h5_prediction : option Q;
  h5_correct : option bool
}.

(** The counters of [crop_issues]. *)
Record issues : Type := mkIssues {
  false_positive : nat;
  false_negative : nat
}.

(** The counters of [crop_results]. *)
Record tally : Type := mkTally {
  correct : nat;
  total : nat
}.

(** A line printed by [suggest_adjustments]: the crop, the suggested and
    the current adjustment. *)
Inductive suggestion : Type :=
| Increase (crop : string) (suggested current : Q)
| Decrease (crop : string) (suggested current : Q).

(** The body of the first loop of [suggest_adjustments], lines 300-311. *)
Definition count_issue (crop_issues : list (string * issues)) (result : test_result)
  : list (string * issues) :=
  let crop := crop_type result in
  let expected := expected_healthy result in
  let predicted := simulation_prediction result >? 0.5 in
  dict_upsert crop_issues crop (mkIssues 0 0)
    (fun i =>
       if expected && negb predicted
       then mkIssues (false_positive i) (S (false_negative i))
       else if negb expected && predicted
       then mkIssues (S (false_positive i)) (false_negative i)
       else i).

(** The body of the second loop of [suggest_adjustments], lines 313-323. *)
Definition suggest_for (item : string * issues) : list suggestion :=
  let (crop, issues) := item in
  let current_adjustment := get_crop_adjustment (Some crop) in
  if (false_positive issues <? false_negative issues)%nat then
    let suggested_adjustment := current_adjustment + 0.5 in
    [Increase crop suggested_adjustment current_adjustment]
  else if (false_negative issues <? false_positive issues)%nat then
    let suggested_adjustment := current_adjustment - 0.3 in
    [Decrease crop suggested_adjustment current_adjustment]
  else [].

(** [suggest_adjustments(results)], lines 293-323: the lines it prints. *)
Definition suggest_adjustments (results : list test_result) : list suggestion :=
  let incorrect_results := filter (fun r => negb (simulation_correct r)) results in
  let crop_issues := fold_left count_issue incorrect_results [] in
  flat_map suggest_for crop_issues.

(** The body of the loop over [results] that fills [crop_results],
    lines 265-272. *)
Definition count_result (crop_results : list (string * tally)) (result : test_result)
  : list (string * tally) :=
  let crop := crop_type result in
  dict_upsert crop_results crop (mkTally 0 0)
    (fun t =>
       mkTally (if simulation_correct result then S (correct t) else correct t)
               (S (total t))).

(** What a run leaves behind: the returned [results], the counters, the
    accuracy and the per-crop table it prints, and the suggestions when it
    asks for them. *)
Record report : Type := mkReport {
  results : list test_result;
  correct_predictions : nat;
  total_predictions : nat;
  accuracy : Q;
  crop_results : list (string * tally);
  suggestions : option (list suggestion)
}.

(** What the main loop establishes of every entry it appends. *)
Definition entry_ok (r : test_result) : Prop :=
  (crop_type r, expected_healthy r) = parse_filename (filename r)
  /\ features r <> None
  /\ 0.001 <= simulation_prediction r <= 0.999
  /\ simulation_correct r
     = Bool.eqb (simulation_prediction r >? 0.5) (expected_healthy r).

(** The entries of [l] whose crop is [k]. *)
Definition of_crop (k : string) (l : list test_result) : list test_result :=
  filter (fun r => String.eqb (crop_type r) k) l.

(** An entry expected healthy and predicted affected. *)
Definition missed_healthy (r : test_result) : bool :=
  expected_healthy r && negb (simulation_prediction r >? 0.5).

(** An entry expected affected and predicted healthy. *)
Definition missed_affected (r : test_result) : bool :=
  negb (expected_healthy r) && (simulation_prediction r >? 0.5).

(** The entries marked incorrect. *)
Definition incorrect (l : list test_result) : list test_result :=
  filter (fun r => negb (simulation_correct r)) l.

(** A file name with one of the three image extensions, in any case. *)
Definition is_image_file (f : string) : bool :=
  endswith (lower f) ".jpg" || endswith (lower f) ".jpeg" || endswith (lower f) ".png".

Section WithExternals.

Variable E : Externals.
Variable open_path : string -> result (pil_image E).
Variable np_sqrt : Q -> Q.

(** The successive values of [np.random.normal(0, 0.01)]; the state of the
    generator is the number of values drawn so far. *)
Variable draw : nat -> Q.

(** The variables the main loop updates. *)
Record loop_state : Type := mkLoop {
  loop_results : list test_result;
  loop_correct : nat;
  loop_total : nat;
  loop_drawn : nat
}.

(** The body of the main loop of [test_all_images], lines 204-255. *)
Definition test_image (h5_model : option (keras_model E)) (st : loop_state)
  (filename : string) : result loop_state :=
  let image_path := "new crops test" ++ "/" ++ filename in
  let (crop_type, expected_healthy) := parse_filename filename in
  match load_and_preprocess_image E open_path image_path with
  | None => Ok st
  | Some img_array =>
      features <- analyze_image_features np_sqrt (Some img_array) ;;
      let sim_prediction :=
        simulate_web_model_prediction features (Some crop_type) (draw (loop_drawn st)) in
      let drawn :=
        match features with
        | Some _ => S (loop_drawn st)
        | None => loop_drawn st
        end in
      let sim_healthy := sim_prediction >? 0.5 in
      let sim_correct := Bool.eqb sim_healthy expected_healthy in
      let (h5_prediction, h5_correct) :=
        match h5_model with
        | None => (None, None)
        | Some model =>
            match model_predict E model img_array with
            | Ok h5_pred_raw =>
                let h5_healthy := h5_pred_raw >? 0.5 in
                (Some h5_pred_raw, Some (Bool.eqb h5_healthy expected_healthy))
            | Raise _ => (None, None)
            end
        end in
      let result :=
        mkTestResult filename crop_type expected_healthy features sim_prediction
                     sim_correct h5_prediction h5_correct in
      Ok (mkLoop (loop_results st ++ [result])%list
                 (if sim_correct then S (loop_correct st) else loop_correct st)
                 (S (loop_total st)) drawn)
  end.

(** The main loop. *)
Fixpoint test_images (h5_model : option (keras_model E)) (st : loop_state)
  (image_files : list string) : result loop_state :=
  match image_files with
  | [] => Ok st
  | filename :: rest =>
      st <- test_image h5_model st filename ;;
      test_images h5_model st rest
  end.

(** [open(output_file, 'w')] and [json.dump(results, f, ...)], lines 280-282:
    writing the results file, which the file system may refuse. *)
Variable dump_results : list test_result -> result unit.

(** [test_all_images()], lines 182-291.  [listdir] is [None] when the test
    folder does not exist, and otherwise what [os.listdir] does on it: the
    names it holds, or the exception raised (the path is not a directory, or
    may not be read); [h5_model] is what [test_model_with_real_h5()]
    returned; [drawn] is the state of the random generator.  Returns [None]
    when the folder is missing. *)
Definition test_all_images (listdir : option (result (list string)))
  (h5_model : option (keras_model E)) (drawn : nat) : result (option report) :=
  match listdir with
  | None => Ok None
  | Some listed =>
      names <- listed ;;
      let image_files :=
        filter (fun f => endswith (lower f) ".jpg" || endswith (lower f) ".jpeg"
                         || endswith (lower f) ".png") names in
      let image_files := sort image_files in
      st <- test_images h5_model (mkLoop [] 0 0 drawn) image_files ;;
      let results := loop_results st in
      let correct_predictions := loop_correct st in
      let total_predictions := loop_total st in
      let accuracy :=
        if (0 <? total_predictions)%nat
        then (inject_Z (Z.of_nat correct_predictions)
              / inject_Z (Z.of_nat total_predictions)) * 100
        else 0 in
      let crop_results := fold_left count_result results [] in
      _ <- dump_results results ;;
      let suggestions :=
        if accuracy <? 80 then Some (suggest_adjustments results) else None in
      Ok (Some (mkReport results correct_predictions total_predictions accuracy
                         crop_results suggestions))
  end.

End WithExternals.

End crops_run.

(** ** [src/accurate_convert.py]: the logic self-test *)

Module accurate_convert.

(** One entry of [test_cases]. *)
Record test_case : Type := mkCase {
  brightness : Q;
  green : Q;
  texture : Q;
  expected : string
}.

(** The table of [test_model_logic], lines 55-60. *)
Definition test_cases : list test_case :=
  [ mkCase 0.8 0.4 0.15 "Healthy";
    mkCase 0.2 0.2 0.05 "Affected";
    mkCase 0.6 0.35 0.12 "Healthy";
    mkCase 0.3 0.25 0.08 "Affected" ].

(** The value of [health_score] at the end of the loop body, lines 64-86. *)
Definition health_score_of (case : test_case) : Q :=
  let health_score := 0.5 in
  let health_score :=
    if brightness case >? 0.7 then health_score + 0.3
    else if brightness case >? 0.4 then health_score + 0.1
    else if brightness case <? 0.2 then health_score - 0.3
    else health_score in
  let health_score :=
    if green case >? 0.4 then health_score + 0.2
    else if green case >? 0.3 then health_score + 0.1
    else if green case <? 0.25 then health_score - 0.2
    else health_score in
  let health_score :=
    if texture case >? 0.1 then health_score + 0.1
    else if texture case <? 0.05 then health_score - 0.1
    else health_score in
  health_score.

(** [prediction], line 88. *)
Definition prediction_of (case : test_case) : Q :=
  Py.max 0.001 (Py.min 0.999 (health_score_of case)).

(** [result], line 89. *)
Definition result_of (case : test_case) : string :=
  if prediction_of case >? 0.5 then "Healthy" else "Affected".

(** Whether the printed status is the check mark, line 91. *)
Definition passes (case : test_case) : bool :=
  String.eqb (result_of case) (expected case).

End accurate_convert.

(** ** More of [src/create_ml_api.py]: start-up and status *)

Module create_ml_api_status.

Section WithExternals.

Variable E : Externals.

(** [load_model()], lines 21-38.  [model] is the module-level global;
    [model_file] is what [new_plant_health_classifier.h5] holds: nothing, a
    file Keras rejects, or a model.  Returns the boolean and the new value
    of the global. *)
Definition load_model (model : option (keras_model E))
  (model_file : option (result (keras_model E)))
  : bool * option (keras_model E) :=
  match model_file with
  | None => (false, model)
  | Some (Ok m) => (true, Some m)
  | Some (Raise _) => (false, model)
  end.

(** The [model_loaded] field of [health_check()], lines 108-115. *)
Definition health_check_model_loaded (model : option (keras_model E)) : bool :=
  match model with
  | Some _ => true
  | None => false
  end.

End WithExternals.

End create_ml_api_status.

(** Values of the unsigned 8-bit pixels that [np.array] yields. *)
Definition uint8_pixels (a : list (list (Z * Z * Z))) : Prop :=
  forall row, In row a -> forall r g b, In (r, g, b) row ->
    (0 <= r <= 255)%Z /\ (0 <= g <= 255)%Z /\ (0 <= b <= 255)%Z.

(** Collaborators that decode whatever they are given to a 1 by 2 image
    of the pixels (50, 150, 50) and (0, 255, 128); the model answers [0.9]. *)
Definition accepting_externals : Externals :=
  mkExternals unit unit
    (fun s => Ok s)
    (fun _ => Ok tt) (fun _ => "RGB") (fun i => Ok i) (fun i => Ok i)
    (fun _ => [[(50, 150, 50); (0, 255, 128)]]%Z)
    (fun _ _ => Ok 0.9) (fun _ => "0.900000").

(** ** Comparisons and clamping *)

Lemma ltb_true (a b : Q) : (a <? b) = true <-> a < b.
Proof.
  unfold Py.ltb. rewrite Qlt_alt.
  destruct (a ?= b)%Q; split; congruence.
Qed.

Lemma ltb_false (a b : Q) : (a <? b) = false <-> b <= a.
Proof.
  rewrite <- not_true_iff_false, ltb_true. split.
  - apply Qnot_lt_le.
  - apply Qle_not_lt.
Qed.

Lemma gtb_true (a b : Q) : (a >? b) = true <-> b < a.
Proof. apply ltb_true. Qed.

Lemma gtb_false (a b : Q) : (a >? b) = false <-> a <= b.
Proof. apply ltb_false. Qed.

Lemma clamp_range (x : Q) :
  0.001 <= Py.max 0.001 (Py.min 0.999 x) <= 0.999.
Proof.
  unfold Py.max, Py.min.
  destruct (x <? 0.999) eqn:Hhi.
  - apply ltb_true in Hhi.
    destruct (x >? 0.001) eqn:Hlo.
    + apply gtb_true in Hlo. split; apply Qlt_le_weak; assumption.
    + split; [apply Qle_refl | discriminate].
  - destruct (0.999 >? 0.001) eqn:Hc.
    + split; [discriminate | apply Qle_refl].
    + discriminate.
Qed.

(** ** The heuristic scorer *)

Section Scorer.

Import test_new_crops_model.

Variable f : FeatureVector.

Lemma tier1_test :
  ((brightness f >? 0.6) && (green_dominance f >? 0.35)
   && (texture_complexity f >? 0.02)) = true <-> Spec.tier1 f.
Proof.
  unfold Spec.tier1. rewrite !andb_true_iff, !gtb_true. tauto.
Qed.

Lemma tier2_test :
  ((brightness f >? 0.4) && (green_dominance f >? 0.3)) = true <-> Spec.tier2 f.
Proof.
  unfold Spec.tier2. rewrite andb_true_iff, !gtb_true. tauto.
Qed.

Lemma tier3_test :
  ((brightness f <? 0.3) || (green_dominance f <? 0.25)) = true <-> Spec.tier3 f.
Proof.
  unfold Spec.tier3. rewrite orb_true_iff, !ltb_true. tauto.
Qed.

Lemma contrast_test :
  ((0.2 <? contrast f) && (contrast f <? 0.4)) = true
  <-> 0.2 < contrast f /\ contrast f < 0.4.
Proof.
  rewrite andb_true_iff, !ltb_true. tauto.
Qed.

Lemma balance_test : (color_balance f >? 0.3) = true <-> 0.3 < color_balance f.
Proof. apply gtb_true. Qed.

(** The tiers exclude one another: the base score is determined. *)
Lemma primary_tier_functional (b1 b2 : Q) :
  Spec.primary_tier f b1 -> Spec.primary_tier f b2 -> b1 = b2.
Proof.
  intros H1 H2; destruct H1; destruct H2; try reflexivity; contradiction.
Qed.

End Scorer.

Ltac prop_of_test H lem :=
  first [ apply lem in H
        | apply not_true_iff_false in H; rewrite lem in H ].

(** C1: the score before the random draw is the base of the first primary
    tier whose condition holds (and that base is unique), plus the contrast
    adjustment, plus the colour balance adjustment, plus a tenth of the crop
    bias; the scorer clamps that score plus the draw. *)
Theorem pre_jitter_score_structure
  (f : test_new_crops_model.FeatureVector) (crop_type : option string) :
  exists base a_contrast a_balance,
    Spec.primary_tier f base
    /\ (forall base', Spec.primary_tier f base' -> base' = base)
    /\ Spec.contrast_adjustment f a_contrast
    /\ Spec.balance_adjustment f a_balance
    /\ test_new_crops_model.health_score_before_noise f crop_type
       == base + a_contrast + a_balance
          + test_new_crops_model.get_crop_adjustment crop_type * 0.1
    /\ forall noise,
         test_new_crops_model.simulate_web_model_prediction (Some f) crop_type noise
         = Py.max 0.001 (Py.min 0.999
             (test_new_crops_model.health_score_before_noise f crop_type + noise)).
Proof.
  assert (Hbase : exists base, Spec.primary_tier f base /\
            base = (if (test_new_crops_model.brightness f >? 0.6)
                       && (test_new_crops_model.green_dominance f >? 0.35)
                       && (test_new_crops_model.texture_complexity f >? 0.02)
                    then 0.95
                    else if (test_new_crops_model.brightness f >? 0.4)
                            && (test_new_crops_model.green_dominance f >? 0.3)
                    then 0.75
                    else if (test_new_crops_model.brightness f <? 0.3)
                            || (test_new_crops_model.green_dominance f <? 0.25)
                    then 0.15 else 0.45)).
  { destruct (_ && _ && _) eqn:H1; [prop_of_test H1 (tier1_test f) | ].
    - eexists; split; [apply Spec.Tier1; assumption | reflexivity].
    - prop_of_test H1 (tier1_test f).
      destruct (_ && _) eqn:H2; prop_of_test H2 (tier2_test f).
      + eexists; split; [apply Spec.Tier2; assumption | reflexivity].
      + destruct (_ || _) eqn:H3; prop_of_test H3 (tier3_test f).
        * eexists; split; [apply Spec.Tier3; assumption | reflexivity].
        * eexists; split; [apply Spec.Tier4; assumption | reflexivity]. }
  destruct Hbase as [base [Htier Hcode]].
  assert (Hsim : forall noise,
            test_new_crops_model.simulate_web_model_prediction (Some f) crop_type noise
            = Py.max 0.001 (Py.min 0.999
                (test_new_crops_model.health_score_before_noise f crop_type + noise)))
    by reflexivity.
  revert Hsim. generalize (test_new_crops_model.simulate_web_model_prediction (Some f)).
  intros sim Hsim.
  unfold test_new_crops_model.health_score_before_noise at 1.
  cbv zeta. rewrite <- Hcode. clear Hcode.
  assert (Huniq : forall base', Spec.primary_tier f base' -> base' = base).
  { intros b' Hb'. apply (primary_tier_functional f); assumption. }
  destruct (_ && _) eqn:Hc; prop_of_test Hc (contrast_test f);
    destruct (_ >? _) eqn:Hb; prop_of_test Hb (balance_test f).
  - exists base, 0.05, (-0.1).
    split; [assumption | split; [assumption | ]].
    split; [apply Spec.ContrastGood; tauto | ].
    split; [apply Spec.BalanceOff; assumption | ].
    split; [ring | exact Hsim].
  - exists base, 0.05, 0.
    split; [assumption | split; [assumption | ]].
    split; [apply Spec.ContrastGood; tauto | ].
    split; [apply Spec.BalanceOther; assumption | ].
    split; [ring | exact Hsim].
  - exists base, 0, (-0.1).
    split; [assumption | split; [assumption | ]].
    split; [apply Spec.ContrastOther; assumption | ].
    split; [apply Spec.BalanceOff; assumption | ].
    split; [ring | exact Hsim].
  - exists base, 0, 0.
    split; [assumption | split; [assumption | ]].
    split; [apply Spec.ContrastOther; assumption | ].
    split; [apply Spec.BalanceOther; assumption | ].
    split; [ring | exact Hsim].
Qed.

(** C6: for every feature vector, every crop label and every draw, the
    scorer's output lies in [[0.001, 0.999]]; it is neither 0 nor 1.  The
    final clamp alone ensures it: whatever score reaches it, hence whatever
    bias was added, the clamped value is in [[0.001, 0.999]]. *)
Theorem scorer_output_clamped
  (f : test_new_crops_model.FeatureVector) (crop_type : option string) (noise : Q) :
  0.001 <= test_new_crops_model.simulate_web_model_prediction (Some f) crop_type noise
        <= 0.999
  /\ ~ test_new_crops_model.simulate_web_model_prediction (Some f) crop_type noise == 0
  /\ ~ test_new_crops_model.simulate_web_model_prediction (Some f) crop_type noise == 1
  /\ forall health_score, 0.001 <= Py.max 0.001 (Py.min 0.999 health_score) <= 0.999.
Proof.
  unfold test_new_crops_model.simulate_web_model_prediction. cbv zeta.
  pose proof (clamp_range
    (test_new_crops_model.health_score_before_noise f crop_type + noise)) as [Hlo Hhi].
  split; [split; assumption | ].
  split; [intros Heq; rewrite Heq in *; lra | ].
  split; [intros Heq; rewrite Heq in *; lra | ].
  exact clamp_range.
Qed.

(** C10: without a feature vector the scorer returns exactly [0.0], whatever
    the crop label and the draw; that value is below the lower clamp bound. *)
Theorem scorer_none_returns_zero (crop_type : option string) (noise : Q) :
  test_new_crops_model.simulate_web_model_prediction None crop_type noise = 0.0
  /\ ~ 0.001 <= test_new_crops_model.simulate_web_model_prediction None crop_type noise.
Proof.
  split; [reflexivity | ]. simpl. intros H. lra.
Qed.

(** C4: at each of the decision sites (the serverless handler, the Flask
    route, and the simulation and H5 paths of the test driver) the verdict is
    healthy exactly when the probability is strictly above 0.5; at 0.5 it is
    not healthy. *)
Theorem decision_threshold_strict (p : Q) :
  (api_predict.is_healthy_of p = true <-> 0.5 < p)
  /\ (create_ml_api.is_healthy_of p = true <-> 0.5 < p)
  /\ (test_new_crops_model.sim_healthy p = true <-> 0.5 < p)
  /\ (test_new_crops_model.h5_healthy p = true <-> 0.5 < p)
  /\ api_predict.is_healthy_of 0.5 = false
  /\ create_ml_api.is_healthy_of 0.5 = false
  /\ test_new_crops_model.sim_healthy 0.5 = false
  /\ test_new_crops_model.h5_healthy 0.5 = false.
Proof.
  unfold api_predict.is_healthy_of, create_ml_api.is_healthy_of,
    test_new_crops_model.sim_healthy, test_new_crops_model.h5_healthy.
  repeat split; try apply gtb_true; reflexivity.
Qed.

(** ** Substring tests and the crop bias table *)

Lemma prefix_spec (n h : string) :
  prefix n h = true <-> exists post, h = n ++ post.
Proof.
  revert h. induction n as [|c n IH]; intros h.
  - split; [intros _; exists h; reflexivity | intros _; destruct h; reflexivity].
  - destruct h as [|d h]; simpl.
    + split; [discriminate | intros [post Hp]; discriminate].
    + destruct (ascii_dec c d) as [->|Hne].
      * rewrite IH. split; intros [post Hp]; exists post; congruence.
      * split; [discriminate | intros [post Hp]; congruence].
Qed.

Lemma str_in_eq (n h : string) :
  str_in n h = if prefix n h then true
               else match h with
                    | EmptyString => false
                    | String _ t => str_in n t
                    end.
Proof. destruct h; reflexivity. Qed.

Lemma str_in_spec (n h : string) :
  str_in n h = true <-> Spec.substring_of n h.
Proof.
  unfold Spec.substring_of. induction h as [|d h IH]; rewrite str_in_eq.
  - destruct (prefix n "") eqn:Hp.
    + split; [intros _ | reflexivity].
      apply prefix_spec in Hp. destruct Hp as [post Hp].
      exists "", post. exact Hp.
    + split; [discriminate | ].
      intros [pre [post Hh]]. destruct pre; [ | discriminate].
      simpl in Hh. rewrite <- Hp. apply prefix_spec. exists post. exact Hh.
  - destruct (prefix n (String d h)) eqn:Hp.
    + split; [intros _ | reflexivity].
      apply prefix_spec in Hp. destruct Hp as [post Hp].
      exists "", post. exact Hp.
    + rewrite IH. split.
      * intros [pre [post Hh]]. exists (String d pre), post. simpl. congruence.
      * intros [pre [post Hh]]. destruct pre as [|e pre].
        -- simpl in Hh. exfalso. rewrite <- not_true_iff_false in Hp. apply Hp.
           apply prefix_spec. exists post. exact Hh.
        -- simpl in Hh. exists pre, post. congruence.
Qed.

Lemma rule_matches_spec (keys : list string) (crop : string) :
  Spec.rule_matches keys crop = true
  <-> exists k, In k keys /\ Spec.substring_of k crop.
Proof.
  unfold Spec.rule_matches. rewrite existsb_exists.
  split; intros [k [Hin Hk]]; exists k; (split; [exact Hin | ]);
    apply str_in_spec; exact Hk.
Qed.

(** What [first_match] returns is the earliest rule that matches. *)
Lemma first_match_earliest (table : list (list string * Q)) (i j : nat)
  (crop : string) (bias : Q) :
  Spec.first_match table i crop = Some (j, bias) ->
  exists before keys after,
    table = (before ++ (keys, bias) :: after)%list
    /\ j = (i + length before)%nat
    /\ Spec.rule_matches keys crop = true
    /\ Forall (fun r => Spec.rule_matches (fst r) crop = false) before.
Proof.
  revert i. induction table as [|[keys b] rest IH]; intros i; simpl.
  - discriminate.
  - destruct (Spec.rule_matches keys crop) eqn:Hm.
    + intros Heq. injection Heq as <- <-.
      exists [], keys, rest. simpl. repeat split; auto with arith.
    + intros Heq. destruct (IH _ Heq) as (before & keys' & after & -> & -> & Hk & Hb).
      exists ((keys, b) :: before), keys', after. simpl.
      repeat split; auto with arith.
Qed.

Lemma lower_char_idempotent (c : ascii) : lower_char (lower_char c) = lower_char c.
Proof.
  destruct c as [[] [] [] [] [] [] [] []]; reflexivity.
Qed.

Lemma lower_idempotent (s : string) : lower (lower s) = lower s.
Proof.
  induction s as [|c t IH]; simpl.
  - reflexivity.
  - rewrite lower_char_idempotent, IH. reflexivity.
Qed.

Lemma lower_char_fold (c : ascii) : lower_char c = Spec.fold_char c.
Proof.
  destruct c as [[] [] [] [] [] [] [] []]; reflexivity.
Qed.

Lemma lower_casefold (s : string) : lower s = Spec.casefold s.
Proof.
  induction s as [|c t IH]; simpl; [reflexivity | ].
  rewrite lower_char_fold, IH. reflexivity.
Qed.

(** C5: the crop adjustment is the bias of the first rule of the ordered
    table one of whose keywords occurs in the case-folded label, and [0.0]
    when no rule matches or the label is empty or missing.  Folding is part
    of it: a label and its folded form get the same adjustment, and labels
    written with capitals are matched.  The first matching rule decides: a
    label that the first rule matches gets that rule's bias whatever else it
    mentions, and a label that mentions crops of two rules gets the bias of
    the earlier one.  On the label ["arai keerai"], which both of the first
    two rules match, the rule at position 0 decides, whatever biases a table
    gives to those two rules. *)
Theorem crop_bias_first_match (label : option string) :
  test_new_crops_model.get_crop_adjustment label = Spec.lookup Spec.bias_table label
  /\ test_new_crops_model.get_crop_adjustment None = 0.0
  /\ test_new_crops_model.get_crop_adjustment (Some "") = 0.0
  /\ Spec.rule_matches ["palak"; "keerai"; "spinach"] (Spec.casefold "arai keerai")
     = true
  /\ Spec.rule_matches ["arai"; "siru"] (Spec.casefold "arai keerai") = true
  /\ (forall c1 c2 rest,
        Spec.first_match
          ((["palak"; "keerai"; "spinach"], c1) :: (["arai"; "siru"], c2) :: rest)
          0 (Spec.casefold "arai keerai") = Some (0%nat, c1))
  /\ test_new_crops_model.get_crop_adjustment (Some "arai keerai") = 0.1
  /\ (forall s,
        test_new_crops_model.get_crop_adjustment (Some s)
        = test_new_crops_model.get_crop_adjustment (Some (Spec.casefold s)))
  /\ (forall s,
        Spec.rule_matches ["palak"; "keerai"; "spinach"] (Spec.casefold s) = true ->
        test_new_crops_model.get_crop_adjustment (Some s) = 0.1)
  /\ test_new_crops_model.get_crop_adjustment (Some "Arai KEERAI") = 0.1
  /\ test_new_crops_model.get_crop_adjustment (Some "Siru Keerai") = 0.1
  /\ test_new_crops_model.get_crop_adjustment (Some "Cherry TOMATO") = -0.5
  /\ test_new_crops_model.get_crop_adjustment (Some "Bell Pepper") = -0.3
  /\ test_new_crops_model.get_crop_adjustment (Some "STRAWBERRY") = -0.8
  /\ test_new_crops_model.get_crop_adjustment (Some "Sweet Corn") = 0.3
  /\ test_new_crops_model.get_crop_adjustment (Some "Rose") = 0.0
  /\ test_new_crops_model.get_crop_adjustment (Some "Tomato and PALAK") = 0.1
  /\ test_new_crops_model.get_crop_adjustment (Some "Pepper, Tomato") = -0.5
  /\ test_new_crops_model.get_crop_adjustment (Some "Strawberry & Pepper") = -0.3
  /\ test_new_crops_model.get_crop_adjustment (Some "Maize with strawberry") = -0.8.
Proof.
  assert (Hfold : forall s,
            test_new_crops_model.get_crop_adjustment (Some s)
            = test_new_crops_model.get_crop_adjustment (Some (Spec.casefold s))).
  { intros s. rewrite <- lower_casefold.
    unfold test_new_crops_model.get_crop_adjustment.
    destruct s as [|c t]; [reflexivity | ].
    change (truthy (Some (String c t))) with true.
    change (truthy (Some (lower (String c t)))) with true.
    change (or_else (Some (String c t)) "") with (String c t).
    change (or_else (Some (lower (String c t))) "") with (lower (String c t)).
    rewrite lower_idempotent. reflexivity. }
  assert (Hfirst : forall s,
            Spec.rule_matches ["palak"; "keerai"; "spinach"] (Spec.casefold s) = true ->
            test_new_crops_model.get_crop_adjustment (Some s) = 0.1).
  { intros s. rewrite <- lower_casefold.
    unfold Spec.rule_matches, test_new_crops_model.get_crop_adjustment.
    cbn [existsb]. rewrite orb_false_r, orb_assoc.
    destruct s as [|c t]; [intros H; discriminate H | ].
    cbn [truthy negb or_else]. intros H. rewrite H. reflexivity. }
  split.
  { destruct label as [[|c t]|]; try reflexivity.
    unfold test_new_crops_model.get_crop_adjustment, Spec.lookup.
    cbn [truthy negb or_else Spec.first_match Spec.bias_table Spec.rule_matches existsb].
    rewrite <- lower_casefold.
    generalize (lower (String c t)). intros crop.
    repeat match goal with
           | |- context [str_in ?k crop] =>
               destruct (str_in k crop); cbn [orb]; try reflexivity
           end. }
  split; [reflexivity | split; [reflexivity | split; [reflexivity | ]]].
  split; [reflexivity | split; [intros; reflexivity | split; [reflexivity | ]]].
  split; [exact Hfold | split; [exact Hfirst | ]].
  repeat split; reflexivity.
Qed.

(** ** Recommendations *)

(** C9: the recommendation text is a function of the verdict and the crop
    label alone, the same in both services; for an affected ["Palak"] it
    contains "aphids and leaf miners", for a healthy ["Tomato"] it contains
    "early blight". *)
Theorem recommendations_mention_pests :
  (forall is_healthy crop_type,
      api_predict.get_crop_recommendations is_healthy crop_type
      = create_ml_api.get_crop_specific_recommendations is_healthy crop_type)
  /\ str_in "aphids and leaf miners"
       (api_predict.get_crop_recommendations false (Some "Palak")) = true
  /\ str_in "aphids and leaf miners"
       (create_ml_api.get_crop_specific_recommendations false (Some "Palak")) = true
  /\ str_in "early blight"
       (api_predict.get_crop_recommendations true (Some "Tomato")) = true
  /\ str_in "early blight"
       (create_ml_api.get_crop_specific_recommendations true (Some "Tomato")) = true.
Proof.
  split; [intros; reflexivity | repeat split; vm_compute; reflexivity].
Qed.

(** ** Confidence *)

(** On a non-negative number [int] is the floor. *)
Lemma int_floor_nonneg (x : Q) : 0 <= x -> Py.int x = Qfloor x.
Proof.
  destruct x as [n d]. unfold Py.int, Qfloor, Qle. simpl.
  intros Hn. apply Z.quot_div_nonneg; lia.
Qed.

Lemma int_between (x : Q) (lo hi : Z) :
  0 <= x -> inject_Z lo <= x -> x <= inject_Z hi -> (lo <= Py.int x <= hi)%Z.
Proof.
  intros H0 Hlo Hhi. rewrite (int_floor_nonneg x H0). split.
  - rewrite <- (Qfloor_Z lo). apply Qfloor_resp_le. exact Hlo.
  - rewrite <- (Qfloor_Z hi). apply Qfloor_resp_le. exact Hhi.
Qed.

(** The probability of the winning class. *)
Lemma winning_probability_bounds (p : Q) :
  0 <= p <= 1 ->
  1 # 2 <= (if p >? 0.5 then p else 1 - p) <= 1.
Proof.
  intros [H0 H1]. destruct (p >? 0.5) eqn:Hp.
  - apply gtb_true in Hp. lra.
  - apply gtb_false in Hp. lra.
Qed.

(** C3, as stated, fails: at 0.999 both services report 99 where rounding
    gives 100. *)
Lemma confidence_not_rounded :
  0 <= 0.999 <= 1
  /\ api_predict.confidence_of 0.999 <> Spec.confidence_percent 0.999
  /\ create_ml_api.confidence_of 0.999 <> Spec.confidence_percent 0.999.
Proof.
  split; [lra | split; vm_compute; discriminate].
Qed.

(** ** Single-precision rounding *)

Lemma pow2_pos (e : Z) : 0 < F32.pow2 e.
Proof.
  unfold F32.pow2. destruct (0 <=? e)%Z eqn:He.
  - apply Z.leb_le in He. change 0 with (inject_Z 0). rewrite <- Zlt_Qlt.
    apply Z.pow_pos_nonneg; lia.
  - apply Z.leb_gt in He.
    assert (H : 0 < inject_Z (2 ^ (- e))).
    { change 0 with (inject_Z 0). rewrite <- Zlt_Qlt. apply Z.pow_pos_nonneg; lia. }
    apply Qlt_shift_div_l; [exact H | lra].
Qed.

Lemma round_floor (y : Q) : (Qfloor y <= Py.round y <= Qfloor y + 1)%Z.
Proof.
  unfold Py.round. cbv zeta.
  destruct (y - inject_Z (Qfloor y) ?= 1 # 2)%Q; [destruct (Z.even (Qfloor y)) | | ]; lia.
Qed.

Lemma round_error (y : Q) :
  - (1 # 2) <= inject_Z (Py.round y) - y <= 1 # 2.
Proof.
  pose proof (Qfloor_le y) as Hlo. pose proof (Qlt_floor y) as Hhi.
  rewrite inject_Z_plus in Hhi. change (inject_Z 1) with 1 in Hhi.
  unfold Py.round. cbv zeta.
  destruct (y - inject_Z (Qfloor y) ?= 1 # 2)%Q eqn:Hc.
  - apply Qeq_alt in Hc.
    destruct (Z.even (Qfloor y)); [ | rewrite inject_Z_plus; change (inject_Z 1) with 1]; lra.
  - apply Qlt_alt in Hc. lra.
  - apply Qgt_alt in Hc. rewrite inject_Z_plus. change (inject_Z 1) with 1. lra.
Qed.

Lemma round_int_lower (y : Q) (a : Z) : inject_Z a <= y -> (a <= Py.round y)%Z.
Proof.
  intros Ha. pose proof (round_floor y) as [Hf _].
  apply Qfloor_resp_le in Ha. rewrite Qfloor_Z in Ha. lia.
Qed.

Lemma round_int_upper (y : Q) (b : Z) : y <= inject_Z b -> (Py.round y <= b)%Z.
Proof.
  intros Hb. pose proof (round_error y) as [_ He].
  assert (H : inject_Z (Py.round y) < inject_Z (b + 1)).
  { rewrite inject_Z_plus. change (inject_Z 1) with 1. lra. }
  rewrite <- Zlt_Qlt in H. lia.
Qed.

Lemma exponent_above_one (x : Q) (e : Z) :
  (0 <= e)%Z -> inject_Z (2 ^ e) <= x -> x < inject_Z (2 ^ (e + 1)) ->
  F32.exponent x = e.
Proof.
  intros He Hlo Hhi. unfold F32.exponent.
  assert (H1 : 1 <= x).
  { assert (H : inject_Z 1 <= inject_Z (2 ^ e))
      by (rewrite <- Zle_Qle; pose proof (Z.pow_pos_nonneg 2 e); lia).
    change (inject_Z 1) with 1 in H. lra. }
  apply Qle_bool_iff in H1. rewrite H1.
  apply Z.log2_unique; [exact He | ].
  split.
  - apply Qfloor_resp_le in Hlo. rewrite Qfloor_Z in Hlo. exact Hlo.
  - pose proof (Qfloor_le x) as Hf.
    assert (H : inject_Z (Qfloor x) < inject_Z (2 ^ (e + 1))) by lra.
    rewrite <- Zlt_Qlt in H. rewrite Z.add_1_r in H. exact H.
Qed.

Lemma exponent_half (x : Q) : 1 # 2 <= x -> x < 1 -> F32.exponent x = (-1)%Z.
Proof.
  intros Hlo Hhi. unfold F32.exponent.
  assert (H1 : Qle_bool 1 x = false).
  { apply not_true_iff_false. rewrite Qle_bool_iff. lra. }
  rewrite H1.
  assert (Hx : 0 < x) by lra.
  assert (Hi1 : 1 < / x) by (apply Qlt_shift_inv_l; lra).
  assert (Hi2 : / x <= 2) by (apply Qle_shift_inv_r; lra).
  assert (Hc : Qceiling (/ x) = 2%Z).
  { pose proof (Qle_ceiling (/ x)) as Hc1.
    apply Qceiling_resp_le in Hi2. change 2 with (inject_Z 2) in Hi2.
    rewrite Qceiling_Z in Hi2.
    assert (H : inject_Z 1 < inject_Z (Qceiling (/ x)))
      by (change (inject_Z 1) with 1; lra).
    rewrite <- Zlt_Qlt in H. lia. }
  rewrite Hc. reflexivity.
Qed.

Lemma Qabs_of_pos (x : Q) : 0 < x -> Qabs x = x.
Proof.
  destruct x as [n d]. unfold Qlt, Qabs. simpl. intros H.
  rewrite Z.abs_eq by lia. reflexivity.
Qed.

Lemma round_on_grid (x : Q) (e a b : Z) :
  0 < x -> F32.exponent x = e -> (-126 <= e)%Z ->
  inject_Z a * F32.pow2 (e - 23) <= x -> x <= inject_Z b * F32.pow2 (e - 23) ->
  inject_Z a * F32.pow2 (e - 23) <= F32.round x
  /\ F32.round x <= inject_Z b * F32.pow2 (e - 23)
  /\ - (F32.pow2 (e - 23) / 2) <= F32.round x - x <= F32.pow2 (e - 23) / 2.
Proof.
  intros Hx He Hmin Ha Hb. unfold F32.round, F32.ulp.
  assert (Hc : (x ?= 0)%Q = Gt) by (apply Qgt_alt; exact Hx).
  rewrite Hc, (Qabs_of_pos x Hx), He, Z.max_l by lia.
  pose proof (pow2_pos (e - 23)) as Hu. set (u := F32.pow2 (e - 23)) in *.
  assert (Hya : inject_Z a <= x / u) by (apply Qle_shift_div_l; assumption).
  assert (Hyb : x / u <= inject_Z b) by (apply Qle_shift_div_r; assumption).
  pose proof (round_int_lower _ _ Hya) as Hra.
  pose proof (round_int_upper _ _ Hyb) as Hrb.
  pose proof (round_error (x / u)) as [He1 He2].
  rewrite Zle_Qle in Hra, Hrb.
  set (r := inject_Z (Py.round (x / u))) in *.
  assert (Hxu : x == (x / u) * u) by (field; lra).
  set (y := x / u) in *.
  split; [ | split; [ | split]].
  - apply Qmult_le_compat_r; lra.
  - apply Qmult_le_compat_r; lra.
  - assert (Hd : r * u - x == (r - y) * u) by (unfold y; field; lra).
    rewrite Hd. setoid_replace (- (u / 2)) with (- (1 # 2) * u) by field.
    apply Qmult_le_compat_r; lra.
  - assert (Hd : r * u - x == (r - y) * u) by (unfold y; field; lra).
    rewrite Hd. setoid_replace (u / 2) with ((1 # 2) * u) by field.
    apply Qmult_le_compat_r; lra.
Qed.

Lemma single_difference (p : Q) :
  0 <= p -> p <= 1 # 2 ->
  1 # 2 <= F32.round (1 - p) <= 1
  /\ - (1 # 33554432) <= F32.round (1 - p) - (1 - p) <= 1 # 33554432.
Proof.
  intros H0 H1.
  destruct (Qlt_le_dec (1 - p) 1) as [Hlt | Hge].
  - destruct (round_on_grid (1 - p) (-1) (2 ^ 23) (2 ^ 24)) as (Ha & Hb & Hlo & Hhi).
    + lra.
    + apply exponent_half; lra.
    + lia.
    + setoid_replace (inject_Z (2 ^ 23) * F32.pow2 (-1 - 23)) with (1 # 2)
        by reflexivity. lra.
    + setoid_replace (inject_Z (2 ^ 24) * F32.pow2 (-1 - 23)) with 1 by reflexivity.
      lra.
    + setoid_replace (inject_Z (2 ^ 23) * F32.pow2 (-1 - 23)) with (1 # 2)
        in Ha by reflexivity.
      setoid_replace (inject_Z (2 ^ 24) * F32.pow2 (-1 - 23)) with 1 in Hb
        by reflexivity.
      setoid_replace (F32.pow2 (-1 - 23) / 2) with (1 # 33554432) in Hlo by reflexivity.
      setoid_replace (F32.pow2 (-1 - 23) / 2) with (1 # 33554432) in Hhi by reflexivity.
      lra.
  - destruct (round_on_grid (1 - p) 0 (2 ^ 23) (2 ^ 23)) as (Ha & Hb & Hlo & Hhi).
    + lra.
    + apply exponent_above_one;
        [lia | change (inject_Z (2 ^ 0)) with 1; lra
             | change (inject_Z (2 ^ (0 + 1))) with 2; lra].
    + lia.
    + setoid_replace (inject_Z (2 ^ 23) * F32.pow2 (0 - 23)) with 1 by reflexivity. lra.
    + setoid_replace (inject_Z (2 ^ 23) * F32.pow2 (0 - 23)) with 1 by reflexivity. lra.
    + setoid_replace (inject_Z (2 ^ 23) * F32.pow2 (0 - 23)) with 1 in Ha by reflexivity.
      setoid_replace (inject_Z (2 ^ 23) * F32.pow2 (0 - 23)) with 1 in Hb by reflexivity.
      lra.
Qed.

Lemma single_product (w : Q) :
  1 # 2 <= w -> w <= 1 ->
  50 <= F32.round (w * 100) <= 100
  /\ - (1 # 262144) <= F32.round (w * 100) - w * 100 <= 1 # 262144.
Proof.
  intros H0 H1.
  destruct (Qlt_le_dec (w * 100) 64) as [Hlt | Hge].
  - destruct (round_on_grid (w * 100) 5 (50 * 2 ^ 18) (64 * 2 ^ 18))
      as (Ha & Hb & Hlo & Hhi).
    + lra.
    + apply exponent_above_one;
        [lia | change (inject_Z (2 ^ 5)) with 32; lra
             | change (inject_Z (2 ^ (5 + 1))) with 64; lra].
    + lia.
    + setoid_replace (inject_Z (50 * 2 ^ 18) * F32.pow2 (5 - 23)) with 50
        by reflexivity. lra.
    + setoid_replace (inject_Z (64 * 2 ^ 18) * F32.pow2 (5 - 23)) with 64
        by reflexivity. lra.
    + setoid_replace (inject_Z (50 * 2 ^ 18) * F32.pow2 (5 - 23)) with 50 in Ha
        by reflexivity.
      setoid_replace (inject_Z (64 * 2 ^ 18) * F32.pow2 (5 - 23)) with 64 in Hb
        by reflexivity.
      setoid_replace (F32.pow2 (5 - 23) / 2) with (1 # 524288) in Hlo by reflexivity.
      setoid_replace (F32.pow2 (5 - 23) / 2) with (1 # 524288) in Hhi by reflexivity.
      lra.
  - destruct (round_on_grid (w * 100) 6 (64 * 2 ^ 17) (100 * 2 ^ 17))
      as (Ha & Hb & Hlo & Hhi).
    + lra.
    + apply exponent_above_one;
        [lia | change (inject_Z (2 ^ 6)) with 64; lra
             | change (inject_Z (2 ^ (6 + 1))) with 128; lra].
    + lia.
    + setoid_replace (inject_Z (64 * 2 ^ 17) * F32.pow2 (6 - 23)) with 64
        by reflexivity. lra.
    + setoid_replace (inject_Z (100 * 2 ^ 17) * F32.pow2 (6 - 23)) with 100
        by reflexivity. lra.
    + setoid_replace (inject_Z (64 * 2 ^ 17) * F32.pow2 (6 - 23)) with 64 in Ha
        by reflexivity.
      setoid_replace (inject_Z (100 * 2 ^ 17) * F32.pow2 (6 - 23)) with 100 in Hb
        by reflexivity.
      setoid_replace (F32.pow2 (6 - 23) / 2) with (1 # 262144) in Hlo by reflexivity.
      setoid_replace (F32.pow2 (6 - 23) / 2) with (1 # 262144) in Hhi by reflexivity.
      lra.
Qed.

Lemma floor_close (a b : Q) :
  a - 1 < b -> b < a + 1 -> (Qfloor a - 1 <= Qfloor b <= Qfloor a + 1)%Z.
Proof.
  intros Hlo Hhi.
  pose proof (Qfloor_le a) as Ha1. pose proof (Qlt_floor a) as Ha2.
  pose proof (Qfloor_le b) as Hb1. pose proof (Qlt_floor b) as Hb2.
  rewrite inject_Z_plus in Ha2, Hb2. change (inject_Z 1) with 1 in Ha2, Hb2.
  split.
  - assert (H : inject_Z (Qfloor a) < inject_Z (Qfloor b + 2)).
    { rewrite inject_Z_plus. change (inject_Z 2) with 2. lra. }
    rewrite <- Zlt_Qlt in H. lia.
  - assert (H : inject_Z (Qfloor b) < inject_Z (Qfloor a + 2)).
    { rewrite inject_Z_plus. change (inject_Z 2) with 2. lra. }
    rewrite <- Zlt_Qlt in H. lia.
Qed.


(** C3, amended: for a probability in [[0, 1]] the confidence of either
    service is the integer part (rounded down, not to nearest) of the
    single-precision product of 100 and the winning-class probability, the
    latter being [p] or the single-precision difference [1 - p]; it lies in
    [[50, 100]], hence in [[0, 100]] with no clamp; and it is within one of
    the integer part of the exact product. *)
Theorem confidence_truncates (p : Q) :
  0 <= p <= 1 ->
  api_predict.confidence_of p
    = Qfloor (F32.mul (if api_predict.is_healthy_of p then p else F32.sub 1 p) 100)
  /\ create_ml_api.confidence_of p
    = Qfloor (F32.mul (if create_ml_api.is_healthy_of p then p else F32.sub 1 p) 100)
  /\ (50 <= api_predict.confidence_of p <= 100)%Z
  /\ (50 <= create_ml_api.confidence_of p <= 100)%Z
  /\ (Qfloor ((if api_predict.is_healthy_of p then p else 1 - p) * 100) - 1
      <= api_predict.confidence_of p
      <= Qfloor ((if api_predict.is_healthy_of p then p else 1 - p) * 100) + 1)%Z
  /\ (Qfloor ((if create_ml_api.is_healthy_of p then p else 1 - p) * 100) - 1
      <= create_ml_api.confidence_of p
      <= Qfloor ((if create_ml_api.is_healthy_of p then p else 1 - p) * 100) + 1)%Z.
Proof.
  intros [H0 H1].
  unfold api_predict.confidence_of, create_ml_api.confidence_of,
    api_predict.is_healthy_of, create_ml_api.is_healthy_of, F32.mul, F32.sub.
  cbv zeta.
  assert (Hw : 1 # 2 <= (if p >? 0.5 then p else F32.round (1 - p)) <= 1
               /\ - (1 # 33554432)
                  <= (if p >? 0.5 then p else F32.round (1 - p))
                     - (if p >? 0.5 then p else 1 - p)
                  <= 1 # 33554432).
  { destruct (p >? 0.5) eqn:Hp.
    - apply gtb_true in Hp. split; lra.
    - apply gtb_false in Hp. apply single_difference; lra. }
  destruct Hw as [[Hw0 Hw1] [He0 He1]].
  set (w := if p >? 0.5 then p else F32.round (1 - p)) in *.
  set (v := if p >? 0.5 then p else 1 - p) in *.
  destruct (single_product w Hw0 Hw1) as [[Hr0 Hr1] [Hd0 Hd1]].
  set (r := F32.round (w * 100)) in *.
  assert (Hint : Py.int r = Qfloor r) by (apply int_floor_nonneg; lra).
  assert (Hrange : (50 <= Py.int r <= 100)%Z)
    by (apply (int_between r 50 100); unfold inject_Z; lra).
  assert (Hclose : (Qfloor (v * 100) - 1 <= Py.int r <= Qfloor (v * 100) + 1)%Z).
  { rewrite Hint. apply floor_close; lra. }
  repeat split; first [exact Hint | apply Hrange | apply Hclose].
Qed.

Lemma confidence_truncates_witness :
  0 <= 15770583 # 33554432 <= 1
  /\ api_predict.confidence_of (15770583 # 33554432) = 52%Z
  /\ Qfloor ((1 - (15770583 # 33554432)) * 100) = 53%Z
  /\ (50 <= create_ml_api.confidence_of (15770583 # 33554432) <= 100)%Z
  /\ api_predict.confidence_of (1 # 67108864) = 100%Z
  /\ Qfloor ((1 - (1 # 67108864)) * 100) = 99%Z.
Proof.
  assert (H : 0 <= 15770583 # 33554432 <= 1) by lra.
  assert (H' : 0 <= 1 # 67108864 <= 1) by lra.
  destruct (confidence_truncates (15770583 # 33554432) H) as (Ha & _ & _ & Hc & _).
  destruct (confidence_truncates (1 # 67108864) H') as (Ha' & _).
  split; [exact H | split; [rewrite Ha; reflexivity | split; [reflexivity | ]]].
  split; [exact Hc | split; [rewrite Ha'; reflexivity | reflexivity]].
Defined.

(** ** Means of bounded values *)

Lemma sum_app (l1 l2 : list Q) :
  Np.sum (l1 ++ l2)%list == Np.sum l1 + Np.sum l2.
Proof.
  induction l1 as [|a l1 IH]; simpl.
  - ring.
  - rewrite IH. ring.
Qed.

Lemma count_pos (l : list Q) : l <> [] -> 0 < inject_Z (Z.of_nat (length l)).
Proof.
  intros Hne. destruct l as [|a l]; [contradiction | ].
  unfold Qlt, inject_Z. simpl. lia.
Qed.

Lemma count_cons (a : Q) (l : list Q) :
  inject_Z (Z.of_nat (length (a :: l))) == 1 + inject_Z (Z.of_nat (length l)).
Proof.
  simpl length. rewrite Nat2Z.inj_succ, <- Z.add_1_l, inject_Z_plus. reflexivity.
Qed.

Lemma sum_bounds (l : list Q) :
  (forall v, In v l -> 0 <= v <= 1) ->
  0 <= Np.sum l <= inject_Z (Z.of_nat (length l)).
Proof.
  induction l as [|a l IH]; intros Hl.
  - simpl. unfold inject_Z. lra.
  - rewrite count_cons. simpl Np.sum.
    destruct (Hl a (or_introl eq_refl)) as [Ha0 Ha1].
    destruct IH as [IH0 IH1]; [intros v Hv; apply Hl; right; exact Hv | ].
    lra.
Qed.

Lemma mean_bounds (l : list Q) :
  (forall v, In v l -> 0 <= v <= 1) -> 0 <= Np.mean l <= 1.
Proof.
  intros Hl. destruct (sum_bounds l Hl) as [H0 H1]. unfold Np.mean.
  destruct l as [|a l].
  - vm_compute. split; discriminate.
  - assert (Hn : 0 < inject_Z (Z.of_nat (length (a :: l))))
      by (apply count_pos; discriminate).
    split.
    + apply Qle_shift_div_l; [exact Hn | lra].
    + apply Qle_shift_div_r; [exact Hn | lra].
Qed.

Lemma channel_in_flat (k : pixel -> Q) (img : image) (v : Q) :
  (forall p, In (k p) (channels p)) -> In v (channel k img) -> In v (flat img).
Proof.
  intros Hk. unfold channel, flat. rewrite !in_flat_map.
  intros [row [Hrow Hv]]. exists row. split; [exact Hrow | ].
  apply in_map_iff in Hv. destruct Hv as [p [<- Hp]].
  apply in_flat_map. exists p. split; [exact Hp | apply Hk].
Qed.

Lemma channel_mean_bounds (k : pixel -> Q) (img : image) :
  (forall p, In (k p) (channels p)) -> Spec.normalized img ->
  0 <= Np.mean (channel k img) <= 1.
Proof.
  intros Hk Hn. apply mean_bounds. intros v Hv.
  apply Hn. apply (channel_in_flat k); assumption.
Qed.

Lemma ratio_bounds (g d : Q) : 0 <= g -> 0 < d -> g <= d -> 0 <= g / d <= 1.
Proof.
  intros Hg Hd Hgd. split.
  - apply Qle_shift_div_l; [exact Hd | lra].
  - apply Qle_shift_div_r; [exact Hd | lra].
Qed.

(** C7: on a non-empty tensor with every value in [[0, 1]] the feature
    extractor returns a feature vector whose green dominance is
    [g_mean / (r_mean + g_mean + b_mean + 0.001)]; the channel means are in
    [[0, 1]], the denominator is at least 0.001, and the green dominance is
    in [[0, 1]]. *)
Theorem green_dominance_in_unit_interval
  (np_sqrt : Q -> Q) (img : image) (rest : batch) :
  Spec.normalized img -> flat img <> [] ->
  exists f,
    test_new_crops_model.analyze_image_features np_sqrt (Some (img :: rest))
      = Ok (Some f)
    /\ test_new_crops_model.green_dominance f
       = test_new_crops_model.g_mean f
         / (test_new_crops_model.r_mean f + test_new_crops_model.g_mean f
            + test_new_crops_model.b_mean f + 0.001)
    /\ 0 <= test_new_crops_model.r_mean f <= 1
    /\ 0 <= test_new_crops_model.g_mean f <= 1
    /\ 0 <= test_new_crops_model.b_mean f <= 1
    /\ 0.001 <= test_new_crops_model.r_mean f + test_new_crops_model.g_mean f
                + test_new_crops_model.b_mean f + 0.001
    /\ 0 <= test_new_crops_model.green_dominance f <= 1.
Proof.
  intros Hn _.
  assert (Hr : 0 <= Np.mean (channel chan_r img) <= 1)
    by (apply channel_mean_bounds; [intros p; simpl; auto | exact Hn]).
  assert (Hg : 0 <= Np.mean (channel chan_g img) <= 1)
    by (apply channel_mean_bounds; [intros p; simpl; auto | exact Hn]).
  assert (Hb : 0 <= Np.mean (channel chan_b img) <= 1)
    by (apply channel_mean_bounds; [intros p; simpl; auto | exact Hn]).
  eexists. split; [reflexivity | ]. cbn [test_new_crops_model.green_dominance
    test_new_crops_model.r_mean test_new_crops_model.g_mean
    test_new_crops_model.b_mean].
  split; [reflexivity | ].
  split; [exact Hr | split; [exact Hg | split; [exact Hb | ]]].
  split; [lra | apply ratio_bounds; lra].
Qed.

Lemma green_dominance_in_unit_interval_witness :
  exists f,
    test_new_crops_model.analyze_image_features sqrt_floor
      (Some [[[(0.2, 0.6, 0.2); (1, 0, 0.5)]]]) = Ok (Some f)
    /\ 0 <= test_new_crops_model.green_dominance f <= 1.
Proof.
  destruct (green_dominance_in_unit_interval sqrt_floor
              [[(0.2, 0.6, 0.2); (1, 0, 0.5)]] [])
    as (f & Hf & _ & _ & _ & _ & _ & Hgd).
  - intros v Hv.
    cbv [flat flat_map channels chan_r chan_g chan_b fst snd app In] in Hv.
    repeat (destruct Hv as [<- | Hv]; [lra | ]). contradiction.
  - discriminate.
  - exists f. split; [exact Hf | exact Hgd].
Defined.

(** ** Uniform images *)

Lemma sum_flat_map_repeat {A : Type} (g : A -> list Q) (x : A) (n : nat) :
  Np.sum (flat_map g (repeat x n)) == inject_Z (Z.of_nat n) * Np.sum (g x).
Proof.
  induction n as [|n IH].
  - simpl. unfold inject_Z. ring.
  - cbn [repeat flat_map]. rewrite sum_app, IH, Nat2Z.inj_succ, <- Z.add_1_l, inject_Z_plus.
    unfold inject_Z at 2. ring.
Qed.

Lemma length_flat_map_repeat {A B : Type} (g : A -> list B) (x : A) (n : nat) :
  length (flat_map g (repeat x n)) = (n * length (g x))%nat.
Proof.
  induction n as [|n IH]; [reflexivity | ].
  cbn [repeat flat_map]. rewrite length_app, IH. reflexivity.
Qed.

(** Repeating a block leaves its mean unchanged. *)
Lemma mean_flat_map_repeat {A : Type} (g : A -> list Q) (x : A) (n : nat) :
  (0 < n)%nat -> g x <> [] ->
  Np.mean (flat_map g (repeat x n)) == Np.mean (g x).
Proof.
  intros Hn Hg. unfold Np.mean.
  rewrite sum_flat_map_repeat, length_flat_map_repeat, Nat2Z.inj_mul, inject_Z_mult.
  assert (Hc : 0 < inject_Z (Z.of_nat (length (g x)))) by (apply count_pos; exact Hg).
  assert (Hz : 0 < inject_Z (Z.of_nat n)) by (unfold Qlt, inject_Z; simpl; lia).
  field. split; lra.
Qed.

Lemma map_flat_map {A : Type} (k : Q -> Q) (g : A -> list Q) (l : list A) :
  map k (flat_map g l) = flat_map (fun a => map k (g a)) l.
Proof.
  induction l as [|a l IH]; [reflexivity | ].
  simpl. rewrite map_app, IH. reflexivity.
Qed.

Lemma flat_map_repeat_nonempty {A B : Type} (g : A -> list B) (x : A) (n : nat) :
  (0 < n)%nat -> g x <> [] -> flat_map g (repeat x n) <> [].
Proof.
  intros Hn Hg Heq. apply (f_equal (@length B)) in Heq.
  rewrite length_flat_map_repeat in Heq. simpl in Heq.
  destruct (g x); [contradiction | ]. simpl in Heq. lia.
Qed.

Lemma sum_repeat (c : Q) (n : nat) :
  Np.sum (repeat c n) == inject_Z (Z.of_nat n) * c.
Proof.
  induction n as [|n IH].
  - simpl. unfold inject_Z. ring.
  - cbn [repeat Np.sum fold_right]. fold (Np.sum (repeat c n)).
    rewrite IH, Nat2Z.inj_succ, <- Z.add_1_l, inject_Z_plus.
    unfold inject_Z at 2. ring.
Qed.

Lemma mean_repeat (c : Q) (n : nat) : (0 < n)%nat -> Np.mean (repeat c n) == c.
Proof.
  intros Hn. unfold Np.mean. rewrite sum_repeat, repeat_length.
  assert (Hz : 0 < inject_Z (Z.of_nat n)) by (unfold Qlt, inject_Z; simpl; lia).
  field. lra.
Qed.

Section Uniform.

Variables (h w : nat) (p : pixel).
Hypotheses (Hh : (0 < h)%nat) (Hw : (0 < w)%nat).

Lemma uniform_row_nonempty : flat_map channels (repeat p w) <> [].
Proof. apply flat_map_repeat_nonempty; [exact Hw | discriminate]. Qed.

Lemma uniform_mean : Np.mean (flat (uniform_image h w p)) == Np.mean (channels p).
Proof.
  unfold flat, uniform_image.
  rewrite mean_flat_map_repeat; [ | exact Hh | exact uniform_row_nonempty].
  apply mean_flat_map_repeat; [exact Hw | discriminate].
Qed.

Lemma uniform_mean_of_map (k : Q -> Q) :
  Np.mean (map k (flat (uniform_image h w p))) == Np.mean (map k (channels p)).
Proof.
  unfold flat, uniform_image. rewrite map_flat_map.
  rewrite mean_flat_map_repeat; [ | exact Hh | ].
  - rewrite map_flat_map.
    apply (mean_flat_map_repeat (fun a => map k (channels a)) p w);
      [exact Hw | discriminate].
  - intros Heq. apply map_eq_nil in Heq. exact (uniform_row_nonempty Heq).
Qed.

Lemma uniform_channel_mean (k : pixel -> Q) :
  Np.mean (channel k (uniform_image h w p)) == k p.
Proof.
  unfold channel, uniform_image.
  rewrite mean_flat_map_repeat; [ | exact Hh | ].
  - rewrite map_repeat. apply mean_repeat. exact Hw.
  - destruct w; [lia | discriminate].
Qed.

End Uniform.

(** ** Scenario A: a uniform mid-green image labelled "tomato" *)

Lemma clamp_inside (x : Q) :
  0.001 < x -> x < 0.999 -> Py.max 0.001 (Py.min 0.999 x) = x.
Proof.
  intros Hlo Hhi. unfold Py.max, Py.min.
  rewrite (proj2 (ltb_true x 0.999) Hhi), (proj2 (gtb_true x 0.001) Hlo).
  reflexivity.
Qed.

Lemma clamp_below (x t : Q) :
  0.001 < t -> x < t -> Py.max 0.001 (Py.min 0.999 x) < t.
Proof.
  intros Ht Hx. unfold Py.max, Py.min.
  destruct (x <? 0.999) eqn:Hhi.
  - destruct (x >? 0.001); [exact Hx | exact Ht].
  - apply ltb_false in Hhi. destruct (0.999 >? 0.001); lra.
Qed.

(** A feature vector of the fourth tier with no secondary adjustment,
    scored for a tomato. *)
Lemma borderline_tomato_score (f : test_new_crops_model.FeatureVector) :
  0.3 <= test_new_crops_model.brightness f <= 0.4 ->
  0.25 <= test_new_crops_model.green_dominance f ->
  test_new_crops_model.contrast f <= 0.2 ->
  test_new_crops_model.color_balance f <= 0.3 ->
  Spec.primary_tier f 0.45
  /\ test_new_crops_model.health_score_before_noise f (Some "tomato") == 0.4.
Proof.
  intros [Hb3 Hb4] Hg Hc Hcb. split.
  - apply Spec.Tier4.
    + intros [H _]. lra.
    + intros [H _]. lra.
    + intros [H | H]; lra.
  - unfold test_new_crops_model.health_score_before_noise. cbv zeta.
    assert (H1 : (test_new_crops_model.brightness f >? 0.6) = false)
      by (apply gtb_false; lra).
    assert (H2 : (test_new_crops_model.brightness f >? 0.4) = false)
      by (apply gtb_false; lra).
    assert (H3 : (test_new_crops_model.brightness f <? 0.3) = false)
      by (apply ltb_false; lra).
    assert (H4 : (test_new_crops_model.green_dominance f <? 0.25) = false)
      by (apply ltb_false; lra).
    assert (H5 : (0.2 <? test_new_crops_model.contrast f) = false)
      by (apply ltb_false; lra).
    assert (H6 : (test_new_crops_model.color_balance f >? 0.3) = false)
      by (apply gtb_false; lra).
    rewrite H1, H2, H3, H4, H5, H6. cbn [andb orb].
    change (test_new_crops_model.get_crop_adjustment (Some "tomato")) with (-0.5).
    lra.
Qed.

(** The rounded-down square root never exceeds a bound whose square
    dominates its argument. *)
Lemma sqrt_floor_below (v c : Q) : 0 <= c -> v <= c * c -> sqrt_floor v <= c.
Proof.
  intros Hc Hv. unfold sqrt_floor.
  apply Qle_shift_div_r; [reflexivity | ].
  set (F := Qfloor (v * 1000000000000)).
  destruct (Z.lt_ge_cases F 0) as [Hneg | Hpos].
  - rewrite Z.sqrt_neg by exact Hneg. unfold inject_Z. lra.
  - pose proof (Z.sqrt_spec F Hpos) as [Hs _].
    pose proof (Z.sqrt_nonneg F) as Hs0.
    pose proof (Qfloor_le (v * 1000000000000)) as HF. fold F in HF.
    set (s := Z.sqrt F) in *.
    assert (Hss : inject_Z s * inject_Z s <= inject_Z F).
    { rewrite <- inject_Z_mult, <- Zle_Qle. exact Hs. }
    assert (Hs0' : 0 <= inject_Z s).
    { change 0 with (inject_Z 0). rewrite <- Zle_Qle. exact Hs0. }
    destruct (Qlt_le_dec (c * 1000000) (inject_Z s)) as [Hgt | Hle]; [ | exact Hle].
    exfalso.
    assert (Hsq : (c * 1000000) * (c * 1000000) < inject_Z s * inject_Z s) by nra.
    nra.
Qed.

Section ScenarioA.

Import test_new_crops_model.

Variable np_sqrt : Q -> Q.

(** What is assumed of [np.sqrt]: it does not exceed a non-negative bound
    whose square dominates the argument. *)
Hypothesis np_sqrt_below : forall v c, 0 <= c -> v <= c * c -> np_sqrt v <= c.

(** The features of the scenario's tensor. *)
Lemma scenario_A_features :
  exists f,
    analyze_image_features np_sqrt (Some scenario_A) = Ok (Some f)
    /\ brightness f == 50 # 153
    /\ green_dominance f == 150000 # 250255
    /\ contrast f <= 0.2
    /\ color_balance f == 0.
Proof.
  eexists. split; [reflexivity | ].
  cbn [brightness green_dominance contrast color_balance].
  assert (H224 : (0 < 224)%nat) by lia.
  pose proof (uniform_mean 224 224 (50 / 255, 150 / 255, 50 / 255) H224 H224) as Hm.
  pose proof (uniform_channel_mean 224 224 (50 / 255, 150 / 255, 50 / 255)
                H224 H224 chan_r) as Hr.
  pose proof (uniform_channel_mean 224 224 (50 / 255, 150 / 255, 50 / 255)
                H224 H224 chan_g) as Hg.
  pose proof (uniform_channel_mean 224 224 (50 / 255, 150 / 255, 50 / 255)
                H224 H224 chan_b) as Hb.
  pose proof (fun k => uniform_mean_of_map 224 224 (50 / 255, 150 / 255, 50 / 255)
                H224 H224 k) as Hv.
  unfold Np.var. cbv zeta.
  set (img := uniform_image 224 224 (50 / 255, 150 / 255, 50 / 255)) in *.
  set (m := Np.mean (flat img)) in *.
  set (rm := Np.mean (channel chan_r img)) in *.
  set (gm := Np.mean (channel chan_g img)) in *.
  set (bm := Np.mean (channel chan_b img)) in *.
  specialize (Hv (fun x => (x - m) * (x - m))).
  set (vr := Np.mean (map (fun x => (x - m) * (x - m)) (flat img))) in *.
  clearbody vr rm gm bm m. clear img.
  cbv [map channels chan_r chan_g chan_b fst snd Np.mean Np.sum fold_right length]
    in Hm, Hr, Hg, Hb, Hv.
  split; [ | split; [ | split]].
  - rewrite Hm. vm_compute. reflexivity.
  - rewrite Hr, Hg, Hb. vm_compute. reflexivity.
  - apply np_sqrt_below; [lra | ].
    rewrite Hv, !Hm. vm_compute. discriminate.
  - unfold Py.abs. rewrite Hr, Hb. vm_compute. reflexivity.
Qed.

End ScenarioA.

Section ScenarioAClaim.

Import test_new_crops_model.

Variable np_sqrt : Q -> Q.
Hypothesis np_sqrt_below : forall v c, 0 <= c -> v <= c * c -> np_sqrt v <= c.

(** C2, amended: for the uniform 224 by 224 tensor of pixels
    (50, 150, 50) / 255 labelled "tomato", the brightness is 50/153 (about
    0.327) and the green dominance is about 0.599; the brightness is below
    0.4, so the scorer takes the fourth primary tier (base 0.45); the tomato
    bias contributes -0.05; the score before the draw is 0.40, which is also
    the scorer's output for a zero draw; and for every draw below 0.1 the
    verdict is not healthy. *)
Theorem scenario_A_scores_affected :
  exists f,
    analyze_image_features np_sqrt (Some scenario_A) = Ok (Some f)
    /\ brightness f == 50 # 153
    /\ 0.326 < brightness f < 0.328
    /\ 0.599 < green_dominance f < 0.6
    /\ Spec.primary_tier f 0.45
    /\ get_crop_adjustment (Some "tomato") * 0.1 == -0.05
    /\ health_score_before_noise f (Some "tomato") == 0.4
    /\ simulate_web_model_prediction (Some f) (Some "tomato") 0 == 0.4
    /\ forall noise, noise < 0.1 ->
         sim_healthy (simulate_web_model_prediction (Some f) (Some "tomato") noise)
         = false.
Proof.
  destruct (scenario_A_features np_sqrt np_sqrt_below)
    as (f & Hf & Hb & Hg & Hc & Hcb).
  assert (Hb' : 0.326 < brightness f < 0.328)
    by (rewrite Hb; split; reflexivity).
  assert (Hg' : 0.599 < green_dominance f < 0.6)
    by (rewrite Hg; split; reflexivity).
  destruct (borderline_tomato_score f) as [Htier Hscore]; try lra.
  exists f.
  split; [exact Hf | split; [exact Hb | split; [exact Hb' | split; [exact Hg' | ]]]].
  split; [exact Htier | split; [reflexivity | split; [exact Hscore | ]]].
  unfold simulate_web_model_prediction. cbv zeta. split.
  - rewrite clamp_inside; lra.
  - intros noise Hn. unfold sim_healthy. apply gtb_false.
    apply Qlt_le_weak. apply clamp_below; lra.
Qed.

End ScenarioAClaim.

Lemma scenario_A_scores_affected_witness :
  exists f,
    test_new_crops_model.analyze_image_features sqrt_floor (Some scenario_A)
      = Ok (Some f)
    /\ test_new_crops_model.health_score_before_noise f (Some "tomato") == 0.4.
Proof.
  destruct (scenario_A_scores_affected sqrt_floor sqrt_floor_below)
    as (f & Hf & _ & _ & _ & _ & _ & Hs & _).
  exists f. split; [exact Hf | exact Hs].
Defined.

(** C2, as stated, fails: the scenario's feature vector is not in the second
    primary tier, so it is not the case that the base is 0.75, the output
    for a zero draw is in (0.65, 0.75) and the verdict is healthy. *)
Lemma scenario_A_not_second_tier :
  ~ exists f,
      test_new_crops_model.analyze_image_features sqrt_floor (Some scenario_A)
        = Ok (Some f)
      /\ Spec.primary_tier f 0.75
      /\ 0.65 < test_new_crops_model.simulate_web_model_prediction
                  (Some f) (Some "tomato") 0 < 0.75
      /\ test_new_crops_model.sim_healthy
           (test_new_crops_model.simulate_web_model_prediction
              (Some f) (Some "tomato") 0) = true.
Proof.
  intros (f & Hf & Ht & _ & _).
  destruct (scenario_A_features sqrt_floor sqrt_floor_below)
    as (f' & Hf' & Hb & Hg & Hc & Hcb).
  rewrite Hf' in Hf. injection Hf as <-.
  destruct (borderline_tomato_score f') as [Htier _]; try lra.
  pose proof (primary_tier_functional f' _ _ Ht Htier) as Heq.
  discriminate Heq.
Qed.

(** ** Undecodable images *)






(** * Further properties of the code *)

(** ** Crop adjustment *)

Lemma lower_empty (s : string) : lower s = "" -> s = "".
Proof. destruct s; [reflexivity | discriminate]. Qed.

Lemma crop_adjustment_between (crop_type : option string) :
  -0.8 <= test_new_crops_model.get_crop_adjustment crop_type <= 0.3.
Proof.
  unfold test_new_crops_model.get_crop_adjustment.
  destruct (negb (truthy crop_type)); [lra | ].
  generalize (lower (or_else crop_type "")). intros crop.
  repeat match goal with
         | |- context [str_in ?k crop] => destruct (str_in k crop); cbn [orb]
         end; lra.
Qed.

(** The crop adjustment takes one of six values, all within [[-0.8, 0.3]]. *)
Theorem crop_adjustment_values (crop_type : option string) :
  In (test_new_crops_model.get_crop_adjustment crop_type)
     [0.1; -0.5; -0.3; -0.8; 0.3; 0.0]
  /\ -0.8 <= test_new_crops_model.get_crop_adjustment crop_type <= 0.3.
Proof.
  split; [ | apply crop_adjustment_between].
  unfold test_new_crops_model.get_crop_adjustment.
  destruct (negb (truthy crop_type)); [simpl; tauto | ].
  generalize (lower (or_else crop_type "")). intros crop.
  repeat match goal with
         | |- context [str_in ?k crop] => destruct (str_in k crop); cbn [orb]
         end; simpl; tauto.
Qed.

(** Labels that differ only in the case of their letters get the same
    adjustment. *)
Theorem crop_adjustment_ignores_case (s1 s2 : string) :
  lower s1 = lower s2 ->
  test_new_crops_model.get_crop_adjustment (Some s1)
  = test_new_crops_model.get_crop_adjustment (Some s2).
Proof.
  intros Hl. unfold test_new_crops_model.get_crop_adjustment.
  destruct s1 as [|c1 t1]; destruct s2 as [|c2 t2]; try discriminate Hl.
  - reflexivity.
  - cbn [truthy negb or_else]. rewrite Hl. reflexivity.
Qed.

Lemma crop_adjustment_ignores_case_witness :
  lower "Cherry TOMATO" = lower "cherry tomato"
  /\ test_new_crops_model.get_crop_adjustment (Some "Cherry TOMATO")
     = test_new_crops_model.get_crop_adjustment (Some "cherry tomato").
Proof.
  split; [reflexivity | ].
  apply (crop_adjustment_ignores_case "Cherry TOMATO" "cherry tomato"). reflexivity.
Defined.

(** ** Range and sensitivity of the score *)

Ltac props_of_tests :=
  repeat match goal with
         | H : (_ <? _) = true |- _ => apply ltb_true in H
         | H : (_ <? _) = false |- _ => apply ltb_false in H
         | H : (_ >? _) = true |- _ => apply gtb_true in H
         | H : (_ >? _) = false |- _ => apply gtb_false in H
         end.

Lemma clamp_monotone (x y : Q) :
  x <= y -> Py.max 0.001 (Py.min 0.999 x) <= Py.max 0.001 (Py.min 0.999 y).
Proof.
  intros Hxy. unfold Py.max, Py.min.
  destruct (x <? 0.999) eqn:Hx; destruct (y <? 0.999) eqn:Hy;
    destruct (x >? 0.001) eqn:Hx'; destruct (y >? 0.001) eqn:Hy';
    destruct (0.999 >? 0.001) eqn:Hc; props_of_tests; lra.
Qed.

Lemma clamp_above (x t : Q) :
  t < 0.999 -> t < x -> t < Py.max 0.001 (Py.min 0.999 x).
Proof.
  intros Ht Hx. unfold Py.max, Py.min.
  destruct (x <? 0.999) eqn:Hhi; destruct (x >? 0.001) eqn:Hlo;
    destruct (0.999 >? 0.001) eqn:Hc; props_of_tests; lra.
Qed.

Lemma clamp_lipschitz (x y d : Q) :
  0 <= d -> x - y <= d ->
  Py.max 0.001 (Py.min 0.999 x) - Py.max 0.001 (Py.min 0.999 y) <= d.
Proof.
  intros Hd Hxy. unfold Py.max, Py.min.
  destruct (x <? 0.999) eqn:Hx; destruct (y <? 0.999) eqn:Hy;
    destruct (x >? 0.001) eqn:Hx'; destruct (y >? 0.001) eqn:Hy';
    destruct (0.999 >? 0.001) eqn:Hc; props_of_tests; lra.
Qed.

(** Before the random draw the score lies in [[-0.03, 1.03]]: the lowest
    base with the balance penalty and the strawberry bias, the highest base
    with the contrast bonus and the corn bias. *)
Theorem pre_noise_score_range
  (f : test_new_crops_model.FeatureVector) (crop_type : option string) :
  -0.03 <= test_new_crops_model.health_score_before_noise f crop_type <= 1.03.
Proof.
  pose proof (crop_adjustment_between crop_type) as [Hlo Hhi].
  unfold test_new_crops_model.health_score_before_noise. cbv zeta.
  repeat match goal with
         | |- context [if ?b then _ else _] => destruct b
         end; lra.
Qed.

Lemma pre_noise_score_between
  (f : test_new_crops_model.FeatureVector) (crop_type : option string)
  (base : Q) :
  base = (if (test_new_crops_model.brightness f >? 0.6)
             && (test_new_crops_model.green_dominance f >? 0.35)
             && (test_new_crops_model.texture_complexity f >? 0.02)
          then 0.95
          else if (test_new_crops_model.brightness f >? 0.4)
                  && (test_new_crops_model.green_dominance f >? 0.3)
          then 0.75
          else if (test_new_crops_model.brightness f <? 0.3)
                  || (test_new_crops_model.green_dominance f <? 0.25)
          then 0.15 else 0.45) ->
  base - 0.18 <= test_new_crops_model.health_score_before_noise f crop_type
              <= base + 0.08.
Proof.
  intros Hbase.
  pose proof (crop_adjustment_between crop_type) as [Hlo Hhi].
  unfold test_new_crops_model.health_score_before_noise. cbv zeta.
  rewrite <- Hbase. clear Hbase.
  repeat match goal with
         | |- context [if ?b then _ else _] => destruct b
         end; lra.
Qed.

(** A dark image, or one with little green, is scored at most 0.23 before
    the draw, whatever the other features and the crop; its verdict is not
    healthy for every draw below 0.27. *)
Theorem weak_signal_is_affected
  (f : test_new_crops_model.FeatureVector) (crop_type : option string) :
  test_new_crops_model.brightness f < 0.3
  \/ test_new_crops_model.green_dominance f < 0.25 ->
  test_new_crops_model.health_score_before_noise f crop_type <= 0.23
  /\ forall noise, noise < 0.27 ->
       test_new_crops_model.sim_healthy
         (test_new_crops_model.simulate_web_model_prediction
            (Some f) crop_type noise) = false.
Proof.
  intros Hweak.
  assert (H1 : ((test_new_crops_model.brightness f >? 0.6)
                && (test_new_crops_model.green_dominance f >? 0.35)
                && (test_new_crops_model.texture_complexity f >? 0.02)) = false).
  { apply not_true_iff_false. rewrite tier1_test. unfold Spec.tier1. lra. }
  assert (H2 : ((test_new_crops_model.brightness f >? 0.4)
                && (test_new_crops_model.green_dominance f >? 0.3)) = false).
  { apply not_true_iff_false. rewrite tier2_test. unfold Spec.tier2. lra. }
  assert (H3 : ((test_new_crops_model.brightness f <? 0.3)
                || (test_new_crops_model.green_dominance f <? 0.25)) = true).
  { apply tier3_test. exact Hweak. }
  pose proof (pre_noise_score_between f crop_type 0.15) as [_ Hhi].
  { rewrite H1, H2, H3. reflexivity. }
  split; [lra | ].
  intros noise Hn. unfold test_new_crops_model.sim_healthy,
    test_new_crops_model.simulate_web_model_prediction. cbv zeta.
  apply gtb_false. apply Qlt_le_weak. apply clamp_below; lra.
Qed.

Lemma weak_signal_is_affected_witness :
  test_new_crops_model.sim_healthy
    (test_new_crops_model.simulate_web_model_prediction
       (Some (test_new_crops_model.mkFeatures 0.05 0.3 0.4 0.5 0.1 0.0 0.1 0.05))
       (Some "corn") 0.02) = false.
Proof.
  apply (weak_signal_is_affected
           (test_new_crops_model.mkFeatures 0.05 0.3 0.4 0.5 0.1 0.0 0.1 0.05)
           (Some "corn")).
  - left. reflexivity.
  - reflexivity.
Defined.

(** A bright, green, textured image is scored at least 0.77 before the
    draw, whatever the other features and the crop; its verdict is healthy
    for every draw above -0.27. *)
Theorem strong_signal_is_healthy
  (f : test_new_crops_model.FeatureVector) (crop_type : option string) :
  0.6 < test_new_crops_model.brightness f ->
  0.35 < test_new_crops_model.green_dominance f ->
  0.02 < test_new_crops_model.texture_complexity f ->
  0.77 <= test_new_crops_model.health_score_before_noise f crop_type
  /\ forall noise, -0.27 < noise ->
       test_new_crops_model.sim_healthy
         (test_new_crops_model.simulate_web_model_prediction
            (Some f) crop_type noise) = true.
Proof.
  intros Hb Hg Ht.
  assert (H1 : ((test_new_crops_model.brightness f >? 0.6)
                && (test_new_crops_model.green_dominance f >? 0.35)
                && (test_new_crops_model.texture_complexity f >? 0.02)) = true).
  { apply tier1_test. unfold Spec.tier1. tauto. }
  pose proof (pre_noise_score_between f crop_type 0.95) as [Hlo _].
  { rewrite H1. reflexivity. }
  split; [lra | ].
  intros noise Hn. unfold test_new_crops_model.sim_healthy,
    test_new_crops_model.simulate_web_model_prediction. cbv zeta.
  apply gtb_true. apply clamp_above; lra.
Qed.

Lemma strong_signal_is_healthy_witness :
  test_new_crops_model.sim_healthy
    (test_new_crops_model.simulate_web_model_prediction
       (Some (test_new_crops_model.mkFeatures 0.7 0.1 0.4 0.5 0.1 0.9 0.8 0.4))
       (Some "strawberry") (-0.02)) = true.
Proof.
  apply (strong_signal_is_healthy
           (test_new_crops_model.mkFeatures 0.7 0.1 0.4 0.5 0.1 0.9 0.8 0.4)
           (Some "strawberry")); reflexivity.
Defined.

(** The scorer's output does not decrease when the draw increases. *)
Theorem prediction_monotone_in_noise
  (f : test_new_crops_model.FeatureVector) (crop_type : option string)
  (noise1 noise2 : Q) :
  noise1 <= noise2 ->
  test_new_crops_model.simulate_web_model_prediction (Some f) crop_type noise1
  <= test_new_crops_model.simulate_web_model_prediction (Some f) crop_type noise2.
Proof.
  intros Hn. unfold test_new_crops_model.simulate_web_model_prediction. cbv zeta.
  apply clamp_monotone. lra.
Qed.

Lemma prediction_monotone_in_noise_witness :
  test_new_crops_model.simulate_web_model_prediction
    (Some (test_new_crops_model.mkFeatures 0.5 0.3 0.32 0.1 0.01 0.4 0.5 0.5))
    (Some "palak") (-0.01)
  <= test_new_crops_model.simulate_web_model_prediction
       (Some (test_new_crops_model.mkFeatures 0.5 0.3 0.32 0.1 0.01 0.4 0.5 0.5))
       (Some "palak") 0.02.
Proof.
  apply (prediction_monotone_in_noise
           (test_new_crops_model.mkFeatures 0.5 0.3 0.32 0.1 0.01 0.4 0.5 0.5)
           (Some "palak") (-0.01) 0.02).
  discriminate.
Defined.

(** Changing only the crop label moves the scorer's output by at most 0.11,
    a tenth of the spread of the adjustment table. *)
Theorem crop_label_moves_prediction_little
  (f : test_new_crops_model.FeatureVector) (crop1 crop2 : option string)
  (noise : Q) :
  test_new_crops_model.simulate_web_model_prediction (Some f) crop1 noise
  - test_new_crops_model.simulate_web_model_prediction (Some f) crop2 noise
  <= 0.11.
Proof.
  pose proof (crop_adjustment_between crop1) as [Hlo1 Hhi1].
  pose proof (crop_adjustment_between crop2) as [Hlo2 Hhi2].
  unfold test_new_crops_model.simulate_web_model_prediction. cbv zeta.
  apply clamp_lipschitz; [lra | ].
  unfold test_new_crops_model.health_score_before_noise. cbv zeta.
  repeat match goal with
         | |- context [if ?b then _ else _] => destruct b
         end; lra.
Qed.

(** ** Invariants of the feature extractor *)

Lemma sum_row_channels (row : list pixel) :
  Np.sum (flat_map channels row)
  == Np.sum (map chan_r row) + Np.sum (map chan_g row) + Np.sum (map chan_b row).
Proof.
  induction row as [|p row IH].
  - simpl. ring.
  - cbn [flat_map map]. rewrite sum_app. simpl Np.sum at 1.
    cbn [Np.sum fold_right map]. fold (Np.sum (map chan_r row)).
    fold (Np.sum (map chan_g row)). fold (Np.sum (map chan_b row)).
    rewrite IH. ring.
Qed.

Lemma sum_flat_channels (img : image) :
  Np.sum (flat img)
  == Np.sum (channel chan_r img) + Np.sum (channel chan_g img)
     + Np.sum (channel chan_b img).
Proof.
  unfold flat, channel. induction img as [|row img IH].
  - simpl. ring.
  - cbn [flat_map]. rewrite !sum_app, IH, sum_row_channels. ring.
Qed.

Lemma length_channel (k : pixel -> Q) (img : image) :
  length (flat img) = (3 * length (channel k img))%nat.
Proof.
  unfold flat, channel. induction img as [|row img IH].
  - reflexivity.
  - cbn [flat_map]. rewrite !length_app, IH, length_map.
    assert (Hrow : length (flat_map channels row) = (3 * length row)%nat).
    { clear. induction row as [|p row IH]; [reflexivity | ].
      cbn [flat_map]. rewrite length_app, IH. simpl. lia. }
    rewrite Hrow. lia.
Qed.

Lemma mean_nonneg (l : list Q) : (forall v, In v l -> 0 <= v) -> 0 <= Np.mean l.
Proof.
  intros Hl. unfold Np.mean.
  assert (Hs : 0 <= Np.sum l).
  { induction l as [|a l IH]; [simpl; lra | ].
    simpl. pose proof (Hl a (or_introl eq_refl)).
    assert (0 <= Np.sum l) by (apply IH; intros v Hv; apply Hl; right; exact Hv).
    unfold Np.sum in *. lra. }
  destruct l as [|a l].
  - vm_compute. discriminate.
  - apply Qle_shift_div_l; [apply count_pos; discriminate | lra].
Qed.

Lemma mean_all_zero (l : list Q) : (forall v, In v l -> v == 0) -> Np.mean l == 0.
Proof.
  intros Hl. unfold Np.mean.
  assert (Hs : Np.sum l == 0).
  { induction l as [|a l IH]; [reflexivity | ].
    simpl. rewrite (Hl a (or_introl eq_refl)).
    fold (Np.sum l). rewrite IH; [ring | ]. intros v Hv. apply Hl. right. exact Hv. }
  rewrite Hs. unfold Qdiv. ring.
Qed.

(** Where the entries of [np.diff] come from. *)
Lemma in_diff (l : list Q) (v : Q) :
  In v (Np.diff l) -> exists a b, In a l /\ In b l /\ v = b - a.
Proof.
  induction l as [|a l IH]; [contradiction | ].
  destruct l as [|b l]; [contradiction | ].
  cbn [Np.diff]. intros [<- | Hv].
  - exists a, b. simpl. auto.
  - destruct (IH Hv) as (a' & b' & Ha & Hb & ->).
    exists a', b'. simpl in *. auto.
Qed.

Lemma in_sub_rows (r2 r1 : list Q) (v : Q) :
  In v (Np.sub_rows r2 r1) -> exists a b, In a r1 /\ In b r2 /\ v = b - a.
Proof.
  revert r1. induction r2 as [|b r2 IH]; intros r1; [contradiction | ].
  destruct r1 as [|a r1]; [contradiction | ].
  cbn [Np.sub_rows]. intros [<- | Hv].
  - exists a, b. simpl. auto.
  - destruct (IH _ Hv) as (a' & b' & Ha & Hb & ->).
    exists a', b'. simpl. auto.
Qed.

Lemma in_diff_axis0 (g : list (list Q)) (r : list Q) :
  In r (Np.diff_axis0 g) -> exists r1 r2, In r1 g /\ In r2 g /\ r = Np.sub_rows r2 r1.
Proof.
  induction g as [|r1 g IH]; [contradiction | ].
  destruct g as [|r2 g]; [contradiction | ].
  cbn [Np.diff_axis0]. intros [<- | Hr].
  - exists r1, r2. simpl. auto.
  - destruct (IH Hr) as (r1' & r2' & H1 & H2 & ->).
    exists r1', r2'. simpl in *. auto.
Qed.

(** Every edge value is the absolute difference of two grey values. *)
Lemma in_edges (g : list (list Q)) (v : Q) :
  In v (Np.abs_flat (Np.diff_axis1 g)) \/ In v (Np.abs_flat (Np.diff_axis0 g)) ->
  exists r1 r2 a b, In r1 g /\ In r2 g /\ In a r1 /\ In b r2 /\ v = Qabs (b - a).
Proof.
  unfold Np.abs_flat, Np.diff_axis1, Py.abs.
  intros [Hv | Hv]; apply in_map_iff in Hv; destruct Hv as [d [<- Hd]];
    apply in_concat in Hd; destruct Hd as [row [Hrow Hd]].
  - apply in_map_iff in Hrow. destruct Hrow as [r [<- Hr]].
    destruct (in_diff _ _ Hd) as (a & b & Ha & Hb & ->).
    exists r, r, a, b. auto.
  - destruct (in_diff_axis0 _ _ Hrow) as (r1 & r2 & H1 & H2 & ->).
    destruct (in_sub_rows _ _ _ Hd) as (a & b & Ha & Hb & ->).
    exists r1, r2, a, b. auto.
Qed.

Lemma in_mean_axis2 (img : image) (r : list Q) (a : Q) :
  In r (mean_axis2 img) -> In a r ->
  exists row p, In row img /\ In p row /\ a = Np.mean (channels p).
Proof.
  unfold mean_axis2. intros Hr Ha.
  apply in_map_iff in Hr. destruct Hr as [row [<- Hrow]].
  apply in_map_iff in Ha. destruct Ha as [p [<- Hp]].
  exists row, p. auto.
Qed.

Lemma pixel_in_flat (img : image) (row : list pixel) (p : pixel) (v : Q) :
  In row img -> In p row -> In v (channels p) -> In v (flat img).
Proof.
  intros Hrow Hp Hv. unfold flat. apply in_flat_map. exists row.
  split; [exact Hrow | ]. apply in_flat_map. exists p. auto.
Qed.

Lemma grey_value_bounds (img : image) (r : list Q) (a : Q) :
  Spec.normalized img -> In r (mean_axis2 img) -> In a r -> 0 <= a <= 1.
Proof.
  intros Hn Hr Ha. destruct (in_mean_axis2 _ _ _ Hr Ha) as (row & p & Hrow & Hp & ->).
  apply mean_bounds. intros v Hv. apply Hn. apply (pixel_in_flat img row p); assumption.
Qed.

Lemma edges_mean_bounds (img : image) :
  Spec.normalized img ->
  0 <= Np.mean (Np.abs_flat (Np.diff_axis1 (mean_axis2 img))) <= 1
  /\ 0 <= Np.mean (Np.abs_flat (Np.diff_axis0 (mean_axis2 img))) <= 1.
Proof.
  intros Hn.
  assert (Hedge : forall v,
            In v (Np.abs_flat (Np.diff_axis1 (mean_axis2 img)))
            \/ In v (Np.abs_flat (Np.diff_axis0 (mean_axis2 img))) -> 0 <= v <= 1).
  { intros v Hv. destruct (in_edges _ _ Hv) as (r1 & r2 & a & b & H1 & H2 & Ha & Hb & ->).
    pose proof (grey_value_bounds img r1 a Hn H1 Ha) as [Ha0 Ha1].
    pose proof (grey_value_bounds img r2 b Hn H2 Hb) as [Hb0 Hb1].
    split; [apply Qabs_nonneg | ]. apply Qabs_Qle_condition. lra. }
  split; apply mean_bounds; intros v Hv; apply Hedge; auto.
Qed.

(** On a non-empty tensor the brightness is the average of the three
    channel means. *)
Theorem brightness_is_mean_of_channel_means
  (np_sqrt : Q -> Q) (img : image) (rest : batch) :
  flat img <> [] ->
  exists f,
    test_new_crops_model.analyze_image_features np_sqrt (Some (img :: rest))
      = Ok (Some f)
    /\ test_new_crops_model.brightness f
       == (test_new_crops_model.r_mean f + test_new_crops_model.g_mean f
           + test_new_crops_model.b_mean f) / 3.
Proof.
  intros Hne. eexists. split; [reflexivity | ].
  cbn [test_new_crops_model.brightness test_new_crops_model.r_mean
       test_new_crops_model.g_mean test_new_crops_model.b_mean].
  unfold Np.mean. rewrite sum_flat_channels.
  rewrite (length_channel chan_r img).
  pose proof (length_channel chan_r img) as Hr.
  pose proof (length_channel chan_g img) as Hg.
  pose proof (length_channel chan_b img) as Hb.
  assert (Hg' : length (channel chan_g img) = length (channel chan_r img)) by lia.
  assert (Hb' : length (channel chan_b img) = length (channel chan_r img)) by lia.
  rewrite Hg', Hb'.
  assert (Hn : (0 < length (channel chan_r img))%nat).
  { destruct (flat img); [contradiction | ]. simpl in Hr. lia. }
  rewrite Nat2Z.inj_mul, inject_Z_mult.
  assert (Hz : 0 < inject_Z (Z.of_nat (length (channel chan_r img))))
    by (unfold Qlt, inject_Z; simpl; lia).
  change (inject_Z (Z.of_nat 3)) with 3.
  field. lra.
Qed.

Lemma brightness_is_mean_of_channel_means_witness :
  exists f,
    test_new_crops_model.analyze_image_features sqrt_floor
      (Some [[[(0.2, 0.6, 0.2); (1, 0, 0.5)]]]) = Ok (Some f)
    /\ test_new_crops_model.brightness f
       == (test_new_crops_model.r_mean f + test_new_crops_model.g_mean f
           + test_new_crops_model.b_mean f) / 3.
Proof.
  apply (brightness_is_mean_of_channel_means sqrt_floor
           [[(0.2, 0.6, 0.2); (1, 0, 0.5)]] []).
  discriminate.
Defined.

Lemma edges_not_empty (img : image) :
  (2 <= length img)%nat ->
  (forall row, In row img -> (2 <= length row)%nat) ->
  Np.abs_flat (Np.diff_axis1 (mean_axis2 img)) <> []
  /\ Np.abs_flat (Np.diff_axis0 (mean_axis2 img)) <> [].
Proof.
  intros Hh Hw.
  destruct img as [|r1 [|r2 t]]; simpl in Hh; try lia.
  pose proof (Hw r1 (or_introl eq_refl)) as H1.
  pose proof (Hw r2 (or_intror (or_introl eq_refl))) as H2.
  destruct r1 as [|p1 [|p2 t1]]; simpl in H1; try lia.
  destruct r2 as [|q1 [|q2 t2]]; simpl in H2; try lia.
  split;
    cbn [mean_axis2 map Np.diff_axis1 Np.diff_axis0 Np.abs_flat concat Np.diff
         Np.sub_rows app];
    discriminate.
Qed.

(** On a tensor of at least two rows and two columns with every value in
    [[0, 1]], the two arrays of edge strengths that are averaged are not
    empty, the brightness and the colour balance are in [[0, 1]] and the
    texture complexity is in [[0, 2]]. *)
Theorem feature_ranges (np_sqrt : Q -> Q) (img : image) (rest : batch) :
  Spec.normalized img ->
  (2 <= length img)%nat ->
  (forall row, In row img -> (2 <= length row)%nat) ->
  exists f,
    test_new_crops_model.analyze_image_features np_sqrt (Some (img :: rest))
      = Ok (Some f)
    /\ flat img <> []
    /\ Np.abs_flat (Np.diff_axis1 (mean_axis2 img)) <> []
    /\ Np.abs_flat (Np.diff_axis0 (mean_axis2 img)) <> []
    /\ 0 <= test_new_crops_model.brightness f <= 1
    /\ 0 <= test_new_crops_model.color_balance f <= 1
    /\ 0 <= test_new_crops_model.texture_complexity f <= 2.
Proof.
  intros Hn Hh Hw. eexists. split; [reflexivity | ].
  cbn [test_new_crops_model.brightness test_new_crops_model.color_balance
       test_new_crops_model.texture_complexity].
  assert (Hr : 0 <= Np.mean (channel chan_r img) <= 1)
    by (apply channel_mean_bounds; [intros p; simpl; auto | exact Hn]).
  assert (Hb : 0 <= Np.mean (channel chan_b img) <= 1)
    by (apply channel_mean_bounds; [intros p; simpl; auto | exact Hn]).
  destruct (edges_mean_bounds img Hn) as [Hx Hy].
  destruct (edges_not_empty img Hh Hw) as [Hex Hey].
  split.
  { destruct img as [|[|p1 t1] t]; simpl in Hh; try lia.
    - specialize (Hw [] (or_introl eq_refl)). simpl in Hw. lia.
    - discriminate. }
  split; [exact Hex | split; [exact Hey | ]].
  split; [apply mean_bounds; exact Hn | ].
  split; [ | lra].
  unfold Py.abs. split; [apply Qabs_nonneg | apply Qabs_Qle_condition; lra].
Qed.

Lemma feature_ranges_witness :
  exists f,
    test_new_crops_model.analyze_image_features sqrt_floor
      (Some [[[(0.2, 0.6, 0.2); (1, 0, 0.5)]; [(0, 0, 0); (1, 1, 1)]]])
      = Ok (Some f)
    /\ 0 <= test_new_crops_model.texture_complexity f <= 2.
Proof.
  destruct (feature_ranges sqrt_floor
              [[(0.2, 0.6, 0.2); (1, 0, 0.5)]; [(0, 0, 0); (1, 1, 1)]] [])
    as (f & Hf & _ & _ & _ & _ & _ & Ht).
  - intros v Hv.
    cbv [flat flat_map channels chan_r chan_g chan_b fst snd app In] in Hv.
    repeat (destruct Hv as [<- | Hv]; [lra | ]). contradiction.
  - simpl. lia.
  - intros row [<- | [<- | []]]; simpl; lia.
  - exists f. split; [exact Hf | exact Ht].
Defined.

(** ** Images that cannot reach the strongest tier *)

Lemma not_tier1_score
  (f : test_new_crops_model.FeatureVector) (crop_type : option string) :
  ~ Spec.tier1 f ->
  test_new_crops_model.health_score_before_noise f crop_type <= 0.83.
Proof.
  intros H1. rewrite <- tier1_test in H1. apply not_true_iff_false in H1.
  pose proof (pre_noise_score_between f crop_type _ eq_refl) as [_ Hhi].
  rewrite H1 in Hhi.
  repeat match type of Hhi with
         | context [if ?b then _ else _] => destruct b
         end; lra.
Qed.

Lemma channel_ext (k k' : pixel -> Q) (img : image) :
  (forall row p, In row img -> In p row -> k p = k' p) ->
  channel k img = channel k' img.
Proof.
  unfold channel. induction img as [|row img IH]; intros Hk; [reflexivity | ].
  cbn [flat_map]. rewrite IH.
  - f_equal. apply map_ext_in. intros p Hp. apply (Hk row); simpl; auto.
  - intros r p Hr Hp. apply (Hk r); simpl; auto.
Qed.

(** A grey image, one whose pixels have three equal channel values in
    [[0, 1]], has colour balance 0 and green dominance below one third; it
    misses the first primary tier, and its score before the draw is at
    most 0.83 for every crop. *)
Theorem grey_image_misses_first_tier
  (np_sqrt : Q -> Q) (img : image) (rest : batch) :
  Spec.normalized img -> flat img <> [] ->
  (forall row p, In row img -> In p row -> chan_r p = chan_g p /\ chan_b p = chan_g p) ->
  exists f,
    test_new_crops_model.analyze_image_features np_sqrt (Some (img :: rest))
      = Ok (Some f)
    /\ test_new_crops_model.color_balance f == 0
    /\ test_new_crops_model.green_dominance f < 1 # 3
    /\ ~ Spec.tier1 f
    /\ forall crop_type,
         test_new_crops_model.health_score_before_noise f crop_type <= 0.83.
Proof.
  intros Hn _ Hgrey.
  assert (Hg : 0 <= Np.mean (channel chan_g img) <= 1)
    by (apply channel_mean_bounds; [intros p; simpl; auto | exact Hn]).
  assert (Hrg : channel chan_r img = channel chan_g img)
    by (apply channel_ext; intros row p Hrow Hp; apply (Hgrey row p Hrow Hp)).
  assert (Hbg : channel chan_b img = channel chan_g img)
    by (apply channel_ext; intros row p Hrow Hp; apply (Hgrey row p Hrow Hp)).
  eexists. split; [reflexivity | ].
  cbn [test_new_crops_model.color_balance test_new_crops_model.green_dominance].
  rewrite Hrg, Hbg. set (m := Np.mean (channel chan_g img)) in *.
  assert (Hcb : Py.abs (m - m) == 0).
  { unfold Py.abs. setoid_replace (m - m) with 0 by ring. reflexivity. }
  assert (Hgd : m / (m + m + m + 0.001) < 1 # 3).
  { apply Qlt_shift_div_r; lra. }
  split; [exact Hcb | split; [exact Hgd | ]].
  assert (Hnot : ~ Spec.tier1
            (test_new_crops_model.mkFeatures (Np.mean (flat img))
               (np_sqrt (Np.var (flat img))) (m / (m + m + m + 0.001))
               (Py.abs (m - m))
               (Np.mean (Np.abs_flat (Np.diff_axis1 (mean_axis2 img)))
                + Np.mean (Np.abs_flat (Np.diff_axis0 (mean_axis2 img))))
               m m m)).
  { unfold Spec.tier1. cbn [test_new_crops_model.green_dominance]. lra. }
  split; [exact Hnot | ].
  intros crop_type. apply not_tier1_score. exact Hnot.
Qed.

Lemma grey_image_misses_first_tier_witness :
  exists f,
    test_new_crops_model.analyze_image_features sqrt_floor
      (Some [[[(0.9, 0.9, 0.9); (0.7, 0.7, 0.7)]]]) = Ok (Some f)
    /\ ~ Spec.tier1 f.
Proof.
  destruct (grey_image_misses_first_tier sqrt_floor
              [[(0.9, 0.9, 0.9); (0.7, 0.7, 0.7)]] [])
    as (f & Hf & _ & _ & Ht & _).
  - intros v Hv.
    cbv [flat flat_map channels chan_r chan_g chan_b fst snd app In] in Hv.
    repeat (destruct Hv as [<- | Hv]; [lra | ]). contradiction.
  - discriminate.
  - intros row p Hrow Hp. simpl in Hrow. destruct Hrow as [<- | []].
    simpl in Hp. destruct Hp as [<- | [<- | []]]; split; reflexivity.
  - exists f. split; [exact Hf | exact Ht].
Defined.

Lemma in_repeat_eq {A : Type} (x y : A) (n : nat) : In y (repeat x n) -> y = x.
Proof. intros H. exact (repeat_spec n x y H). Qed.

Lemma uniform_grey (h w : nat) (p : pixel) :
  mean_axis2 (uniform_image h w p) = repeat (repeat (Np.mean (channels p)) w) h.
Proof.
  unfold mean_axis2, uniform_image. rewrite map_repeat, map_repeat. reflexivity.
Qed.

Lemma uniform_edges_zero (h w : nat) (p : pixel) (v : Q) :
  In v (Np.abs_flat (Np.diff_axis1 (mean_axis2 (uniform_image h w p))))
  \/ In v (Np.abs_flat (Np.diff_axis0 (mean_axis2 (uniform_image h w p)))) ->
  v == 0.
Proof.
  intros Hv. destruct (in_edges _ _ Hv) as (r1 & r2 & a & b & H1 & H2 & Ha & Hb & ->).
  rewrite uniform_grey in H1, H2.
  apply in_repeat_eq in H1, H2. subst r1 r2.
  apply in_repeat_eq in Ha, Hb. subst a b.
  setoid_replace (Np.mean (channels p) - Np.mean (channels p)) with 0 by ring.
  reflexivity.
Qed.

(** A single-colour image of at least 2 by 2 pixels has texture
    complexity 0 and the channel values of its pixel as channel means; it
    misses the first primary tier, and its score before the draw is at
    most 0.83 for every crop. *)
Theorem uniform_image_misses_first_tier
  (np_sqrt : Q -> Q) (h w : nat) (p : pixel) (rest : batch) :
  (2 <= h)%nat -> (2 <= w)%nat ->
  exists f,
    test_new_crops_model.analyze_image_features np_sqrt
      (Some (uniform_image h w p :: rest)) = Ok (Some f)
    /\ test_new_crops_model.r_mean f == chan_r p
    /\ test_new_crops_model.g_mean f == chan_g p
    /\ test_new_crops_model.b_mean f == chan_b p
    /\ test_new_crops_model.brightness f == (chan_r p + chan_g p + chan_b p) / 3
    /\ test_new_crops_model.texture_complexity f == 0
    /\ ~ Spec.tier1 f
    /\ forall crop_type,
         test_new_crops_model.health_score_before_noise f crop_type <= 0.83.
Proof.
  intros Hh Hw.
  assert (Hh0 : (0 < h)%nat) by lia. assert (Hw0 : (0 < w)%nat) by lia.
  assert (Htex : Np.mean (Np.abs_flat (Np.diff_axis1 (mean_axis2 (uniform_image h w p))))
                 + Np.mean (Np.abs_flat (Np.diff_axis0 (mean_axis2 (uniform_image h w p))))
                 == 0).
  { rewrite !mean_all_zero; [ring | | ];
      intros v Hv; apply (uniform_edges_zero h w p); auto. }
  eexists. split; [reflexivity | ].
  cbn [test_new_crops_model.r_mean test_new_crops_model.g_mean
       test_new_crops_model.b_mean test_new_crops_model.brightness
       test_new_crops_model.texture_complexity].
  split; [apply uniform_channel_mean; assumption | ].
  split; [apply uniform_channel_mean; assumption | ].
  split; [apply uniform_channel_mean; assumption | ].
  split.
  { rewrite uniform_mean by assumption. unfold Np.mean. simpl. field. }
  split; [exact Htex | ].
  match goal with
  | |- ~ Spec.tier1 ?f /\ _ => assert (Hnot : ~ Spec.tier1 f)
  end.
  { unfold Spec.tier1. cbn [test_new_crops_model.texture_complexity].
    intros (_ & _ & Hlt). lra. }
  split; [exact Hnot | ].
  intros crop_type. apply not_tier1_score. exact Hnot.
Qed.

Lemma uniform_image_misses_first_tier_witness :
  exists f,
    test_new_crops_model.analyze_image_features sqrt_floor
      (Some [uniform_image 3 2 (0.7, 0.9, 0.7)]) = Ok (Some f)
    /\ test_new_crops_model.texture_complexity f == 0.
Proof.
  destruct (uniform_image_misses_first_tier sqrt_floor 3 2 (0.7, 0.9, 0.7) [])
    as (f & Hf & _ & _ & _ & _ & Ht & _); [lia | lia | ].
  exists f. split; [exact Hf | exact Ht].
Defined.

(** ** The test driver: file names and loading *)

Lemma append_assoc (a b c : string) : (a ++ b) ++ c = a ++ (b ++ c).
Proof.
  induction a as [|x a IH]; simpl; [reflexivity | rewrite IH; reflexivity].
Qed.

Lemma substring_trans (a b c : string) :
  Spec.substring_of a b -> Spec.substring_of b c -> Spec.substring_of a c.
Proof.
  intros [p1 [q1 ->]] [p2 [q2 ->]].
  exists (p2 ++ p1), (q1 ++ q2).
  rewrite !append_assoc. reflexivity.
Qed.

(** A file is expected healthy exactly when its case-folded name does not
    contain "unhealthy"; the test for "healthy" changes nothing.  Since
    every name containing "unhealthy" also contains "healthy", the verdict
    rests on "unhealthy" being tested first. *)
Theorem expected_verdict_of_filename (filename : string) :
  snd (crops_driver.parse_filename filename)
  = negb (str_in "unhealthy" (lower filename))
  /\ (str_in "unhealthy" (lower filename) = true ->
      str_in "healthy" (lower filename) = true)
  /\ crops_driver.parse_filename (lower filename)
     = crops_driver.parse_filename filename.
Proof.
  split; [ | split].
  - unfold crops_driver.parse_filename. cbv zeta. cbn [snd].
    destruct (str_in "unhealthy" (lower filename));
      destruct (str_in "healthy" (lower filename)); reflexivity.
  - rewrite !str_in_spec. apply substring_trans.
    exists "un", "". reflexivity.
  - unfold crops_driver.parse_filename. rewrite lower_idempotent. reflexivity.
Qed.

(** The label read off a file name is one of four, and the crop adjustment
    it receives is [0.1] when the name mentions arai, palak or siru and
    [0.0] otherwise. *)
Theorem adjustment_of_parsed_label (filename : string) :
  In (fst (crops_driver.parse_filename filename))
     ["arai keerai"; "palak"; "siru keerai"; "unknown"]
  /\ test_new_crops_model.get_crop_adjustment
       (Some (fst (crops_driver.parse_filename filename)))
     = if str_in "arai" (lower filename) || str_in "palak" (lower filename)
          || str_in "siru" (lower filename)
       then 0.1 else 0.0.
Proof.
  unfold crops_driver.parse_filename. cbv zeta. cbn [fst].
  destruct (str_in "arai" (lower filename));
    [ | destruct (str_in "palak" (lower filename));
        [ | destruct (str_in "siru" (lower filename))]];
    (split; [simpl; tauto | vm_compute; reflexivity]).
Qed.

Lemma div_255_value (z : Z) : (0 <= z <= 255)%Z -> 0 <= inject_Z z / 255.0 <= 1.
Proof.
  intros [H0 H1].
  assert (Hq0 : 0 <= inject_Z z) by (change 0 with (inject_Z 0); rewrite <- Zle_Qle; exact H0).
  assert (Hq1 : inject_Z z <= 255)
    by (change 255 with (inject_Z 255); rewrite <- Zle_Qle; exact H1).
  split.
  - apply Qle_shift_div_l; [reflexivity | lra].
  - apply Qle_shift_div_r; [reflexivity | lra].
Qed.

(** Dividing 8-bit pixel values by 255 gives a tensor with every value in
    [[0, 1]]. *)
Lemma div_255_normalized (a : list (list (Z * Z * Z))) :
  uint8_pixels a -> Spec.normalized (div_255 a).
Proof.
  intros Hu v Hv. unfold flat, div_255 in Hv.
  apply in_flat_map in Hv. destruct Hv as [row' [Hrow' Hv]].
  apply in_map_iff in Hrow'. destruct Hrow' as [row [<- Hrow]].
  apply in_flat_map in Hv. destruct Hv as [p' [Hp' Hv]].
  apply in_map_iff in Hp'. destruct Hp' as [[[r g] b] [<- Hp]].
  destruct (Hu row Hrow r g b Hp) as (Hr & Hg & Hb).
  cbv [channels chan_r chan_g chan_b fst snd In] in Hv.
  destruct Hv as [<- | [<- | [<- | []]]]; apply div_255_value; assumption.
Qed.

Lemma load_one_image (E : Externals) (open_path : string -> result (pil_image E))
  (image_path : string) (b : batch) :
  crops_driver.load_and_preprocess_image E open_path image_path = Some b ->
  exists pil, b = [div_255 (np_array E pil)].
Proof.
  unfold crops_driver.load_and_preprocess_image,
    crops_driver.load_and_preprocess_image_try.
  destruct (open_path image_path) as [img0 | e]; [ | discriminate].
  cbn [Py.bind].
  destruct (if negb (String.eqb (image_mode E img0) "RGB")
            then image_convert_rgb E img0 else Ok img0) as [img1 | e];
    [ | discriminate].
  cbn [Py.bind].
  destruct (image_resize_224 E img1) as [img2 | e]; [ | discriminate].
  cbn [Py.bind]. intros Hb. injection Hb as <-.
  exists img2. reflexivity.
Qed.

(** Whenever the driver loads an image, the batch holds exactly one image;
    the feature extractor then returns a feature vector (it neither raises
    nor returns [None]), so the scorer's output is within [[0.001, 0.999]]
    and never the [0.0] of the missing-features path; and if the decoded
    pixels are 8-bit values, every value of the tensor is in [[0, 1]]. *)
Theorem loaded_image_is_scored (E : Externals)
  (open_path : string -> result (pil_image E)) (np_sqrt : Q -> Q)
  (image_path : string) (b : batch) :
  crops_driver.load_and_preprocess_image E open_path image_path = Some b ->
  exists img f,
    b = [img]
    /\ test_new_crops_model.analyze_image_features np_sqrt (Some b) = Ok (Some f)
    /\ (forall crop_type noise,
          0.001 <= test_new_crops_model.simulate_web_model_prediction
                     (Some f) crop_type noise <= 0.999)
    /\ ((forall pil, uint8_pixels (np_array E pil)) -> Spec.normalized img).
Proof.
  intros Hload. destruct (load_one_image E open_path image_path b Hload) as [pil ->].
  eexists. eexists. split; [reflexivity | ]. split; [reflexivity | ].
  split.
  - intros crop_type noise.
    unfold test_new_crops_model.simulate_web_model_prediction. cbv zeta.
    apply clamp_range.
  - intros Hu. apply div_255_normalized. apply Hu.
Qed.

Lemma loaded_image_is_scored_witness :
  exists img f,
    crops_driver.load_and_preprocess_image accepting_externals
      (fun _ => Ok tt) "leaf.jpg" = Some [img]
    /\ test_new_crops_model.analyze_image_features sqrt_floor (Some [img])
       = Ok (Some f).
Proof.
  destruct (loaded_image_is_scored accepting_externals (fun _ => Ok tt) sqrt_floor
              "leaf.jpg" [div_255 [[(50, 150, 50); (0, 255, 128)]]%Z] eq_refl)
    as (img & f & Himg & Hf & _).
  injection Himg as <-. exists (div_255 [[(50, 150, 50); (0, 255, 128)]]%Z), f.
  split; [reflexivity | exact Hf].
Defined.

(** ** The serverless handler and the Flask route *)

(** The serverless [load_model] loads at most once: after a success the
    global holds the model and every later call returns it without looking
    at the file; a failure is a plain [Exception] and leaves the global
    empty, so the next call tries again. *)
Theorem load_model_caches (E : Externals) (global_model : option (keras_model E))
  (model_file : option (result (keras_model E))) :
  (forall m, fst (api_predict.load_model E global_model model_file) = Ok m ->
     snd (api_predict.load_model E global_model model_file) = Some m
     /\ forall model_file',
          api_predict.load_model E (Some m) model_file' = (Ok m, Some m))
  /\ (forall e, fst (api_predict.load_model E global_model model_file) = Raise e ->
        global_model = None
        /\ snd (api_predict.load_model E global_model model_file) = None
        /\ exn_cls e = "Exception")
  /\ (forall m, global_model = Some m ->
        api_predict.load_model E global_model model_file = (Ok m, Some m)).
Proof.
  unfold api_predict.load_model.
  split; [ | split].
  - intros m. destruct global_model as [m0 | ]; [ | destruct model_file as [[m1 | e1] | ]];
      simpl; intros Hm; try discriminate Hm; injection Hm as <-; auto.
  - intros e. destruct global_model as [m0 | ]; [ | destruct model_file as [[m1 | e1] | ]];
      simpl; intros He; try discriminate He; injection He as <-; auto.
  - intros m ->. reflexivity.
Qed.

(** The dictionary both services build cannot be encoded: its [is_healthy]
    is a [numpy.bool_]. *)
Lemma json_dumps_result_dict (r : prediction_result) :
  json_dumps (result_dict r)
  = Raise (Exc "TypeError" "Object of type bool_ is not JSON serializable").
Proof.
  reflexivity.
Qed.

Ltac run_handler E :=
  repeat match goal with
         | |- context [api_predict.load_model E ?g ?f] =>
             destruct (api_predict.load_model E g f) as [[?m | ?e] ?gm] eqn:?
         | |- context [api_predict.preprocess_image_try E ?d] =>
             destruct (api_predict.preprocess_image_try E d) as [?b | ?e] eqn:?
         | |- context [create_ml_api.preprocess_image_try E ?d] =>
             destruct (create_ml_api.preprocess_image_try E d) as [?b | ?e] eqn:?
         | |- context [model_predict E ?m ?b] =>
             destruct (model_predict E m b) as [?p | ?e] eqn:?
         | |- context [json_dumps (result_dict ?r)] =>
             rewrite (json_dumps_result_dict r)
         | _ => progress cbn [Py.bind Py.try_except fst snd status payload image_field
                              api_predict.send_error_response]
         end.

(** Whatever the request and the collaborators do, the serverless handler
    never delivers a prediction: the body is an error object without a
    [message] and with [code] 400 or 500.  The status line is 200, 400 or
    500; it repeats the body's code, except that a status line 200 comes
    with a body whose code is 500. *)
Theorem do_POST_status (E : Externals) (global_model : option (keras_model E))
  (model_file : option (result (keras_model E))) (parsed : result request_data) :
  In (status (fst (api_predict.do_POST E global_model model_file parsed)))
     [200; 400; 500]%Z
  /\ exists error code,
       payload (fst (api_predict.do_POST E global_model model_file parsed))
       = ErrorBody error None (Some code)
       /\ In code [400; 500]%Z
       /\ (status (fst (api_predict.do_POST E global_model model_file parsed)) = code
           \/ status (fst (api_predict.do_POST E global_model model_file parsed))
              = 200%Z
              /\ code = 500%Z).
Proof.
  unfold api_predict.do_POST, api_predict.do_POST_try, api_predict.preprocess_image.
  destruct parsed as [[[image_data | ] crop] | e]; run_handler E;
    (split; [simpl; tauto | ]); do 2 eexists;
    (split; [reflexivity | split; [simpl; tauto | ]]);
    first [left; reflexivity | right; split; reflexivity].
Qed.

(** Whatever the request and the collaborators do, the Flask route answers
    400 or 500, never 200: the body is always an error object with a
    [message] and no [code].  When the model is loaded, the request has an
    image, preprocessing succeeds and the model predicts, the answer is 500
    "Prediction failed". *)
Theorem predict_status (E : Externals) (model : option (keras_model E))
  (parsed : result (option request_data)) :
  In (status (create_ml_api.predict E model parsed)) [400; 500]%Z
  /\ (exists error message,
        payload (create_ml_api.predict E model parsed)
        = ErrorBody error (Some message) None)
  /\ (forall m data image_data b p,
        model = Some m ->
        parsed = Ok (Some data) ->
        image_field data = Some image_data ->
        create_ml_api.preprocess_image E image_data = Some b ->
        model_predict E m b = Ok p ->
        exists message,
          create_ml_api.predict E model parsed
          = mkResponse 500 (ErrorBody "Prediction failed" (Some message) None)).
Proof.
  split; [ | split].
  - unfold create_ml_api.predict, create_ml_api.predict_try,
      create_ml_api.preprocess_image.
    destruct model as [model | ];
      [destruct parsed as [[[[image_data | ] crop] | ] | e] | ]; run_handler E;
      simpl; tauto.
  - unfold create_ml_api.predict, create_ml_api.predict_try,
      create_ml_api.preprocess_image.
    destruct model as [model | ];
      [destruct parsed as [[[[image_data | ] crop] | ] | e] | ]; run_handler E;
      do 2 eexists; reflexivity.
  - intros m [i crop] image_data b p -> -> Hi Hb Hp.
    cbn [image_field] in Hi. subst i.
    unfold create_ml_api.predict, create_ml_api.predict_try.
    cbn [Py.bind]. rewrite Hb. cbn [Py.bind]. rewrite Hp. cbn [Py.bind].
    rewrite json_dumps_result_dict. cbn [Py.bind].
    eexists. reflexivity.
Qed.


(** A request without an image is refused with 400 by the serverless
    handler before the model is looked for: the global is left as it was,
    whatever the model file holds.  The Flask route checks the model first:
    without a model it answers 500 to every request, and with a model it
    answers 400 to a request without a body or without an image. *)
Theorem request_without_image (E : Externals)
  (global_model : option (keras_model E))
  (model_file : option (result (keras_model E)))
  (crop : option (option string)) :
  api_predict.do_POST E global_model model_file (Ok (mkData None crop))
  = (mkResponse 400 (ErrorBody "No image data provided" None (Some 400%Z)),
     global_model)
  /\ (forall parsed,
        create_ml_api.predict E None parsed
        = mkResponse 500
            (ErrorBody "Model not loaded" (Some "H5 model failed to load") None))
  /\ (forall m,
        create_ml_api.predict E (Some m) (Ok None)
        = mkResponse 400
            (ErrorBody "No image data provided"
               (Some "Please provide image data in base64 format") None))
  /\ (forall m,
        create_ml_api.predict E (Some m) (Ok (Some (mkData None crop)))
        = mkResponse 400
            (ErrorBody "No image data provided"
               (Some "Please provide image data in base64 format") None)).
Proof.
  repeat split; reflexivity.
Qed.

(** Handling a request never unloads or replaces a loaded model: the global
    after [do_POST] is the global before, unless it was empty and the file
    held a model, which is then stored. *)
Theorem do_POST_keeps_model (E : Externals)
  (global_model : option (keras_model E))
  (model_file : option (result (keras_model E))) (parsed : result request_data) :
  (forall m, global_model = Some m ->
     snd (api_predict.do_POST E global_model model_file parsed) = Some m)
  /\ (snd (api_predict.do_POST E global_model model_file parsed) = global_model
      \/ global_model = None
         /\ exists m, model_file = Some (Ok m)
              /\ snd (api_predict.do_POST E global_model model_file parsed) = Some m).
Proof.
  unfold api_predict.do_POST, api_predict.do_POST_try, api_predict.load_model.
  split.
  - intros m ->. destruct parsed as [[[image_data | ] crop] | e];
      cbn [image_field Py.bind]; try reflexivity.
    destruct (_ <- _ ;; _); reflexivity.
  - destruct parsed as [[[image_data | ] crop] | e]; cbn [image_field];
      try (left; reflexivity).
    destruct global_model as [m | ]; [ | destruct model_file as [[m | e] | ]].
    + left. destruct (_ <- _ ;; _); reflexivity.
    + right. split; [reflexivity | ]. exists m. split; [reflexivity | ].
      destruct (_ <- _ ;; _); reflexivity.
    + left. reflexivity.
    + left. reflexivity.
Qed.

(** At start-up the Flask service reports success exactly when the file
    holds a model Keras accepts; the status endpoint's [model_loaded] then
    says the same, and after a failed start every prediction request is
    answered 500 "Model not loaded". *)
Theorem flask_startup (E : Externals)
  (model_file : option (result (keras_model E)))
  (parsed : result (option request_data)) :
  (fst (create_ml_api_status.load_model E None model_file) = true
   <-> exists m, model_file = Some (Ok m))
  /\ create_ml_api_status.health_check_model_loaded E
       (snd (create_ml_api_status.load_model E None model_file))
     = fst (create_ml_api_status.load_model E None model_file)
  /\ (fst (create_ml_api_status.load_model E None model_file) = false ->
      create_ml_api.predict E
        (snd (create_ml_api_status.load_model E None model_file)) parsed
      = mkResponse 500
          (ErrorBody "Model not loaded" (Some "H5 model failed to load") None)).
Proof.
  unfold create_ml_api_status.load_model.
  destruct model_file as [[m | e] | ]; cbn [fst snd]; (split; [ | split]);
    try reflexivity; try discriminate.
  - split; [intros _; exists m; reflexivity | reflexivity].
  - split; [discriminate | intros [m Hm]; discriminate Hm].
  - split; [discriminate | intros [m Hm]; discriminate Hm].
Qed.

Lemma flask_startup_witness :
  create_ml_api.predict accepting_externals
    (snd (create_ml_api_status.load_model accepting_externals None None))
    (Ok (Some (mkData (Some "aGVsbG8=") None)))
  = mkResponse 500
      (ErrorBody "Model not loaded" (Some "H5 model failed to load") None).
Proof.
  apply (flask_startup accepting_externals None
           (Ok (Some (mkData (Some "aGVsbG8=") None)))).
  reflexivity.
Defined.

(** ** Data URLs *)

Lemma str_in_comma_cons (c : ascii) (t : string) :
  str_in "," (String c t) = (Ascii.eqb c "," || str_in "," t).
Proof.
  rewrite str_in_eq.
  destruct (prefix "," (String c t)) eqn:Hp.
  - apply prefix_spec in Hp. destruct Hp as [post Hp].
    simpl in Hp. injection Hp as -> _. reflexivity.
  - destruct (Ascii.eqb c ",") eqn:Hc; [ | reflexivity].
    apply Ascii.eqb_eq in Hc. subst c. exfalso.
    rewrite <- not_true_iff_false in Hp. apply Hp.
    apply prefix_spec. exists t. reflexivity.
Qed.

Lemma split_after_header (h rest : string) :
  str_in "," h = false ->
  split_comma_1 (h ++ "," ++ rest) = Ok (until_comma rest).
Proof.
  induction h as [|c h IH]; intros Hh.
  - reflexivity.
  - rewrite str_in_comma_cons in Hh. apply orb_false_iff in Hh. destruct Hh as [Hc Hh].
    cbn [append split_comma_1]. rewrite Hc. apply IH. exact Hh.
Qed.

Lemma split_without_comma (h : string) :
  str_in "," h = false ->
  split_comma_1 h = Raise (Exc "IndexError" "list index out of range").
Proof.
  induction h as [|c h IH]; intros Hh.
  - reflexivity.
  - rewrite str_in_comma_cons in Hh. apply orb_false_iff in Hh. destruct Hh as [Hc Hh].
    cbn [split_comma_1]. rewrite Hc. apply IH. exact Hh.
Qed.

Lemma until_comma_app (b junk : string) :
  str_in "," b = false -> until_comma (b ++ "," ++ junk) = b.
Proof.
  induction b as [|c b IH]; intros Hb.
  - reflexivity.
  - rewrite str_in_comma_cons in Hb. apply orb_false_iff in Hb. destruct Hb as [Hc Hb].
    cbn [append until_comma]. rewrite Hc. f_equal. apply IH. exact Hb.
Qed.

Lemma until_comma_whole (b : string) : str_in "," b = false -> until_comma b = b.
Proof.
  induction b as [|c b IH]; intros Hb.
  - reflexivity.
  - rewrite str_in_comma_cons in Hb. apply orb_false_iff in Hb. destruct Hb as [Hc Hb].
    cbn [until_comma]. rewrite Hc, IH by exact Hb. reflexivity.
Qed.

Lemma startswith_app (h x p : string) :
  startswith h p = true -> startswith (h ++ x) p = true.
Proof.
  unfold startswith. rewrite !prefix_spec. intros [post ->].
  exists (post ++ x). apply append_assoc.
Qed.

(** A data URL is reduced to its payload before decoding: with a header
    that starts with "data:image" and a payload, neither containing a comma,
    both services preprocess [header,payload] exactly as they preprocess the
    bare payload; whatever follows a second comma is ignored. *)
Theorem data_url_header_is_stripped (E : Externals) (header b junk : string) :
  startswith header "data:image" = true ->
  str_in "," header = false ->
  str_in "," b = false ->
  startswith b "data:image" = false ->
  api_predict.preprocess_image E (header ++ "," ++ b)
  = api_predict.preprocess_image E b
  /\ create_ml_api.preprocess_image E (header ++ "," ++ b)
     = create_ml_api.preprocess_image E b
  /\ api_predict.preprocess_image E (header ++ "," ++ b ++ "," ++ junk)
     = api_predict.preprocess_image E b
  /\ create_ml_api.preprocess_image E (header ++ "," ++ b ++ "," ++ junk)
     = create_ml_api.preprocess_image E b.
Proof.
  intros Hstart Hh Hb Hbare.
  assert (H1 : api_predict.preprocess_image_try E (header ++ "," ++ b)
               = api_predict.preprocess_image_try E b).
  { unfold api_predict.preprocess_image_try.
    rewrite (startswith_app _ _ _ Hstart), Hbare, (split_after_header _ _ Hh),
      (until_comma_whole _ Hb). reflexivity. }
  assert (H2 : api_predict.preprocess_image_try E (header ++ "," ++ b ++ "," ++ junk)
               = api_predict.preprocess_image_try E b).
  { unfold api_predict.preprocess_image_try.
    rewrite (startswith_app _ _ _ Hstart), Hbare, (split_after_header _ _ Hh),
      (until_comma_app _ _ Hb). reflexivity. }
  unfold api_predict.preprocess_image, create_ml_api.preprocess_image.
  change (create_ml_api.preprocess_image_try E) with (api_predict.preprocess_image_try E).
  rewrite H1, H2. repeat split.
Qed.

Lemma data_url_header_is_stripped_witness :
  api_predict.preprocess_image accepting_externals "data:image/jpeg;base64,aGVsbG8="
  = api_predict.preprocess_image accepting_externals "aGVsbG8=".
Proof.
  apply (data_url_header_is_stripped accepting_externals
           "data:image/jpeg;base64" "aGVsbG8=" ""); reflexivity.
Defined.

(** A data URL without a comma is rejected before any decoder is called:
    the serverless [preprocess_image] raises "Image preprocessing failed:
    list index out of range" and the Flask one returns [None], whatever the
    collaborators would do. *)
Theorem data_url_without_comma_is_rejected (E : Externals) (image_data : string) :
  startswith image_data "data:image" = true ->
  str_in "," image_data = false ->
  api_predict.preprocess_image E image_data
  = Raise (Exc "Exception" "Image preprocessing failed: list index out of range")
  /\ create_ml_api.preprocess_image E image_data = None.
Proof.
  intros Hstart Hno.
  assert (H : api_predict.preprocess_image_try E image_data
              = Raise (Exc "IndexError" "list index out of range")).
  { unfold api_predict.preprocess_image_try.
    rewrite Hstart, (split_without_comma _ Hno). reflexivity. }
  unfold api_predict.preprocess_image, create_ml_api.preprocess_image.
  change (create_ml_api.preprocess_image_try E) with (api_predict.preprocess_image_try E).
  rewrite H. split; reflexivity.
Qed.

Lemma data_url_without_comma_is_rejected_witness :
  create_ml_api.preprocess_image accepting_externals "data:image/png;base64" = None.
Proof.
  apply (data_url_without_comma_is_rejected accepting_externals
           "data:image/png;base64"); reflexivity.
Defined.

(** ** Shape of the recommendation text *)

Lemma append_frame3 (a l b x s : string) :
  ((a ++ l ++ b) ++ x) ++ s = a ++ l ++ b ++ x ++ s.
Proof. rewrite !append_assoc. reflexivity. Qed.

Lemma append_frame2 (a l b s : string) :
  (a ++ l ++ b) ++ s = a ++ l ++ b ++ "" ++ s.
Proof. rewrite !append_assoc. reflexivity. Qed.

Lemma append_frame2' (a l b s : string) :
  (a ++ l ++ b) ++ s = a ++ l ++ b ++ s.
Proof. rewrite !append_assoc. reflexivity. Qed.

Lemma append_frame4 (l h k x s : string) :
  (((l ++ h) ++ k) ++ x) ++ s = l ++ h ++ k ++ x ++ s.
Proof. rewrite !append_assoc. reflexivity. Qed.

(** For every label the healthy text opens with "Your <label> appears
    healthy!" and closes with the monitoring sentence; the affected text
    opens with "<label> shows signs of pest or disease" and steps 1 and 2,
    continues with steps 3 and 4, and closes with steps 5 and 6.  A missing
    or empty label reads "plant", "Plant" at the start of a sentence. *)
Theorem recommendation_framing (crop_type : option string) :
  (exists advice,
     api_predict.get_crop_recommendations true crop_type
     = "Your " ++ or_else crop_type "plant"
       ++ " appears healthy! Continue with current care routine. " ++ advice
       ++ "Monitor regularly for any changes in leaf color or texture. Check for pests weekly as prevention.")
  /\ (exists steps,
        api_predict.get_crop_recommendations false crop_type
        = or_else crop_type "Plant"
          ++ " shows signs of pest or disease. Immediate actions: "
          ++ "1) Isolate the plant to prevent spread, 2) Carefully inspect leaves and stems for pests, "
          ++ steps
          ++ "5) Consider applying organic treatment like neem oil, 6) Monitor closely for 48-72 hours and adjust care as needed."
        /\ prefix "3) " steps = true
        /\ str_in ", 4) " steps = true)
  /\ or_else None "Plant" = "Plant" /\ or_else (Some "") "plant" = "plant".
Proof.
  unfold api_predict.get_crop_recommendations. cbv zeta.
  generalize (if truthy crop_type then lower (or_else crop_type "") else "plant").
  intros crop. generalize (or_else crop_type "plant") (or_else crop_type "Plant").
  intros l1 l2. split; [ | split; [ | split; reflexivity]].
  - destruct (_ || _ || _);
      [ | destruct (str_in "tomato" crop);
          [ | destruct (str_in "strawberry" crop);
              [ | destruct (str_in "pepper" crop)]]];
      first [ eexists; apply append_frame3 | exists ""; apply append_frame2 ].
  - destruct (_ || _ || _);
      [ | destruct (str_in "tomato" crop);
          [ | destruct (str_in "strawberry" crop);
              [ | destruct (str_in "pepper" crop)]]];
      (eexists; split; [apply append_frame4 | split; vm_compute; reflexivity]).
Qed.

(** A label none of whose keywords the recommendation generator knows gets
    the generic texts, although the bias table may know it: its crop
    adjustment is [0.1] (arai, siru), [0.3] (corn, maize) or [0.0]. *)
Theorem unlisted_crop_gets_generic_text (s : string) :
  s <> "" ->
  (forall k, In k ["palak"; "keerai"; "spinach"; "tomato"; "strawberry"; "pepper"] ->
     str_in k (lower s) = false) ->
  api_predict.get_crop_recommendations true (Some s)
  = "Your " ++ s ++ " appears healthy! Continue with current care routine. "
    ++ "Monitor regularly for any changes in leaf color or texture. Check for pests weekly as prevention."
  /\ api_predict.get_crop_recommendations false (Some s)
     = s ++ " shows signs of pest or disease. Immediate actions: "
       ++ "1) Isolate the plant to prevent spread, 2) Carefully inspect leaves and stems for pests, "
       ++ "3) Check root system for rot or discoloration, 4) Adjust nutrient solution pH and concentration, "
       ++ "5) Consider applying organic treatment like neem oil, 6) Monitor closely for 48-72 hours and adjust care as needed."
  /\ In (test_new_crops_model.get_crop_adjustment (Some s)) [0.1; 0.3; 0.0].
Proof.
  intros Hne Hk.
  assert (H1 : str_in "palak" (lower s) = false) by (apply Hk; simpl; tauto).
  assert (H2 : str_in "keerai" (lower s) = false) by (apply Hk; simpl; tauto).
  assert (H3 : str_in "spinach" (lower s) = false) by (apply Hk; simpl; tauto).
  assert (H4 : str_in "tomato" (lower s) = false) by (apply Hk; simpl; tauto).
  assert (H5 : str_in "strawberry" (lower s) = false) by (apply Hk; simpl; tauto).
  assert (H6 : str_in "pepper" (lower s) = false) by (apply Hk; simpl; tauto).
  destruct s as [|c t]; [contradiction | ].
  unfold api_predict.get_crop_recommendations, test_new_crops_model.get_crop_adjustment.
  cbn [truthy negb or_else]. cbv zeta.
  rewrite H1, H2, H3, H4, H5, H6. cbn [orb].
  split; [apply append_frame2' | ].
  split; [apply append_frame4 | ].
  destruct (_ || _); [simpl; tauto | ].
  destruct (_ || _); simpl; tauto.
Qed.

Lemma unlisted_crop_gets_generic_text_witness :
  test_new_crops_model.get_crop_adjustment (Some "Sweet Corn") = 0.3
  /\ api_predict.get_crop_recommendations false (Some "Sweet Corn")
     = "Sweet Corn shows signs of pest or disease. Immediate actions: 1) Isolate the plant to prevent spread, 2) Carefully inspect leaves and stems for pests, 3) Check root system for rot or discoloration, 4) Adjust nutrient solution pH and concentration, 5) Consider applying organic treatment like neem oil, 6) Monitor closely for 48-72 hours and adjust care as needed.".
Proof.
  split; [reflexivity | ].
  apply (unlisted_crop_gets_generic_text "Sweet Corn").
  - discriminate.
  - intros k Hk. simpl in Hk.
    repeat (destruct Hk as [<- | Hk]; [reflexivity | ]). contradiction.
Defined.

(** The two keyword lists rank pepper and strawberry differently: a label
    that mentions both (and no leafy green, arai, siru or tomato) is biased
    as a pepper, [-0.3], and advised as a strawberry. *)
Theorem pepper_strawberry_label (s : string) :
  str_in "pepper" (lower s) = true ->
  str_in "strawberry" (lower s) = true ->
  (forall k, In k ["palak"; "keerai"; "spinach"; "arai"; "siru"; "tomato"] ->
     str_in k (lower s) = false) ->
  test_new_crops_model.get_crop_adjustment (Some s) = -0.3
  /\ api_predict.get_crop_recommendations false (Some s)
     = s ++ " shows signs of pest or disease. Immediate actions: "
       ++ "1) Isolate the plant to prevent spread, 2) Carefully inspect leaves and stems for pests, "
       ++ "3) Look for spider mites and powdery mildew, 4) Improve air circulation and reduce humidity, "
       ++ "5) Consider applying organic treatment like neem oil, 6) Monitor closely for 48-72 hours and adjust care as needed.".
Proof.
  intros Hp Hs Hk.
  assert (H1 : str_in "palak" (lower s) = false) by (apply Hk; simpl; tauto).
  assert (H2 : str_in "keerai" (lower s) = false) by (apply Hk; simpl; tauto).
  assert (H3 : str_in "spinach" (lower s) = false) by (apply Hk; simpl; tauto).
  assert (H4 : str_in "arai" (lower s) = false) by (apply Hk; simpl; tauto).
  assert (H5 : str_in "siru" (lower s) = false) by (apply Hk; simpl; tauto).
  assert (H6 : str_in "tomato" (lower s) = false) by (apply Hk; simpl; tauto).
  destruct s as [|c t]; [discriminate Hp | ].
  unfold api_predict.get_crop_recommendations, test_new_crops_model.get_crop_adjustment.
  cbn [truthy negb or_else]. cbv zeta.
  rewrite H1, H2, H3, H4, H5, H6, Hp, Hs. cbn [orb].
  split; [reflexivity | apply append_frame4].
Qed.

Lemma pepper_strawberry_label_witness :
  test_new_crops_model.get_crop_adjustment (Some "Strawberry and Pepper") = -0.3
  /\ str_in "spider mites"
       (api_predict.get_crop_recommendations false (Some "Strawberry and Pepper"))
     = true.
Proof.
  destruct (pepper_strawberry_label "Strawberry and Pepper") as [Hb Hr].
  - reflexivity.
  - reflexivity.
  - intros k Hk. simpl in Hk.
    repeat (destruct Hk as [<- | Hk]; [reflexivity | ]). contradiction.
  - split; [exact Hb | rewrite Hr; reflexivity].
Defined.

(** ** The test run *)

Lemma in_insert_sorted (x y : string) (l : list string) :
  In x (crops_run.insert_sorted y l) <-> x = y \/ In x l.
Proof.
  induction l as [|z l IH]; simpl.
  - intuition congruence.
  - destruct (String.leb y z); simpl; [intuition congruence | ].
    rewrite IH. intuition congruence.
Qed.

Lemma in_sort (x : string) (l : list string) : In x (crops_run.sort l) <-> In x l.
Proof.
  induction l as [|y l IH]; simpl; [tauto | ].
  rewrite in_insert_sorted, IH. intuition congruence.
Qed.

Section Run.

Import crops_run.

Variable E : Externals.
Variable open_path : string -> result (pil_image E).
Variable np_sqrt : Q -> Q.
Variable draw : nat -> Q.
Variable h5_model : option (keras_model E).

(** One turn of the loop: the file is skipped, or one entry is appended and
    the counters follow it. *)
Lemma test_image_step (st : loop_state) (f : string) :
  test_image E open_path np_sqrt draw h5_model st f = Ok st
  \/ exists r,
       test_image E open_path np_sqrt draw h5_model st f
       = Ok (mkLoop (loop_results st ++ [r])%list
               (if simulation_correct r then S (loop_correct st) else loop_correct st)
               (S (loop_total st)) (S (loop_drawn st)))
       /\ filename r = f /\ entry_ok r.
Proof.
  unfold test_image.
  destruct (crops_driver.parse_filename f) as [crop expected] eqn:Hparse.
  destruct (crops_driver.load_and_preprocess_image E open_path
              ("new crops test" ++ "/" ++ f)) as [b | ] eqn:Hload; [ | left; reflexivity].
  right. destruct (load_one_image _ _ _ _ Hload) as [pil ->].
  cbn [test_new_crops_model.analyze_image_features Py.bind].
  set (feat := test_new_crops_model.mkFeatures _ _ _ _ _ _ _ _).
  set (pred := test_new_crops_model.simulate_web_model_prediction (Some feat)
                 (Some crop) (draw (loop_drawn st))).
  assert (Hok : forall h5p h5c,
            filename (mkTestResult f crop expected (Some feat) pred
                        (Bool.eqb (pred >? 0.5) expected) h5p h5c) = f
            /\ entry_ok (mkTestResult f crop expected (Some feat) pred
                           (Bool.eqb (pred >? 0.5) expected) h5p h5c)).
  { intros h5p h5c. split; [reflexivity | ]. unfold entry_ok.
    cbn [filename crops_run.crop_type expected_healthy features
         simulation_prediction simulation_correct].
    split; [symmetry; exact Hparse | ]. split; [discriminate | ].
    split; [ | reflexivity].
    unfold pred, test_new_crops_model.simulate_web_model_prediction. cbv zeta.
    apply clamp_range. }
  destruct h5_model as [model | ];
    [destruct (model_predict E model _) as [raw | e] | ].
  - exists (mkTestResult f crop expected (Some feat) pred
              (Bool.eqb (pred >? 0.5) expected)
              (Some raw) (Some (Bool.eqb (raw >? 0.5) expected))).
    split; [reflexivity | apply Hok].
  - exists (mkTestResult f crop expected (Some feat) pred
              (Bool.eqb (pred >? 0.5) expected) None None).
    split; [reflexivity | apply Hok].
  - exists (mkTestResult f crop expected (Some feat) pred
              (Bool.eqb (pred >? 0.5) expected) None None).
    split; [reflexivity | apply Hok].
Qed.

(** The loop never raises, keeps the counters in step with the entries and
    appends only well-formed entries of listed files. *)
Lemma test_images_invariant (files : list string) (st : loop_state) :
  loop_total st = length (loop_results st) ->
  loop_correct st = length (filter simulation_correct (loop_results st)) ->
  exists st',
    test_images E open_path np_sqrt draw h5_model st files = Ok st'
    /\ loop_total st' = length (loop_results st')
    /\ loop_correct st' = length (filter simulation_correct (loop_results st'))
    /\ (length (loop_results st') <= length (loop_results st) + length files)%nat
    /\ forall r, In r (loop_results st') ->
         In r (loop_results st) \/ (In (filename r) files /\ entry_ok r).
Proof.
  revert st. induction files as [|f files IH]; intros st Ht Hc.
  - exists st. simpl. repeat split; auto. lia.
  - cbn [test_images].
    destruct (test_image_step st f) as [Hskip | (r & Hstep & Hf & Hr)].
    + rewrite Hskip. cbn [Py.bind].
      destruct (IH st Ht Hc) as (st' & Hrun & Ht' & Hc' & Hlen & Hin).
      exists st'. repeat split; auto.
      * simpl. lia.
      * intros r Hr. destruct (Hin r Hr) as [H | [H1 H2]]; [left; exact H | ].
        right. split; [right; exact H1 | exact H2].
    + rewrite Hstep. cbn [Py.bind].
      destruct (IH (mkLoop (loop_results st ++ [r])%list
                      (if simulation_correct r then S (loop_correct st)
                       else loop_correct st)
                      (S (loop_total st)) (S (loop_drawn st))))
        as (st' & Hrun & Ht' & Hc' & Hlen & Hin).
      * cbn [loop_total loop_results]. rewrite length_app. simpl. lia.
      * cbn [loop_correct loop_results]. rewrite filter_app, length_app. simpl.
        destruct (simulation_correct r); simpl; lia.
      * exists st'. repeat split; auto.
        -- cbn [loop_results] in Hlen. rewrite length_app in Hlen. simpl in *. lia.
        -- intros r' Hr'. destruct (Hin r' Hr') as [H | [H1 H2]].
           ++ cbn [loop_results] in H. apply in_app_or in H.
              destruct H as [H | [<- | []]]; [left; exact H | ].
              right. split; [left; symmetry; exact Hf | exact Hr].
           ++ right. split; [right; exact H1 | exact H2].
Qed.

End Run.

(** ** Dictionaries in insertion order *)

Section Dict.

Import crops_run.

Context {V : Type}.

Lemma dict_upsert_keys (d : list (string * V)) (k : string) (init : V) (f : V -> V)
  (k' : string) :
  In k' (map fst (dict_upsert d k init f)) <-> k' = k \/ In k' (map fst d).
Proof.
  induction d as [|[k0 v0] d IH]; simpl.
  - intuition congruence.
  - destruct (String.eqb k0 k) eqn:Hk; simpl.
    + apply String.eqb_eq in Hk. subst k0. intuition congruence.
    + rewrite IH. intuition congruence.
Qed.

Lemma dict_upsert_nodup (d : list (string * V)) (k : string) (init : V) (f : V -> V) :
  NoDup (map fst d) -> NoDup (map fst (dict_upsert d k init f)).
Proof.
  induction d as [|[k0 v0] d IH]; simpl; intros Hnd.
  - constructor; [intros [] | constructor].
  - inversion Hnd as [|? ? Hnotin Hnd']; subst.
    destruct (String.eqb k0 k) eqn:Hk; simpl.
    + constructor; assumption.
    + constructor; [ | apply IH; exact Hnd'].
      rewrite dict_upsert_keys. intros [-> | Hin]; [ | contradiction].
      rewrite String.eqb_refl in Hk. discriminate Hk.
Qed.

(** What an entry of the updated dictionary is. *)
Lemma dict_upsert_in (d : list (string * V)) (k : string) (init : V) (f : V -> V)
  (k' : string) (v : V) :
  NoDup (map fst d) ->
  In (k', v) (dict_upsert d k init f) ->
  (k' <> k /\ In (k', v) d)
  \/ (k' = k /\ ((exists v0, In (k, v0) d /\ v = f v0)
                 \/ (~ In k (map fst d) /\ v = f init))).
Proof.
  induction d as [|[k0 v0] d IH]; simpl; intros Hnd Hin.
  - destruct Hin as [Heq | []]. injection Heq as <- <-.
    right. split; [reflexivity | right; split; [tauto | reflexivity]].
  - inversion Hnd as [|? ? Hnotin Hnd']; subst.
    destruct (String.eqb k0 k) eqn:Hk.
    + apply String.eqb_eq in Hk. subst k0.
      destruct Hin as [Heq | Hin].
      * injection Heq as <- <-. right. split; [reflexivity | ].
        left. exists v0. split; [left; reflexivity | reflexivity].
      * left. split; [ | right; exact Hin].
        intros ->. apply Hnotin. apply (in_map fst) in Hin. exact Hin.
    + apply String.eqb_neq in Hk.
      destruct Hin as [Heq | Hin].
      * injection Heq as <- <-. left. split; [exact Hk | left; reflexivity].
      * destruct (IH Hnd' Hin) as [[Hne Hd] | [-> [(v1 & Hd & ->) | [Hnot ->]]]].
        -- left. split; [exact Hne | right; exact Hd].
        -- right. split; [reflexivity | ]. left. exists v1.
           split; [right; exact Hd | reflexivity].
        -- right. split; [reflexivity | ]. right.
           split; [ | reflexivity]. intros [Heq | Hin']; [congruence | contradiction].
Qed.

End Dict.

(** ** The per-crop table and the suggestions *)

Lemma of_crop_app (k : string) (l : list crops_run.test_result)
  (r : crops_run.test_result) :
  crops_run.of_crop k (l ++ [r])%list
  = (crops_run.of_crop k l
     ++ (if String.eqb (crops_run.crop_type r) k then [r] else []))%list.
Proof.
  unfold crops_run.of_crop. rewrite filter_app. reflexivity.
Qed.

Lemma of_crop_absent (k : string) (l : list crops_run.test_result) :
  (forall r, In r l -> crops_run.crop_type r <> k) -> crops_run.of_crop k l = [].
Proof.
  induction l as [|r l IH]; intros Hl; [reflexivity | ].
  unfold crops_run.of_crop. simpl.
  destruct (String.eqb (crops_run.crop_type r) k) eqn:Hk.
  - apply String.eqb_eq in Hk. exfalso. apply (Hl r); simpl; auto.
  - apply IH. intros r' Hr'. apply Hl. right. exact Hr'.
Qed.

Lemma count_result_invariant (l0 l : list crops_run.test_result)
  (d : list (string * crops_run.tally)) :
  NoDup (map fst d) ->
  (forall k t, In (k, t) d ->
     crops_run.total t = length (crops_run.of_crop k l0)
     /\ crops_run.correct t
        = length (filter crops_run.simulation_correct (crops_run.of_crop k l0))
     /\ (0 < crops_run.total t)%nat) ->
  (forall r, In r l0 -> In (crops_run.crop_type r) (map fst d)) ->
  NoDup (map fst (fold_left crops_run.count_result l d))
  /\ (forall k t, In (k, t) (fold_left crops_run.count_result l d) ->
        crops_run.total t = length (crops_run.of_crop k (l0 ++ l)%list)
        /\ crops_run.correct t
           = length (filter crops_run.simulation_correct
                       (crops_run.of_crop k (l0 ++ l)%list))
        /\ (0 < crops_run.total t)%nat)
  /\ (forall r, In r (l0 ++ l)%list ->
        In (crops_run.crop_type r)
           (map fst (fold_left crops_run.count_result l d))).
Proof.
  revert l0 d. induction l as [|r l IH]; intros l0 d Hnd Hval Hkeys.
  - simpl. rewrite app_nil_r. auto.
  - cbn [fold_left].
    replace (l0 ++ r :: l)%list with ((l0 ++ [r]) ++ l)%list
      by (rewrite <- app_assoc; reflexivity).
    apply IH.
    + apply dict_upsert_nodup. exact Hnd.
    + intros k t Hin. unfold crops_run.count_result in Hin.
      apply dict_upsert_in in Hin; [ | exact Hnd].
      rewrite of_crop_app.
      destruct Hin as [[Hne Hd] | [-> [(t0 & Hd & ->) | [Hnot ->]]]].
      * assert (Hk : String.eqb (crops_run.crop_type r) k = false)
          by (apply String.eqb_neq; congruence).
        rewrite Hk, app_nil_r. apply Hval. exact Hd.
      * rewrite String.eqb_refl. destruct (Hval _ _ Hd) as (Ht & Hc & Hp).
        rewrite filter_app, !length_app. cbn [crops_run.total crops_run.correct].
        simpl. destruct (crops_run.simulation_correct r); simpl; lia.
      * rewrite String.eqb_refl.
        rewrite of_crop_absent.
        -- cbn [crops_run.total crops_run.correct]. simpl.
           destruct (crops_run.simulation_correct r); simpl; lia.
        -- intros r' Hr' Heq. apply Hnot. rewrite <- Heq. apply Hkeys. exact Hr'.
    + intros r' Hr'. unfold crops_run.count_result. rewrite dict_upsert_keys.
      apply in_app_or in Hr'. destruct Hr' as [Hr' | [<- | []]].
      * right. apply Hkeys. exact Hr'.
      * left. reflexivity.
Qed.

(** The per-crop table lists every crop of the results once; for each crop
    its total is the number of results of that crop, at least one, and its
    correct count is the number of those that were predicted correctly. *)
Theorem crop_results_table (l : list crops_run.test_result) :
  NoDup (map fst (fold_left crops_run.count_result l []))
  /\ (forall k t, In (k, t) (fold_left crops_run.count_result l []) ->
        crops_run.total t = length (crops_run.of_crop k l)
        /\ crops_run.correct t
           = length (filter crops_run.simulation_correct (crops_run.of_crop k l))
        /\ (crops_run.correct t <= crops_run.total t)%nat
        /\ (0 < crops_run.total t)%nat)
  /\ (forall r, In r l ->
        exists t, In (crops_run.crop_type r, t) (fold_left crops_run.count_result l [])).
Proof.
  destruct (count_result_invariant [] l []) as (Hnd & Hval & Hkeys).
  - constructor.
  - intros k t [].
  - intros r [].
  - split; [exact Hnd | split].
    + intros k t Hin. destruct (Hval k t Hin) as (Ht & Hc & Hp).
      simpl in Ht, Hc. repeat split; try assumption.
      rewrite Ht, Hc. apply filter_length_le.
    + intros r Hr. specialize (Hkeys r Hr). simpl in Hkeys.
      apply in_map_iff in Hkeys. destruct Hkeys as [[k t] [Hk Hin]].
      simpl in Hk. subst k. exists t. exact Hin.
Qed.

Lemma count_issue_invariant (l0 l : list crops_run.test_result)
  (d : list (string * crops_run.issues)) :
  NoDup (map fst d) ->
  (forall k i, In (k, i) d ->
     crops_run.false_negative i
     = length (filter crops_run.missed_healthy (crops_run.of_crop k l0))
     /\ crops_run.false_positive i
        = length (filter crops_run.missed_affected (crops_run.of_crop k l0))) ->
  (forall r, In r l0 -> In (crops_run.crop_type r) (map fst d)) ->
  NoDup (map fst (fold_left crops_run.count_issue l d))
  /\ (forall k i, In (k, i) (fold_left crops_run.count_issue l d) ->
        crops_run.false_negative i
        = length (filter crops_run.missed_healthy
                    (crops_run.of_crop k (l0 ++ l)%list))
        /\ crops_run.false_positive i
           = length (filter crops_run.missed_affected
                       (crops_run.of_crop k (l0 ++ l)%list)))
  /\ (forall k, In k (map fst (fold_left crops_run.count_issue l d)) <->
        In k (map fst d) \/ exists r, In r l /\ crops_run.crop_type r = k).
Proof.
  revert l0 d. induction l as [|r l IH]; intros l0 d Hnd Hval Hkeys.
  - simpl. rewrite app_nil_r. split; [exact Hnd | split; [exact Hval | ]].
    intros k. split; [auto | intros [H | (r & [] & _)]; exact H].
  - cbn [fold_left].
    replace (l0 ++ r :: l)%list with ((l0 ++ [r]) ++ l)%list
      by (rewrite <- app_assoc; reflexivity).
    destruct (IH (l0 ++ [r])%list (crops_run.count_issue d r)) as (Hnd' & Hval' & Hkeys').
    + apply dict_upsert_nodup. exact Hnd.
    + intros k i Hin. unfold crops_run.count_issue in Hin.
      apply dict_upsert_in in Hin; [ | exact Hnd].
      rewrite of_crop_app.
      assert (Hstep : forall i0,
                crops_run.false_negative i0
                = length (filter crops_run.missed_healthy
                            (crops_run.of_crop (crops_run.crop_type r) l0)) ->
                crops_run.false_positive i0
                = length (filter crops_run.missed_affected
                            (crops_run.of_crop (crops_run.crop_type r) l0)) ->
                let i1 :=
                  if crops_run.expected_healthy r
                     && negb (crops_run.simulation_prediction r >? 0.5)
                  then crops_run.mkIssues (crops_run.false_positive i0)
                         (S (crops_run.false_negative i0))
                  else if negb (crops_run.expected_healthy r)
                          && (crops_run.simulation_prediction r >? 0.5)
                  then crops_run.mkIssues (S (crops_run.false_positive i0))
                         (crops_run.false_negative i0)
                  else i0 in
                crops_run.false_negative i1
                = length (filter crops_run.missed_healthy
                            (crops_run.of_crop (crops_run.crop_type r) l0 ++ [r])%list)
                /\ crops_run.false_positive i1
                   = length (filter crops_run.missed_affected
                               (crops_run.of_crop (crops_run.crop_type r) l0 ++ [r])%list)).
      { intros i0 Hfn Hfp. rewrite !filter_app, !length_app.
        unfold crops_run.missed_healthy at 2, crops_run.missed_affected at 2.
        cbn [filter].
        destruct (crops_run.expected_healthy r);
          destruct (crops_run.simulation_prediction r >? 0.5);
          cbn [andb negb crops_run.false_negative crops_run.false_positive length];
          lia. }
      destruct Hin as [[Hne Hd] | [-> [(i0 & Hd & ->) | [Hnot ->]]]].
      * assert (Hk : String.eqb (crops_run.crop_type r) k = false)
          by (apply String.eqb_neq; congruence).
        rewrite Hk, app_nil_r. apply Hval. exact Hd.
      * rewrite String.eqb_refl. destruct (Hval _ _ Hd) as (Hfn & Hfp).
        apply Hstep; assumption.
      * rewrite String.eqb_refl. apply Hstep;
          rewrite of_crop_absent; try reflexivity;
          intros r' Hr' Heq; apply Hnot; rewrite <- Heq; apply Hkeys; exact Hr'.
    + intros r' Hr'. unfold crops_run.count_issue. rewrite dict_upsert_keys.
      apply in_app_or in Hr'. destruct Hr' as [Hr' | [<- | []]].
      * right. apply Hkeys. exact Hr'.
      * left. reflexivity.
    + split; [exact Hnd' | split; [exact Hval' | ]].
      intros k. rewrite Hkeys'. unfold crops_run.count_issue at 1.
      rewrite dict_upsert_keys. split.
      * intros [[-> | Hd] | (r' & Hr' & Hk)].
        -- right. exists r. split; [left; reflexivity | reflexivity].
        -- left. exact Hd.
        -- right. exists r'. split; [right; exact Hr' | exact Hk].
      * intros [Hd | (r' & [<- | Hr'] & Hk)].
        -- left. right. exact Hd.
        -- left. left. symmetry. exact Hk.
        -- right. exists r'. split; [exact Hr' | exact Hk].
Qed.

(** [suggest_adjustments] prints exactly one line for each crop among the
    incorrect results whose two kinds of error differ in number: an increase
    of 0.5 over the current adjustment when more healthy plants were missed
    than affected ones, a decrease of 0.3 in the opposite case. *)
Theorem suggestions_characterised (l : list crops_run.test_result)
  (s : crops_run.suggestion) :
  In s (crops_run.suggest_adjustments l)
  <-> exists k,
        (exists r, In r (crops_run.incorrect l) /\ crops_run.crop_type r = k)
        /\ ((length (filter crops_run.missed_affected
                       (crops_run.of_crop k (crops_run.incorrect l)))
             < length (filter crops_run.missed_healthy
                         (crops_run.of_crop k (crops_run.incorrect l))))%nat
            /\ s = crops_run.Increase k
                     (test_new_crops_model.get_crop_adjustment (Some k) + 0.5)
                     (test_new_crops_model.get_crop_adjustment (Some k))
            \/ (length (filter crops_run.missed_healthy
                          (crops_run.of_crop k (crops_run.incorrect l)))
                < length (filter crops_run.missed_affected
                            (crops_run.of_crop k (crops_run.incorrect l))))%nat
               /\ s = crops_run.Decrease k
                        (test_new_crops_model.get_crop_adjustment (Some k) - 0.3)
                        (test_new_crops_model.get_crop_adjustment (Some k))).
Proof.
  unfold crops_run.suggest_adjustments. cbv zeta.
  change (filter (fun r => negb (crops_run.simulation_correct r)) l)
    with (crops_run.incorrect l).
  destruct (count_issue_invariant [] (crops_run.incorrect l) [])
    as (Hnd & Hval & Hkeys).
  { constructor. }
  { intros k i []. }
  { intros r []. }
  simpl app in Hval. rewrite in_flat_map. split.
  - intros [[k i] [Hin Hs]]. exists k.
    destruct (Hval k i Hin) as [Hfn Hfp].
    split.
    + assert (Hk : In k (map fst (fold_left crops_run.count_issue
                                    (crops_run.incorrect l) [])))
        by (apply (in_map fst) in Hin; exact Hin).
      apply Hkeys in Hk. destruct Hk as [[] | Hk]. exact Hk.
    + unfold crops_run.suggest_for in Hs. cbv zeta in Hs.
      rewrite <- Hfn, <- Hfp.
      destruct (crops_run.false_positive i <? crops_run.false_negative i)%nat eqn:H1.
      * apply Nat.ltb_lt in H1. destruct Hs as [<- | []]. left. split; [exact H1 | reflexivity].
      * destruct (crops_run.false_negative i <? crops_run.false_positive i)%nat eqn:H2.
        -- apply Nat.ltb_lt in H2. destruct Hs as [<- | []].
           right. split; [exact H2 | reflexivity].
        -- destruct Hs.
  - intros (k & Hr & Hs).
    assert (Hk : In k (map fst (fold_left crops_run.count_issue
                                  (crops_run.incorrect l) [])))
      by (apply Hkeys; right; exact Hr).
    apply in_map_iff in Hk. destruct Hk as [[k' i] [Heq Hin]].
    simpl in Heq. subst k'. exists (k, i). split; [exact Hin | ].
    destruct (Hval k i Hin) as [Hfn Hfp]. rewrite <- Hfn, <- Hfp in Hs.
    unfold crops_run.suggest_for. cbv zeta.
    destruct Hs as [[Hlt ->] | [Hlt ->]].
    + apply Nat.ltb_lt in Hlt. rewrite Hlt. left. reflexivity.
    + assert (H1 : (crops_run.false_positive i <? crops_run.false_negative i)%nat = false)
        by (apply Nat.ltb_ge; lia).
      apply Nat.ltb_lt in Hlt. rewrite H1, Hlt. left. reflexivity.
Qed.

(** When no result is marked incorrect, [suggest_adjustments] prints
    nothing. *)
Theorem no_suggestions_when_all_correct (l : list crops_run.test_result) :
  (forall r, In r l -> crops_run.simulation_correct r = true) ->
  crops_run.suggest_adjustments l = [].
Proof.
  intros Hall. unfold crops_run.suggest_adjustments. cbv zeta.
  assert (Hinc : filter (fun r => negb (crops_run.simulation_correct r)) l = []).
  { induction l as [|r l IH]; [reflexivity | ].
    simpl. rewrite (Hall r (or_introl eq_refl)). simpl.
    apply IH. intros r' Hr'. apply Hall. right. exact Hr'. }
  rewrite Hinc. reflexivity.
Qed.

Lemma no_suggestions_when_all_correct_witness :
  crops_run.suggest_adjustments
    [crops_run.mkTestResult "palak_healthy_1.jpg" "palak" true None 0.8 true None None;
     crops_run.mkTestResult "siru_unhealthy_2.jpg" "siru keerai" false None 0.2 true
       None None] = [].
Proof.
  apply no_suggestions_when_all_correct.
  intros r [<- | [<- | []]]; reflexivity.
Defined.

(** ** The report of a test run *)

Lemma length_insert_sorted (x : string) (l : list string) :
  length (crops_run.insert_sorted x l) = S (length l).
Proof.
  induction l as [|y l IH]; [reflexivity | ].
  simpl. destruct (String.leb x y); simpl; [reflexivity | rewrite IH; reflexivity].
Qed.

Lemma length_sort (l : list string) : length (crops_run.sort l) = length l.
Proof.
  induction l as [|x l IH]; [reflexivity | ].
  simpl. rewrite length_insert_sorted, IH. reflexivity.
Qed.

Lemma accuracy_bounds (c t : nat) :
  (c <= t)%nat -> (0 < t)%nat ->
  0 <= inject_Z (Z.of_nat c) / inject_Z (Z.of_nat t) * 100 <= 100.
Proof.
  intros Hct Ht.
  assert (Ht' : 0 < inject_Z (Z.of_nat t)) by (unfold Qlt, inject_Z; simpl; lia).
  assert (Hc0 : 0 <= inject_Z (Z.of_nat c)) by (unfold Qle, inject_Z; simpl; lia).
  assert (Hc1 : inject_Z (Z.of_nat c) <= inject_Z (Z.of_nat t))
    by (rewrite <- Zle_Qle; lia).
  assert (H0 : 0 <= inject_Z (Z.of_nat c) / inject_Z (Z.of_nat t))
    by (apply Qle_shift_div_l; [exact Ht' | lra]).
  assert (H1 : inject_Z (Z.of_nat c) / inject_Z (Z.of_nat t) <= 1)
    by (apply Qle_shift_div_r; [exact Ht' | lra]).
  lra.
Qed.

Section Report.

Import crops_run.

Variable E : Externals.
Variable open_path : string -> result (pil_image E).
Variable np_sqrt : Q -> Q.
Variable draw : nat -> Q.
Variable dump_results : list test_result -> result unit.
Variable h5_model : option (keras_model E).

(** Without the folder a test run returns nothing.  When listing the folder
    raises, the run raises that exception.  With the folder listed, the run
    raises only if writing the results file raises, and then that exception;
    otherwise it returns its results, which were written: the total counts
    them and the correct counter counts those marked correct; there are at
    most as many as listed names; the accuracy is 100 times correct over
    total, between 0 and 100, and 0 for an empty run; suggestions are asked
    for exactly when the accuracy is below 80 (so also for an empty run). *)
Theorem test_run_counts (listdir : option (result (list string))) (drawn : nat) :
  match listdir with
  | None =>
      test_all_images E open_path np_sqrt draw dump_results listdir h5_model drawn
      = Ok None
  | Some (Raise e) =>
      test_all_images E open_path np_sqrt draw dump_results listdir h5_model drawn
      = Raise e
  | Some (Ok names) =>
      match test_all_images E open_path np_sqrt draw dump_results listdir h5_model
              drawn with
      | Raise e =>
          exists rs, dump_results rs = Raise e /\ (length rs <= length names)%nat
      | Ok None => False
      | Ok (Some rep) =>
          dump_results (results rep) = Ok tt
          /\ total_predictions rep = length (results rep)
          /\ correct_predictions rep
             = length (filter simulation_correct (results rep))
          /\ (correct_predictions rep <= total_predictions rep <= length names)%nat
          /\ 0 <= accuracy rep <= 100
          /\ ((0 < total_predictions rep)%nat ->
              accuracy rep
              == 100 * inject_Z (Z.of_nat (correct_predictions rep))
                 / inject_Z (Z.of_nat (total_predictions rep)))
          /\ (total_predictions rep = 0%nat ->
              accuracy rep = 0 /\ suggestions rep = Some [])
          /\ (80 <= accuracy rep -> suggestions rep = None)
          /\ (accuracy rep < 80 ->
              suggestions rep = Some (suggest_adjustments (results rep)))
      end
  end.
Proof.
  destruct listdir as [[names | e] | ]; [ | reflexivity | reflexivity].
  unfold test_all_images. cbv zeta. cbn [Py.bind].
  set (files := sort (filter _ names)).
  destruct (test_images_invariant E open_path np_sqrt draw h5_model files
              (mkLoop [] 0 0 drawn) eq_refl eq_refl)
    as (st & Hrun & Ht & Hc & Hlen & _).
  rewrite Hrun. cbn [Py.bind].
  assert (Hfiles : (length files <= length names)%nat)
    by (unfold files; rewrite length_sort; apply filter_length_le).
  assert (Hle : (loop_correct st <= loop_total st)%nat)
    by (rewrite Hc, Ht; apply filter_length_le).
  cbn [loop_results length] in Hlen.
  destruct (dump_results (loop_results st)) as [[] | e] eqn:Hdump; cbn [Py.bind].
  2: { exists (loop_results st). split; [exact Hdump | lia]. }
  cbn [total_predictions results correct_predictions accuracy suggestions].
  split; [exact Hdump | ].
  split; [exact Ht | split; [exact Hc | split; [lia | ]]].
  destruct (0 <? loop_total st)%nat eqn:Hpos.
  - apply Nat.ltb_lt in Hpos.
    pose proof (accuracy_bounds _ _ Hle Hpos) as Hacc.
    split; [exact Hacc | ].
    split; [intros _; unfold Qdiv; ring | ].
    split; [lia | ].
    split; intros Ha.
    + apply ltb_false in Ha. rewrite Ha. reflexivity.
    + apply ltb_true in Ha. rewrite Ha. reflexivity.
  - apply Nat.ltb_ge in Hpos.
    split; [lra | ]. split; [lia | ].
    assert (Hnil : loop_results st = [])
      by (destruct (loop_results st); [reflexivity | simpl in Ht; lia]).
    split; [intros _; rewrite Hnil; split; reflexivity | ].
    split; intros Ha; [lra | reflexivity].
Qed.

(** Every entry of the results of a test run comes from a listed file with
    an image extension; its label and expected verdict are those read off
    the file name; it has a feature vector, a prediction within
    [[0.001, 0.999]], and is marked correct exactly when the prediction is on
    the expected side of 0.5. *)
Theorem test_run_entries (names : list string) (drawn : nat) (rep : report)
  (r : test_result) :
  test_all_images E open_path np_sqrt draw dump_results (Some (Ok names)) h5_model
    drawn
  = Ok (Some rep) ->
  In r (results rep) ->
  In (filename r) names
  /\ is_image_file (filename r) = true
  /\ entry_ok r.
Proof.
  unfold test_all_images. cbv zeta. cbn [Py.bind].
  set (files := sort (filter _ names)).
  destruct (test_images_invariant E open_path np_sqrt draw h5_model files
              (mkLoop [] 0 0 drawn) eq_refl eq_refl)
    as (st & Hrun & _ & _ & _ & Hin).
  rewrite Hrun. cbn [Py.bind].
  destruct (dump_results (loop_results st)) as [u | e]; cbn [Py.bind];
    [ | discriminate].
  intros Hrep. injection Hrep as <-.
  cbn [results]. intros Hr.
  destruct (Hin r Hr) as [[] | [Hf Hok]].
  unfold files in Hf. apply (proj1 (in_sort _ _)) in Hf.
  apply (proj1 (filter_In _ _ _)) in Hf.
  destruct Hf as [Hn Himg]. split; [exact Hn | split; [exact Himg | exact Hok]].
Qed.

End Report.

Lemma test_run_entries_witness :
  exists rep r,
    crops_run.test_all_images accepting_externals (fun _ => Ok tt) sqrt_floor
      (fun _ => 0) (fun _ => Ok tt)
      (Some (Ok ["palak_healthy_1.JPG"; "notes.txt"])) None 0%nat
    = Ok (Some rep)
    /\ crops_run.results rep = [r]
    /\ crops_run.filename r = "palak_healthy_1.JPG"
    /\ crops_run.entry_ok r.
Proof.
  eexists. eexists. split; [reflexivity | ]. split; [reflexivity | ].
  split; [reflexivity | ].
  eapply (test_run_entries accepting_externals (fun _ => Ok tt) sqrt_floor
            (fun _ => 0) (fun _ => Ok tt) None
            ["palak_healthy_1.JPG"; "notes.txt"] 0%nat).
  - reflexivity.
  - left. reflexivity.
Defined.

(** ** File extensions *)

Lemma endswith_spec (s suffix : string) :
  crops_run.endswith s suffix = true <-> exists pre, s = pre ++ suffix.
Proof.
  induction s as [|c s IH].
  - simpl. destruct suffix as [|d suffix]; simpl.
    + split; [intros _; exists ""; reflexivity | reflexivity].
    + split; [discriminate | ].
      intros [pre Hp]. destruct pre; discriminate Hp.
  - cbn [crops_run.endswith].
    destruct (String.eqb (String c s) suffix) eqn:Heq.
    + apply String.eqb_eq in Heq. split; [intros _; exists ""; exact Heq | reflexivity].
    + rewrite IH. apply String.eqb_neq in Heq. split.
      * intros [pre ->]. exists (String c pre). reflexivity.
      * intros [pre Hp]. destruct pre as [|d pre].
        -- simpl in Hp. congruence.
        -- simpl in Hp. injection Hp as _ ->. exists pre. reflexivity.
Qed.

(** ** The logic self-test of [accurate_convert] *)

(** The self-test's score lies in [[-0.1, 1.1]] and its prediction in
    [[0.001, 0.999]]; a case brighter than 0.4 and greener than 0.3 is
    reported healthy, a case darker than 0.2 and less green than 0.25 is
    reported affected, whatever the texture; and the four cases of the
    built-in table all pass. *)
Theorem self_test_logic (case : accurate_convert.test_case) :
  -0.1 <= accurate_convert.health_score_of case <= 1.1
  /\ 0.001 <= accurate_convert.prediction_of case <= 0.999
  /\ (0.4 < accurate_convert.brightness case -> 0.3 < accurate_convert.green case ->
      accurate_convert.result_of case = "Healthy")
  /\ (accurate_convert.brightness case < 0.2 -> accurate_convert.green case < 0.25 ->
      accurate_convert.result_of case = "Affected")
  /\ forallb accurate_convert.passes accurate_convert.test_cases = true.
Proof.
  split; [ | split; [apply clamp_range | split; [ | split; [ | reflexivity]]]].
  - unfold accurate_convert.health_score_of. cbv zeta.
    repeat match goal with
           | |- context [if ?b then _ else _] => destruct b
           end; lra.
  - intros Hb Hg. unfold accurate_convert.result_of, accurate_convert.prediction_of.
    assert (H : 0.5 < Py.max 0.001 (Py.min 0.999 (accurate_convert.health_score_of case))).
    { apply clamp_above; [reflexivity | ].
      unfold accurate_convert.health_score_of. cbv zeta.
      repeat match goal with
             | |- context [if ?b then _ else _] => destruct b eqn:?
             end; props_of_tests; lra. }
    apply gtb_true in H. rewrite H. reflexivity.
  - intros Hb Hg. unfold accurate_convert.result_of, accurate_convert.prediction_of.
    assert (H : Py.max 0.001 (Py.min 0.999 (accurate_convert.health_score_of case)) < 0.5).
    { apply clamp_below; [reflexivity | ].
      unfold accurate_convert.health_score_of. cbv zeta.
      repeat match goal with
             | |- context [if ?b then _ else _] => destruct b eqn:?
             end; props_of_tests; lra. }
    apply Qlt_le_weak in H. apply gtb_false in H. rewrite H. reflexivity.
Qed.
